(** * Change streams and cursors of the MongoDB driver port (deno_mongo2)

    A shallow embedding of [src/change_stream.ts] (class [ChangeStream] and
    class [ChangeStreamCursor]) and of [src/cursor/abstract_cursor.ts]
    (class [AbstractCursor] with the module-level functions [next],
    [nextDocument], [cursorIsDead] and [cleanupCursor]), and of
    [src/cursor/find_cursor.ts] (class [FindCursor]).

    Mutable objects become records that are passed through every operation;
    what an operation does to the outside world (events emitted, commands
    sent to the server, sessions ended, continuations invoked) is returned
    as a list of effects, in the order in which the source performs them.
    Asynchronous calls are run to completion: the reply of the server is
    taken from an explicit environment. *)

From Stdlib Require Import ZArith List Bool Lia.
From stdpp Require Import base option list gmap strings.

Open Scope Z_scope.

(** ** JavaScript values *)

Module Js.

(** The values the modelled code inspects.  Objects are opaque: the driver
    only tests them for truthiness and hands them on. *)
Inductive value : Type :=
| Undefined
| Null
| Bool (b : bool)
| Num (n : Z)
| Str (s : string)
| Obj (o : Z).

#[global] Instance value_eq_dec : EqDecision value.
Proof. solve_decision. Defined.

(** [if (v)], [v && ...], [!v] *)
Definition truthy (v : value) : bool :=
  match v with
  | Undefined | Null => false
  | Bool b => b
  | Num n => negb (n =? 0)
  | Str s => negb (String.eqb s "")
  | Obj _ => true
  end.

(** [v == null] *)
Definition nullish (v : value) : bool :=
  match v with
  | Undefined | Null => true
  | _ => false
  end.

(** [o.k] on a plain object: a missing key reads as [undefined]. *)
Definition get (o : gmap string value) (k : string) : value :=
  default Undefined (o !! k).

End Js.

Export Js.

(** A BSON document, [Document = { [key: string]: any }]. *)
Abbreviation Document := (gmap string value).

(** ** Errors raised or passed on by the modelled code *)

Inductive Error : Type :=
| MongoCursorExhaustedError
| MongoRuntimeError (msg : string)
| MongoAPIError (msg : string)
| MongoChangeStreamError (msg : string)
| MongoNetworkError (msg : string)
| MongoServerError (code : Z).

#[global] Instance Error_eq_dec : EqDecision Error.
Proof. solve_decision. Defined.

Definition is_Some_b {A} (o : option A) : bool :=
  match o with Some _ => true | None => false end.

(** [error instanceof MongoNetworkError] *)
Definition is_network (e : Error) : bool :=
  match e with MongoNetworkError _ => true | _ => false end.

Definition NO_RESUME_TOKEN_ERROR : string :=
  "A change stream document has been received that lacks a resume token (_id).".
Definition NO_CURSOR_ERROR : string := "ChangeStream has no cursor".
Definition CHANGESTREAM_CLOSED_ERROR : string := "ChangeStream is closed".

(** ** 64-bit cursor ids *)

Module Long.

(** [this[kId] === Long.ZERO] compares object identity, [id.isZero()] the
    numeric value; so the constant [Long.ZERO] is kept apart from every
    other [Long] object. *)
Inductive t : Type :=
| ZERO
| Alloc (v : Z).

#[global] Instance t_eq_dec : EqDecision t.
Proof. solve_decision. Defined.

Definition isZero (l : t) : bool :=
  match l with ZERO => true | Alloc v => v =? 0 end.

(** [l === Long.ZERO] *)
Definition is_ZERO (l : t) : bool :=
  match l with ZERO => true | Alloc _ => false end.

(** [Long.fromNumber] of the bson library builds a new object from the
    bits of a finite number. *)
Definition fromNumber (n : Z) : t := Alloc n.

(** [response.cursor.id : number | Long] *)
Inductive wire : Type :=
| Number (n : Z)
| Object (l : t).

(** [typeof id === 'number' ? Long.fromNumber(id) : id] *)
Definition ofWire (w : wire) : t :=
  match w with Number n => fromNumber n | Object l => l end.

End Long.

(** ** Collaborators of a cursor *)

(** A server handle; the spec lists [wire_version] among its attributes. *)
Record Server : Type := mkServer { wire_version : Z }.

(** Modelled from the spec: [utils.maxWireVersion] is not among the sources.
    The spec gives every server handle a [wire_version]; without a handle no
    version is known, and the model answers 0, below every threshold that
    the code compares with. *)
Definition maxWireVersion (s : option Server) : Z :=
  match s with Some srv => wire_version srv | None => 0 end.

(** What the cursor asks of its session: [session.owner === cursor] and
    [session.inTransaction()]. *)
Record ClientSession : Type := mkSession {
  owner_is_cursor : bool;
  inTransaction : bool
}.

(** Events of cursors and change streams. *)
Inductive Event : Type :=
| CLOSE
| RESUME_TOKEN_CHANGED (token : value)
| INIT
| MORE
| RESPONSE
| END
| ERROR (e : Error)
| CHANGE (change : Document).

(** Effects of cursor operations. *)
Inductive Effect : Type :=
| Emit (e : Event)
| KillCursors (ns : string) (id : Long.t)
| GetMore (ns : string) (id : Long.t) (batchSize : Z)
| EndSession (error : option Error)
| ClearPinnedConnection (error : option Error)
| SelectServer
| StartSession.

(** ** [AbstractCursor] *)

Module Cursor.

Record t : Type := mk {
  kId : option Long.t;
  kSession : option ClientSession;
  kServer : option Server;
  kNamespace : string;
  kDocuments : list Document;
  (** [this[kTransform]], for the transforms that map a document to a
      document; [map] also takes a function to another type, and a
      transform that returns [null], [0] or an empty string, which the
      tests of [hasNext], [next] and [toArray] on the transformed value tell
      apart, is outside this model *)
  kTransform : option (Document -> Document);
  kInitialized : bool;
  kClosed : bool;
  kKilled : bool;
  (** [this[kOptions].batchSize] *)
  batchSize : option Z;
  (** [this[kTopology].loadBalanced] *)
  loadBalanced : bool
}.

Definition set_kId (v : option Long.t) (c : t) : t :=
  mk v (kSession c) (kServer c) (kNamespace c) (kDocuments c) (kTransform c)
     (kInitialized c) (kClosed c) (kKilled c) (batchSize c) (loadBalanced c).
Definition set_kSession (v : option ClientSession) (c : t) : t :=
  mk (kId c) v (kServer c) (kNamespace c) (kDocuments c) (kTransform c)
     (kInitialized c) (kClosed c) (kKilled c) (batchSize c) (loadBalanced c).
Definition set_kServer (v : option Server) (c : t) : t :=
  mk (kId c) (kSession c) v (kNamespace c) (kDocuments c) (kTransform c)
     (kInitialized c) (kClosed c) (kKilled c) (batchSize c) (loadBalanced c).
Definition set_kNamespace (v : string) (c : t) : t :=
  mk (kId c) (kSession c) (kServer c) v (kDocuments c) (kTransform c)
     (kInitialized c) (kClosed c) (kKilled c) (batchSize c) (loadBalanced c).
Definition set_kDocuments (v : list Document) (c : t) : t :=
  mk (kId c) (kSession c) (kServer c) (kNamespace c) v (kTransform c)
     (kInitialized c) (kClosed c) (kKilled c) (batchSize c) (loadBalanced c).
Definition set_kInitialized (v : bool) (c : t) : t :=
  mk (kId c) (kSession c) (kServer c) (kNamespace c) (kDocuments c) (kTransform c)
     v (kClosed c) (kKilled c) (batchSize c) (loadBalanced c).
Definition set_kClosed (v : bool) (c : t) : t :=
  mk (kId c) (kSession c) (kServer c) (kNamespace c) (kDocuments c) (kTransform c)
     (kInitialized c) v (kKilled c) (batchSize c) (loadBalanced c).
Definition set_kKilled (v : bool) (c : t) : t :=
  mk (kId c) (kSession c) (kServer c) (kNamespace c) (kDocuments c) (kTransform c)
     (kInitialized c) (kClosed c) v (batchSize c) (loadBalanced c).

(** The constructor: [options.batchSize] is kept when it is a number; the
    options that reach a cursor here carry no session. *)
Definition new (loadBalanced : bool) (namespace : string)
    (options : gmap string value) : t :=
  mk None None None namespace [] None false false false
     (match get options "batchSize" with Num n => Some n | _ => None end)
     loadBalanced.

(** [bufferedCount()] *)
Definition bufferedCount (c : t) : Z := Z.of_nat (length (kDocuments c)).

(** [cursorIsDead]: [!!cursorId && cursorId.isZero()] *)
Definition cursorIsDead (c : t) : bool :=
  match kId c with Some id => Long.isZero id | None => false end.

(** What both exits of [cleanupCursor] do with the session: an owned
    session is ended, a foreign one outside a transaction has its pinned
    connection cleared. *)
Definition releaseSession (error : option Error) (c : t) : list Effect :=
  match kSession c with
  | Some session =>
      if owner_is_cursor session then [EndSession error]
      else if negb (inTransaction session) then [ClearPinnedConnection error]
      else []
  | None => []
  end.

(** [completeCleanup] inside [cleanupCursor]: the session, then
    [cursor.emit(CLOSE)], whatever [needsToEmitClosed] says. *)
Definition completeCleanup (error : option Error) (c : t) : t * list Effect :=
  (c, releaseSession error c ++ [Emit CLOSE]).

(** The server cursor that [cleanupCursor] has to kill, when
    [cursorId == null || server == null || cursorId.isZero() || cursorNs == null]
    is false.  [kNamespace] is assigned by the constructor and never
    cleared, so its test is always passed. *)
Definition killTarget (c : t) : option (string * Long.t) :=
  match kId c, kServer c with
  | Some cursorId, Some _ =>
      if Long.isZero cursorId then None else Some (kNamespace c, cursorId)
  | _, _ => None
  end.

(** [cleanupCursor(cursor, options, callback)]; the callback runs when the
    returned effects have happened ([killCursors] and [endSession] call
    back, their errors are ignored). *)
Definition cleanupCursor (error : option Error) (needsToEmitClosed : option bool)
    (c : t) : t * list Effect :=
  let needsToEmitClosed :=
    default (length (kDocuments c) =? 0)%nat needsToEmitClosed in
  if match error with
     | Some e => loadBalanced c && is_network e
     | None => false
     end
  then completeCleanup error c
  else
    match killTarget c with
    | None =>
        let (c1, e1) :=
          if needsToEmitClosed
          then (set_kId (Some Long.ZERO) (set_kClosed true c), [Emit CLOSE])
          else (c, []) in
        (c1, e1 ++ releaseSession error c1)
    | Some (cursorNs, cursorId) =>
        let c1 := set_kKilled true c in
        let (c2, e2) := completeCleanup error c1 in
        (c2, KillCursors cursorNs cursorId :: e2)
    end.

(** [AbstractCursor.close] *)
Definition close (c : t) : t * list Effect :=
  let needsToEmitClosed := negb (kClosed c) in
  cleanupCursor None (Some needsToEmitClosed) (set_kClosed true c).

(** [nextDocument]: documents are objects, hence truthy. *)
Definition nextDocument (c : t) : option Document * t :=
  match kDocuments c with
  | [] => (None, c)
  | doc :: rest =>
      let c1 := set_kDocuments rest c in
      match kTransform c with
      | Some transform => (Some (transform doc), c1)
      | None => (Some doc, c1)
      end
  end.

(** *** The outside world of a cursor *)

(** The cursor descriptor of a server response. *)
Record CursorDesc : Type := mkDesc {
  cd_id : Long.wire;
  cd_ns : option string;
  cd_batch : list Document
}.

(** [ExecutionResult]: what [_initialize] hands back. *)
Record ExecutionResult : Type := mkExec {
  st_server : Server;
  st_session : option ClientSession;
  (** [response.cursor], absent for explain and the like *)
  st_cursor : option CursorDesc;
  (** the raw response *)
  st_response : Document
}.

Inductive GetMoreReply : Type :=
| GetMoreErr (e : Error)
| GetMoreOk (id : Long.wire) (nextBatch : list Document).

(** The topology and the server as far as a cursor consults them.  The
    replies are consumed in order; a call whose reply is missing never
    calls back.  A successful [selectServer] settles the question of
    session support. *)
Record Env : Type := mkEnv {
  shouldCheckForSessionSupport : bool;
  selectServer : option Error;
  hasSessionSupport : bool;
  initReplies : list (option Error * option ExecutionResult);
  getMoreReplies : list GetMoreReply
}.

Definition serverSelected (env : Env) : Env :=
  mkEnv false (selectServer env) (hasSessionSupport env)
        (initReplies env) (getMoreReplies env).
Definition popInit (env : Env) : Env :=
  mkEnv (shouldCheckForSessionSupport env) (selectServer env)
        (hasSessionSupport env) (tail (initReplies env)) (getMoreReplies env).
Definition popGetMore (env : Env) : Env :=
  mkEnv (shouldCheckForSessionSupport env) (selectServer env)
        (hasSessionSupport env) (initReplies env) (tail (getMoreReplies env)).

(** The outcome of a call that takes a callback: [callback(err, val)], or
    no call of the callback at all. *)
Inductive Result (A : Type) : Type :=
| Pending
| Done (err : option Error) (val : option A).
Arguments Pending {A}.
Arguments Done {A} err val.

(** The callback that [kInit] passes to [_initialize]. *)
Definition initialized (err : option Error) (state : option ExecutionResult)
    (c : t) : Result Document * t * list Effect :=
  let c1 :=
    match state with
    | Some state =>
        let c := set_kSession (st_session state) (set_kServer (Some (st_server state)) c) in
        let c :=
          match st_cursor state with
          | Some cur =>
              let c := set_kId (Some (Long.ofWire (cd_id cur))) c in
              let c :=
                match cd_ns cur with
                | Some n => if String.eqb n "" then c else set_kNamespace n c
                | None => c
                end in
              set_kDocuments (cd_batch cur) c
          | None => c
          end in
        match kId c with
        | None => set_kDocuments [st_response state] (set_kId (Some Long.ZERO) c)
        | Some _ => c
        end
    | None => c
    end in
  let c2 := set_kInitialized true c1 in
  if is_Some_b err || cursorIsDead c2 then
    let (c3, e3) := cleanupCursor err None c2 in
    let (doc, c4) := nextDocument c3 in
    (Done err doc, c4, e3)
  else (Done None None, c2, []).

(** [AbstractCursor[kInit]] *)
Fixpoint kInit (fuel : nat) (env : Env) (c : t)
    : Result Document * t * Env * list Effect :=
  match fuel with
  | O => (Pending, c, env, [])
  | S fuel =>
      let run_initialize (c : t) (before : list Effect) :=
        match initReplies env with
        | [] => (Pending, c, env, before)
        | (err, state) :: _ =>
            let '(r, c1, e1) := initialized err state c in
            (r, c1, popInit env, before ++ e1)
        end in
      match kSession c with
      | None =>
          if shouldCheckForSessionSupport env then
            match selectServer env with
            | Some err => (Done (Some err) None, c, env, [SelectServer])
            | None =>
                let '(r, c1, env1, e1) := kInit fuel (serverSelected env) c in
                (r, c1, env1, SelectServer :: e1)
            end
          else if hasSessionSupport env then
            run_initialize (set_kSession (Some (mkSession true false)) c) [StartSession]
          else run_initialize c []
      | Some _ => run_initialize c []
      end
  end.

(** [AbstractCursor._getMore] of the base class: the reply, if any. *)
Definition _getMore (batchSize : Z) (env : Env) (c : t)
    : option GetMoreReply * Env * list Effect :=
  match kId c with
  | None => (Some (GetMoreErr (MongoRuntimeError "Unable to iterate cursor with no id")), env, [])
  | Some cursorId =>
      match kServer c with
      | None =>
          (Some (GetMoreErr (MongoRuntimeError "Unable to iterate cursor without selected server")),
           env, [])
      | Some _ =>
          (head (getMoreReplies env), popGetMore env,
           [GetMore (kNamespace c) cursorId batchSize])
      end
  end.

(** The module-level [next(cursor, blocking, callback)].  Every unit of
    [fuel] pays for one entry into the function. *)
Fixpoint next (fuel : nat) (blocking : bool) (env : Env) (c : t)
    : Result Document * t * Env * list Effect :=
  match fuel with
  | O => (Pending, c, env, [])
  | S fuel =>
      if kClosed c then (Done None None, c, env, [])
      else if negb (length (kDocuments c) =? 0)%nat then
        let (doc, c1) := nextDocument c in (Done None doc, c1, env, [])
      else
        match kId c with
        | None =>
            let '(r, c1, env1, e1) := kInit fuel env c in
            match r with
            | Pending => (Pending, c1, env1, e1)
            | Done (Some err) _ => (Done (Some err) None, c1, env1, e1)
            | Done None (Some value) => (Done None (Some value), c1, env1, e1)
            | Done None None =>
                let '(r2, c2, env2, e2) := next fuel blocking env1 c1 in
                (r2, c2, env2, e1 ++ e2)
            end
        | Some _ =>
            if cursorIsDead c then
              let (c1, e1) := cleanupCursor None None c in
              (Done None None, c1, env, e1)
            else
              let batchSize :=
                match batchSize c with
                | Some n => if n =? 0 then 1000 else n
                | None => 1000
                end in
              let '(reply, env1, e1) := _getMore batchSize env c in
              match reply with
              | None => (Pending, c, env1, e1)
              | Some reply =>
                  let (err, c1) :=
                    match reply with
                    | GetMoreOk id nextBatch =>
                        (None, set_kId (Some (Long.ofWire id)) (set_kDocuments nextBatch c))
                    | GetMoreErr e => (Some e, c)
                    end in
                  if is_Some_b err || cursorIsDead c1 then
                    let (c2, e2) := cleanupCursor err None c1 in
                    let (doc, c3) := nextDocument c2 in
                    (Done err doc, c3, env1, e1 ++ e2)
                  else if (length (kDocuments c1) =? 0)%nat && negb blocking then
                    (Done None None, c1, env1, e1)
                  else
                    let '(r2, c2, env2, e2) := next fuel blocking env1 c1 in
                    (r2, c2, env2, e1 ++ e2)
              end
        end
  end.

(** [AbstractCursor.next(callback)] *)
Definition next_method (fuel : nat) (env : Env) (c : t)
    : Result Document * t * Env * list Effect :=
  if match kId c with Some id => Long.is_ZERO id | None => false end
  then (Done (Some MongoCursorExhaustedError) None, c, env, [])
  else next fuel true env c.

(** [AbstractCursor.tryNext(callback)] *)
Definition tryNext (fuel : nat) (env : Env) (c : t)
    : Result Document * t * Env * list Effect :=
  if match kId c with Some id => Long.is_ZERO id | None => false end
  then (Done (Some MongoCursorExhaustedError) None, c, env, [])
  else next fuel false env c.

(** [AbstractCursor.hasNext(callback)] *)
Definition hasNext (fuel : nat) (env : Env) (c : t)
    : Result bool * t * Env * list Effect :=
  if match kId c with Some id => Long.is_ZERO id | None => false end
  then (Done None (Some false), c, env, [])
  else if negb (length (kDocuments c) =? 0)%nat then (Done None (Some true), c, env, [])
  else
    let '(r, c1, env1, e1) := next fuel true env c in
    match r with
    | Pending => (Pending, c1, env1, e1)
    | Done (Some err) _ => (Done (Some err) None, c1, env1, e1)
    | Done None (Some doc) =>
        (Done None (Some true), set_kDocuments (doc :: kDocuments c1) c1, env1, e1)
    | Done None None => (Done None (Some false), c1, env1, e1)
    end.

End Cursor.

(** ** [ChangeStreamCursor] *)

Definition CHANGE_STREAM_OPTIONS : list string :=
  ["resumeAfter"; "startAfter"; "startAtOperationTime"; "fullDocument"].

Definition CURSOR_OPTIONS : list string :=
  ["batchSize"; "maxAwaitTimeMS"; "collation"; "readPreference"; "comment"]
    ++ CHANGE_STREAM_OPTIONS.

(** Modelled from the spec: [utils.filterOptions] is not among the sources.
    The spec calls its result "the recognized subset of options": the
    entries of [options] whose key is one of [names], values untouched. *)
Definition filterOptions (options : gmap string value) (names : list string)
    : gmap string value :=
  filter (λ kv, kv.1 ∈ names) options.

(** A stage of an aggregation pipeline: the [$changeStream] stage that the
    driver builds, or a stage of the user. *)
Inductive Stage : Type :=
| ChangeStreamStage (stageOptions : gmap string value)
| UserStage (stage : Document).

Module ChangeStreamCursor.

(** [ChangeStreamAggregateRawResult]: the batch is [firstBatch] in the
    reply to the aggregate and [nextBatch] in the reply to a getMore. *)
Inductive Batch : Type :=
| FirstBatch (docs : list Document)
| NextBatch (docs : list Document).

Record RawResult : Type := mkRaw {
  (** [response.cursor.postBatchResumeToken], [undefined] when absent *)
  r_postBatchResumeToken : value;
  r_ns : string;
  r_id : Long.wire;
  r_batch : Batch;
  (** [response.operationTime] *)
  r_operationTime : value;
  (** the response as a document *)
  r_document : Document
}.

Record t : Type := mk {
  (** the fields inherited from [AbstractCursor] *)
  base : Cursor.t;
  _resumeToken : value;
  startAtOperationTime : value;
  hasReceived : option bool;
  resumeAfter : value;
  startAfter : value;
  options : gmap string value;
  postBatchResumeToken : value;
  pipeline : list Stage
}.

Definition set_base (v : Cursor.t) (c : t) : t :=
  mk v (_resumeToken c) (startAtOperationTime c) (hasReceived c) (resumeAfter c)
     (startAfter c) (options c) (postBatchResumeToken c) (pipeline c).
Definition set__resumeToken (v : value) (c : t) : t :=
  mk (base c) v (startAtOperationTime c) (hasReceived c) (resumeAfter c)
     (startAfter c) (options c) (postBatchResumeToken c) (pipeline c).
Definition set_startAtOperationTime (v : value) (c : t) : t :=
  mk (base c) (_resumeToken c) v (hasReceived c) (resumeAfter c)
     (startAfter c) (options c) (postBatchResumeToken c) (pipeline c).
Definition set_hasReceived (v : option bool) (c : t) : t :=
  mk (base c) (_resumeToken c) (startAtOperationTime c) v (resumeAfter c)
     (startAfter c) (options c) (postBatchResumeToken c) (pipeline c).
Definition set_postBatchResumeToken (v : value) (c : t) : t :=
  mk (base c) (_resumeToken c) (startAtOperationTime c) (hasReceived c) (resumeAfter c)
     (startAfter c) (options c) v (pipeline c).

(** [set resumeToken(token)] *)
Definition set_resumeToken (token : value) (c : t) : t * list Effect :=
  (set__resumeToken token c, [Emit (RESUME_TOKEN_CHANGED token)]).

(** [get resumeToken()] *)
Definition resumeToken (c : t) : value := _resumeToken c.

(** The constructor.  The fields [resumeAfter] and [startAfter] are
    declared by the class and assigned nowhere. *)
Definition new (loadBalanced : bool) (namespace : string)
    (pipeline : list Stage) (options : gmap string value) : t * list Effect :=
  let c :=
    mk (Cursor.new loadBalanced namespace options) Null
       (get options "startAtOperationTime") None Undefined Undefined
       options Undefined pipeline in
  if truthy (get options "startAfter") then
    set_resumeToken (get options "startAfter") c
  else if truthy (get options "resumeAfter") then
    set_resumeToken (get options "resumeAfter") c
  else (c, []).

(** [get resumeOptions()] *)
Definition resumeOptions (c : t) : gmap string value :=
  let result := filterOptions (options c) CURSOR_OPTIONS in
  if truthy (resumeToken c) || truthy (startAtOperationTime c) then
    let result :=
      foldl (λ r key, delete key r) result
            ["resumeAfter"; "startAfter"; "startAtOperationTime"] in
    if truthy (resumeToken c) then
      let resumeKey :=
        if truthy (get (options c) "startAfter")
           && negb (default false (hasReceived c))
        then "startAfter" else "resumeAfter" in
      <[resumeKey := resumeToken c]> result
    else if truthy (startAtOperationTime c)
            && (7 <=? maxWireVersion (Cursor.kServer (base c))) then
      <["startAtOperationTime" := startAtOperationTime c]> result
    else result
  else result.

(** [cacheResumeToken(resumeToken)] *)
Definition cacheResumeToken (token : value) (c : t) : t * list Effect :=
  let (c1, e1) :=
    if (Cursor.bufferedCount (base c) =? 0) && truthy (postBatchResumeToken c)
    then set_resumeToken (postBatchResumeToken c) c
    else set_resumeToken token c in
  (set_hasReceived (Some true) c1, e1).

(** ['firstBatch' in response.cursor ? firstBatch : nextBatch] *)
Definition batchOf (response : RawResult) : list Document :=
  match r_batch response with FirstBatch docs => docs | NextBatch docs => docs end.

(** [_processBatch(response)] *)
Definition _processBatch (response : RawResult) (c : t) : t * list Effect :=
  if truthy (r_postBatchResumeToken response) then
    let c1 := set_postBatchResumeToken (r_postBatchResumeToken response) c in
    let batch := batchOf response in
    if (length batch =? 0)%nat
    then set_resumeToken (r_postBatchResumeToken response) c1
    else (c1, [])
  else (c, []).

(** The descriptor that the base class reads out of a response. *)
Definition descOf (response : RawResult) : Cursor.CursorDesc :=
  Cursor.mkDesc (r_id response) (Some (r_ns response)) (batchOf response).

(** The callback of [executeOperation] in [_initialize(session, callback)]:
    [server] is the server the aggregate ran on; the result is what is
    passed to [callback]. *)
Definition _initialize (server : Server) (session : option ClientSession)
    (err : option Error) (response : option RawResult) (c : t)
    : (option Error * option Cursor.ExecutionResult) * t * list Effect :=
  match err, response with
  | Some e, _ => ((Some e, None), c, [])
  | None, None => ((None, None), c, [])
  | None, Some response =>
      let c1 :=
        if nullish (startAtOperationTime c) && nullish (resumeAfter c)
           && nullish (startAfter c) && (7 <=? maxWireVersion (Some server))
        then set_startAtOperationTime (r_operationTime response) c
        else c in
      let (c2, e2) := _processBatch response c1 in
      ((None,
        Some (Cursor.mkExec server session (Some (descOf response))
                            (r_document response))),
       c2, e2 ++ [Emit INIT; Emit RESPONSE])
  end.

(** The first request of a consumer: [_initialize] followed by the callback
    that [AbstractCursor[kInit]] gave it. *)
Definition initialize (server : Server) (session : option ClientSession)
    (err : option Error) (response : option RawResult) (c : t)
    : Cursor.Result Document * t * list Effect :=
  let '((err1, state), c1, e1) := _initialize server session err response c in
  let '(r, b, e2) := Cursor.initialized err1 state (base c1) in
  (r, set_base b c1, e1 ++ e2).

(** The callback that the override of [_getMore] gives to
    [super._getMore]; the result is what is passed on to [callback]. *)
Definition _getMore (err : option Error) (response : RawResult) (c : t)
    : (option Error * option RawResult) * t * list Effect :=
  match err with
  | Some e => ((Some e, None), c, [])
  | None =>
      let (c1, e1) := _processBatch response c in
      ((None, Some response), c1, e1 ++ [Emit MORE; Emit RESPONSE])
  end.

End ChangeStreamCursor.

(** ** [ChangeStream] *)

Module ChangeStream.

(** [this[kMode] : false | 'iterator' | 'emitter'] *)
Inductive Mode : Type := Unset | Iterator | Emitter.

#[global] Instance Mode_eq_dec : EqDecision Mode.
Proof. solve_decision. Defined.

Inductive Domain : Type := COLLECTION | DATABASE | CLUSTER.

(** The parent handed to the constructor. *)
Inductive ParentKind : Type := IsCollection | IsDb | IsMongoClient | IsOther.

Record Parent : Type := mkParent {
  parentKind : ParentKind;
  parentNamespace : string;
  parentReadPreference : value;
  (** [getTopology(parent).loadBalanced] *)
  parentLoadBalanced : bool
}.

Inductive IterOp : Type := HasNext | Next | TryNext.

#[global] Instance IterOp_eq_dec : EqDecision IterOp.
Proof. solve_decision. Defined.

(** The continuations that wait for a cursor.  [cb] names the callback of
    the consumer.  Running a continuation is an effect of the engine. *)
Inductive Request : Type :=
| (** the function that [hasNext], [next] or [tryNext] gives to [_getCursor] *)
  WithCursor (op : IterOp) (cb : nat)
| (** [() => this.next(cb)], queued by [next] when the cursor failed *)
  NextAgain (cb : nat).

#[global] Instance Request_eq_dec : EqDecision Request.
Proof. solve_decision. Defined.

(** Effects of the engine. *)
Inductive CsEffect : Type :=
| (** [this.emit(event, ...)] *)
  CsEmit (e : Event)
| (** a callback of the consumer is called: [cb(err, change)] *)
  Call (cb : nat) (err : option Error) (change : option Document)
| (** a continuation is run: [request(err, cursor)] *)
  Run (request : Request) (err : option Error) (withCursor : bool)
| (** an effect of a cursor made by the engine *)
  OfCursor (e : Effect)
| (** [cursor.stream()] *)
  CreateStream
| (** [this[kCursorStream].removeAllListeners('data')] *)
  RemoveDataListeners
| (** the cursor stream loses its listeners and is destroyed *)
  DestroyStream.

Record t : Type := mk {
  pipeline : list Document;
  options : gmap string value;
  type : Domain;
  parent : Parent;
  cursor : option ChangeStreamCursor.t;
  (** the deque, its back first: [push] adds at the head of the list and
      [pop] takes the head, as [Denque.push] and [Denque.pop] work on the
      back of the deque *)
  kResumeQueue : list Request;
  (** [this[kCursorStream]] is defined; the stream itself, the
      [ReadableCursorStream] of [makeCursorStream], is not modelled *)
  kCursorStream : bool;
  kClosed : bool;
  kMode : Mode;
  (** [this.listenerCount('change')] *)
  changeListeners : nat
}.

Definition set_options (v : gmap string value) (s : t) : t :=
  mk (pipeline s) v (type s) (parent s) (cursor s) (kResumeQueue s)
     (kCursorStream s) (kClosed s) (kMode s) (changeListeners s).
Definition set_cursor (v : option ChangeStreamCursor.t) (s : t) : t :=
  mk (pipeline s) (options s) (type s) (parent s) v (kResumeQueue s)
     (kCursorStream s) (kClosed s) (kMode s) (changeListeners s).
Definition set_kResumeQueue (v : list Request) (s : t) : t :=
  mk (pipeline s) (options s) (type s) (parent s) (cursor s) v
     (kCursorStream s) (kClosed s) (kMode s) (changeListeners s).
Definition set_kCursorStream (v : bool) (s : t) : t :=
  mk (pipeline s) (options s) (type s) (parent s) (cursor s) (kResumeQueue s)
     v (kClosed s) (kMode s) (changeListeners s).
Definition set_kClosed (v : bool) (s : t) : t :=
  mk (pipeline s) (options s) (type s) (parent s) (cursor s) (kResumeQueue s)
     (kCursorStream s) v (kMode s) (changeListeners s).
Definition set_kMode (v : Mode) (s : t) : t :=
  mk (pipeline s) (options s) (type s) (parent s) (cursor s) (kResumeQueue s)
     (kCursorStream s) (kClosed s) v (changeListeners s).
Definition set_changeListeners (v : nat) (s : t) : t :=
  mk (pipeline s) (options s) (type s) (parent s) (cursor s) (kResumeQueue s)
     (kCursorStream s) (kClosed s) (kMode s) v.

(** A call either returns (the new engine and what it did) or throws;
    every [throw] modelled here happens before the engine is changed. *)
Definition Completion : Type := Error + (t * list CsEffect).

(** The engine listens to [resumeTokenChanged], [end] and [close] of the
    cursors it creates and emits them again ([CHANGE_STREAM_EVENTS]). *)
Definition forward (effects : list Effect) : list CsEffect :=
  flat_map (λ e,
    match e with
    | Emit CLOSE => [OfCursor e; CsEmit CLOSE]
    | Emit END => [OfCursor e; CsEmit END]
    | Emit (RESUME_TOKEN_CHANGED token) =>
        [OfCursor e; CsEmit (RESUME_TOKEN_CHANGED token)]
    | _ => [OfCursor e]
    end) effects.

(** [_setIsEmitter()] *)
Definition _setIsEmitter (s : t) : Error + t :=
  match kMode s with
  | Iterator =>
      inl (MongoAPIError
        "ChangeStream cannot be used as an EventEmitter after being used as an iterator")
  | _ => inr (set_kMode Emitter s)
  end.

(** [_setIsIterator()] *)
Definition _setIsIterator (s : t) : Error + t :=
  match kMode s with
  | Emitter =>
      inl (MongoAPIError
        "ChangeStream cannot be used as an iterator after being used as an EventEmitter")
  | _ => inr (set_kMode Iterator s)
  end.

(** [_streamEvents(cursor)] *)
Definition _streamEvents (s : t) : Completion :=
  match _setIsEmitter s with
  | inl e => inl e
  | inr s1 =>
      inr (set_kCursorStream true s1,
           if kCursorStream s1 then [] else [CreateStream])
  end.

(** [_createChangeStreamCursor(options)]; the events of the constructor
    come before the engine listens. *)
Definition _createChangeStreamCursor (options : gmap string value) (s : t)
    : Error + (ChangeStreamCursor.t * t * list CsEffect) :=
  let changeStreamStageOptions := filterOptions options CHANGE_STREAM_OPTIONS in
  let changeStreamStageOptions :=
    match type s with
    | CLUSTER => <["allChangesForCluster" := Bool true]> changeStreamStageOptions
    | _ => changeStreamStageOptions
    end in
  let pipeline :=
    ChangeStreamStage changeStreamStageOptions :: map UserStage (pipeline s) in
  let cursorOptions := filterOptions options CURSOR_OPTIONS in
  let (changeStreamCursor, e1) :=
    ChangeStreamCursor.new (parentLoadBalanced (parent s))
      (parentNamespace (parent s)) pipeline cursorOptions in
  if (0 <? changeListeners s)%nat then
    match _streamEvents s with
    | inl e => inl e
    | inr (s1, e2) => inr (changeStreamCursor, s1, map OfCursor e1 ++ e2)
    end
  else inr (changeStreamCursor, s, map OfCursor e1).

(** The constructor. *)
Definition new (parent : Parent) (pipeline : list Document)
    (options : gmap string value) : Completion :=
  match
    match parentKind parent with
    | IsCollection => Some COLLECTION
    | IsDb => Some DATABASE
    | IsMongoClient => Some CLUSTER
    | IsOther => None
    end
  with
  | None =>
      inl (MongoChangeStreamError
        "Parent provided to ChangeStream constructor must be an instance of Collection, Db, or MongoClient")
  | Some type =>
      let options :=
        if negb (truthy (get options "readPreference"))
           && truthy (parentReadPreference parent)
        then <["readPreference" := parentReadPreference parent]> options
        else options in
      let s := mk pipeline options type parent None [] false false Unset 0 in
      match _createChangeStreamCursor options s with
      | inl e => inl e
      | inr (c, s1, e1) =>
          inr (set_kMode Unset (set_kClosed false (set_cursor (Some c) s1)), e1)
      end
  end.

(** [get resumeToken()] *)
Definition resumeToken (s : t) : value :=
  match cursor s with
  | Some c => ChangeStreamCursor.resumeToken c
  | None => Undefined
  end.

(** [get closed()] *)
Definition closed (s : t) : bool :=
  kClosed s
  || match cursor s with
     | Some c => Cursor.kClosed (ChangeStreamCursor.base c)
     | None => false
     end.

(** [_endStream()] *)
Definition _endStream (s : t) : t * list CsEffect :=
  (set_kCursorStream false s, if kCursorStream s then [DestroyStream] else []).

(** [close(callback)] up to the call of its callback. *)
Definition close (s : t) : t * list CsEffect :=
  let s1 := set_kClosed true s in
  match cursor s1 with
  | None => (s1, [])
  | Some c =>
      let (_, e1) := Cursor.close (ChangeStreamCursor.base c) in
      let (s2, e2) := _endStream s1 in
      (set_cursor None s2, forward e1 ++ e2)
  end.

(** [stream(options)] *)
Definition stream (s : t) : Completion :=
  match cursor s with
  | None => inl (MongoChangeStreamError NO_CURSOR_ERROR)
  | Some _ => inr (s, [CreateStream])
  end.

(** [_getCursor(callback)] *)
Definition _getCursor (callback : Request) (s : t) : t * list CsEffect :=
  if kClosed s then
    (s, [Run callback (Some (MongoAPIError CHANGESTREAM_CLOSED_ERROR)) false])
  else
    match cursor s with
    | Some _ => (s, [Run callback None true])
    | None => (set_kResumeQueue (callback :: kResumeQueue s) s, [])
    end.

(** [hasNext], [next], [tryNext] up to the end of [_getCursor]: what the
    continuation does with the cursor happens once it is run. *)
Definition iterate (op : IterOp) (cb : nat) (s : t) : Completion :=
  match _setIsIterator s with
  | inl e => inl e
  | inr s1 => inr (_getCursor (WithCursor op cb) s1)
  end.

Definition hasNext : nat -> t -> Completion := iterate HasNext.
Definition next : nat -> t -> Completion := iterate Next.
Definition tryNext : nat -> t -> Completion := iterate TryNext.

(** [this.on(eventName, listener)]: the handler of ['newListener'] that
    the constructor installed runs first; when it throws the listener is
    not added. *)
Definition on (eventName : string) (s : t) : Completion :=
  let added (s : t) :=
    if String.eqb eventName "change"
    then set_changeListeners (S (changeListeners s)) s else s in
  if String.eqb eventName "change" && is_Some_b (cursor s)
     && (changeListeners s =? 0)%nat
  then
    match _streamEvents s with
    | inl e => inl e
    | inr (s1, e1) => inr (added s1, e1)
    end
  else inr (added s, []).

(** [this.off(eventName, listener)] for a listener that is attached: the
    handler of ['removeListener'] runs after the removal. *)
Definition off (eventName : string) (s : t) : t * list CsEffect :=
  if String.eqb eventName "change" then
    let s1 := set_changeListeners (pred (changeListeners s)) s in
    (s1,
     if (changeListeners s1 =? 0)%nat && is_Some_b (cursor s1) && kCursorStream s1
     then [RemoveDataListeners] else [])
  else (s, []).

(** [_closeWithError(error, callback)].  Without a callback the error is
    emitted as ['error']: the model is of an engine that has a listener for
    ['error'], since the emitter throws when there is none and the call
    ends there, before [close]. *)
Definition _closeWithError (error : Error) (callback : option nat) (s : t)
    : t * list CsEffect :=
  let e0 := match callback with None => [CsEmit (ERROR error)] | Some _ => [] end in
  let (s1, e1) := close s in
  (s1,
   e0 ++ e1
      ++ match callback with Some cb => [Call cb (Some error) None] | None => [] end).

(** [_processNewChange(change, callback)] *)
Definition _processNewChange (change : option Document) (callback : option nat)
    (s : t) : t * list CsEffect :=
  if kClosed s then
    (s, match callback with
        | Some cb => [Call cb (Some (MongoAPIError CHANGESTREAM_CLOSED_ERROR)) None]
        | None => []
        end)
  else
    match change with
    | None => _closeWithError (MongoRuntimeError CHANGESTREAM_CLOSED_ERROR) callback s
    | Some change =>
        if negb (truthy (get change "_id")) then
          _closeWithError (MongoChangeStreamError NO_RESUME_TOKEN_ERROR) callback s
        else
          let (s1, e1) :=
            match cursor s with
            | Some c =>
                let (c1, e) := ChangeStreamCursor.cacheResumeToken (get change "_id") c in
                (set_cursor (Some c1) s, forward e)
            | None => (s, [])
            end in
          let s2 := set_options (<["startAtOperationTime" := Undefined]> (options s1)) s1 in
          (s2,
           e1 ++ [match callback with
                  | None => CsEmit (CHANGE change)
                  | Some cb => Call cb None (Some change)
                  end])
    end.

(** The loop of [_processResumeQueue(err)], on the queue and on the two
    fields it reads ([this[kClosed]] and [this.cursor]).  Running a
    continuation is recorded as an effect; what the continuation goes on to
    do belongs to the calls it makes. *)
Fixpoint drain (err : option Error) (closed : bool) (hasCursor : bool)
    (queue : list Request) : list Request * list CsEffect :=
  match queue with
  | [] => ([], [])
  | request :: rest =>
      match err with
      | None =>
          if closed then
            (rest, [Run request (Some (MongoAPIError CHANGESTREAM_CLOSED_ERROR)) false])
          else if negb hasCursor then
            (rest, [Run request (Some (MongoChangeStreamError NO_CURSOR_ERROR)) false])
          else
            let (q, e) := drain err closed hasCursor rest in
            (q, Run request err hasCursor :: e)
      | Some _ =>
          let (q, e) := drain err closed hasCursor rest in
          (q, Run request err hasCursor :: e)
      end
  end.

Definition _processResumeQueue (err : option Error) (s : t) : t * list CsEffect :=
  let (q, e) := drain err (kClosed s) (is_Some_b (cursor s)) (kResumeQueue s) in
  (set_kResumeQueue q s, e).

(** [resumeWithCursor] and [unresumableError], the two ends of a resume
    attempt in [_processError].  As in [_closeWithError], the emit of
    ['error'] is that of an engine with a listener for it. *)
Definition resumeWithCursor (newCursor : ChangeStreamCursor.t) (s : t)
    : t * list CsEffect :=
  _processResumeQueue None (set_cursor (Some newCursor) s).

Definition unresumableError (callback : option nat) (err : Error) (s : t)
    : t * list CsEffect :=
  let e0 := match callback with None => [CsEmit (ERROR err)] | Some _ => [] end in
  let (s1, e1) := close s in
  let (s2, e2) := _processResumeQueue (Some err) s1 in
  (s2, e0 ++ e1 ++ e2).

(** What [_processError] leaves to the timer of
    [_waitForTopologyConnected]: the old cursor and the callback. *)
Record Waiting : Type := mkWaiting {
  oldCursor : ChangeStreamCursor.t;
  waitingCallback : option nat
}.

(** [_processError(error, callback)] up to the start of the wait for the
    topology; [resumable] is the verdict of
    [isResumableError(error, maxWireVersion(cursor.server))]. *)
Definition _processError (resumable : bool) (error : Error) (callback : option nat)
    (s : t) : t * list CsEffect * option Waiting :=
  if kClosed s then
    (s,
     match callback with
     | Some cb => [Call cb (Some (MongoAPIError CHANGESTREAM_CLOSED_ERROR)) None]
     | None => []
     end, None)
  else
    match cursor s with
    | Some c =>
        if resumable then
          let (s1, e1) := _endStream (set_cursor None s) in
          let (b, e2) := Cursor.close (ChangeStreamCursor.base c) in
          (s1, e1 ++ forward e2,
           Some (mkWaiting (ChangeStreamCursor.set_base b c) callback))
        else
          let (s1, e1) := _closeWithError error callback s in (s1, e1, None)
    | None =>
        let (s1, e1) := _closeWithError error callback s in (s1, e1, None)
    end.

(** The callback of [_waitForTopologyConnected] in [_processError]:
    [err] is the timeout of the wait, if any; [probe] is the run of
    [newCursor.hasNext] in iterator mode, its error and the cursor after it. *)
Definition topologyWaited (w : Waiting) (err : option Error)
    (probe : ChangeStreamCursor.t -> option Error * ChangeStreamCursor.t)
    (s : t) : Completion :=
  match err with
  | Some err => inr (unresumableError (waitingCallback w) err s)
  | None =>
      match _createChangeStreamCursor
              (ChangeStreamCursor.resumeOptions (oldCursor w)) s with
      | inl e => inl e
      | inr (newCursor, s1, e1) =>
          match waitingCallback w with
          | None =>
              let (s2, e2) := resumeWithCursor newCursor s1 in inr (s2, e1 ++ e2)
          | Some _ =>
              let (perr, probed) := probe newCursor in
              match perr with
              | Some err =>
                  let (s2, e2) := unresumableError (waitingCallback w) err s1 in
                  inr (s2, e1 ++ e2)
              | None =>
                  let (s2, e2) := resumeWithCursor probed s1 in inr (s2, e1 ++ e2)
              end
          end
      end
  end.

(** The callback of [cursor.next] in [next(callback)]: a failure queues
    the retry and goes to [_processError], a result goes to
    [_processNewChange]. *)
Definition nextReturned (resumable : bool) (cb : nat) (error : option Error)
    (change : option Document) (s : t) : t * list CsEffect * option Waiting :=
  match error with
  | Some error =>
      _processError resumable error (Some cb)
        (set_kResumeQueue (NextAgain cb :: kResumeQueue s) s)
  | None =>
      let (s1, e1) := _processNewChange change (Some cb) s in (s1, e1, None)
  end.

End ChangeStream.

(** ** States that a change-stream cursor can be in

    A cursor is built by its constructor and changed by the methods below;
    [ChangeStream._processNewChange] calls [cacheResumeToken] with a truthy
    [_id] only, and the fields inherited from [AbstractCursor] change as the
    base class iterates. *)

Inductive reachable : ChangeStreamCursor.t -> Prop :=
| reach_new loadBalanced namespace pipeline options :
    reachable (ChangeStreamCursor.new loadBalanced namespace pipeline options).1
| reach_cacheResumeToken c token :
    reachable c -> truthy token = true ->
    reachable (ChangeStreamCursor.cacheResumeToken token c).1
| reach_processBatch c response :
    reachable c -> reachable (ChangeStreamCursor._processBatch response c).1
| reach_initialize c server session err response :
    reachable c ->
    reachable (ChangeStreamCursor._initialize server session err response c).1.2
| reach_getMore c err response :
    reachable c -> reachable (ChangeStreamCursor._getMore err response c).1.2
| reach_base c b :
    reachable c -> reachable (ChangeStreamCursor.set_base b c).

(** The three options that name a starting point of a change stream. *)
Definition START_OPTIONS : list string :=
  ["resumeAfter"; "startAfter"; "startAtOperationTime"].

(** An option is set in an options object when its value is truthy: this is
    how the source tests every option and token it reads
    ([if (options.startAfter)], [if (this.resumeToken || ...)],
    [if (cursor.postBatchResumeToken)]). *)
Definition isSet (o : gmap string value) (k : string) : Prop :=
  truthy (get o k) = true.

(** What the constructor establishes between the options and the fields. *)
Definition consistent (c : ChangeStreamCursor.t) : Prop :=
  (isSet (ChangeStreamCursor.options c) "startAfter"
   ∨ isSet (ChangeStreamCursor.options c) "resumeAfter" ->
   truthy (ChangeStreamCursor.resumeToken c) = true)
  ∧ (isSet (ChangeStreamCursor.options c) "startAtOperationTime" ->
     truthy (ChangeStreamCursor.startAtOperationTime c) = true)
  ∧ ChangeStreamCursor.resumeAfter c = Undefined
  ∧ ChangeStreamCursor.startAfter c = Undefined
  ∧ (ChangeStreamCursor.postBatchResumeToken c = Undefined
     ∨ truthy (ChangeStreamCursor.postBatchResumeToken c) = true).

(** [n] calls of the module-level [next], one after the other. *)
Fixpoint nexts (n : nat) (fuel : nat) (blocking : bool) (env : Cursor.Env) (c : Cursor.t)
    : list (Cursor.Result Document) * Cursor.t * Cursor.Env * list Effect :=
  match n with
  | O => ([], c, env, [])
  | S n =>
      let '(r, c1, env1, e1) := Cursor.next fuel blocking env c in
      let '(rs, c2, env2, e2) := nexts n fuel blocking env1 c1 in
      (r :: rs, c2, env2, e1 ++ e2)
  end.

(** [n] calls of the method [AbstractCursor.next]. *)
Fixpoint next_methods (n : nat) (fuel : nat) (env : Cursor.Env) (c : Cursor.t)
    : list (Cursor.Result Document) * Cursor.t * Cursor.Env * list Effect :=
  match n with
  | O => ([], c, env, [])
  | S n =>
      let '(r, c1, env1, e1) := Cursor.next_method fuel env c in
      let '(rs, c2, env2, e2) := next_methods n fuel env1 c1 in
      (r :: rs, c2, env2, e1 ++ e2)
  end.

(** [n] calls of [AbstractCursor.close]. *)
Fixpoint closes (n : nat) (c : Cursor.t) : Cursor.t * list Effect :=
  match n with
  | O => (c, [])
  | S n =>
      let (c1, e1) := Cursor.close c in
      let (c2, e2) := closes n c1 in
      (c2, e1 ++ e2)
  end.

Definition is_getMore (e : Effect) : bool :=
  match e with GetMore _ _ _ => true | _ => false end.
Definition is_killCursors (e : Effect) : bool :=
  match e with KillCursors _ _ => true | _ => false end.
Definition is_emit_close (e : Effect) : bool :=
  match e with Emit CLOSE => true | _ => false end.

(** The cursor after the call that finds a dead cursor drained. *)
Definition ended (c : Cursor.t) : Cursor.t :=
  Cursor.set_kId (Some Long.ZERO) (Cursor.set_kClosed true (Cursor.set_kDocuments [] c)).

(** [transform ? transform(doc) : doc] *)
Definition transformed (c : Cursor.t) (doc : Document) : Document :=
  match Cursor.kTransform c with Some transform => transform doc | None => doc end.

(** ** Runs of the engine *)

(** The two errors of the mode guard. *)
Definition emitterAfterIterator : Error :=
  MongoAPIError
    "ChangeStream cannot be used as an EventEmitter after being used as an iterator".
Definition iteratorAfterEmitter : Error :=
  MongoAPIError
    "ChangeStream cannot be used as an iterator after being used as an EventEmitter".
Definition closedError : Error := MongoAPIError CHANGESTREAM_CLOSED_ERROR.

(** What can happen to an engine: the calls of the consumer and the
    callbacks of the cursor, the stream and the timer. *)
Inductive Op : Type :=
| OpIterate (op : ChangeStream.IterOp) (cb : nat)
| OpOn (eventName : string)
| OpOff (eventName : string)
| OpStream
| OpStreamEvents
| OpClose
| OpProcessNewChange (change : option Document) (callback : option nat)
| OpProcessError (resumable : bool) (error : Error) (callback : option nat)
| OpNextReturned (resumable : bool) (cb : nat) (error : option Error)
                 (change : option Document)
| OpTopologyWaited (w : ChangeStream.Waiting) (err : option Error)
                   (probe : ChangeStreamCursor.t -> option Error * ChangeStreamCursor.t)
| OpProcessResumeQueue (err : option Error).

(** The engine after a call: a call that throws leaves it as it was. *)
Definition after (r : ChangeStream.Completion) (s : ChangeStream.t) : ChangeStream.t :=
  match r with inl _ => s | inr (s', _) => s' end.

Definition step (s : ChangeStream.t) (o : Op) : ChangeStream.t :=
  match o with
  | OpIterate op cb => after (ChangeStream.iterate op cb s) s
  | OpOn eventName => after (ChangeStream.on eventName s) s
  | OpOff eventName => (ChangeStream.off eventName s).1
  | OpStream => after (ChangeStream.stream s) s
  | OpStreamEvents => after (ChangeStream._streamEvents s) s
  | OpClose => (ChangeStream.close s).1
  | OpProcessNewChange change callback =>
      (ChangeStream._processNewChange change callback s).1
  | OpProcessError resumable error callback =>
      (ChangeStream._processError resumable error callback s).1.1
  | OpNextReturned resumable cb error change =>
      (ChangeStream.nextReturned resumable cb error change s).1.1
  | OpTopologyWaited w err probe => after (ChangeStream.topologyWaited w err probe s) s
  | OpProcessResumeQueue err => (ChangeStream._processResumeQueue err s).1
  end.

Definition run (ops : list Op) (s : ChangeStream.t) : ChangeStream.t :=
  foldl step s ops.

(** ** Sample inputs *)

Module Sample.

Definition parent : ChangeStream.Parent :=
  ChangeStream.mkParent ChangeStream.IsCollection "db.c" Undefined false.

(** A cursor as [_createChangeStreamCursor] builds it for [watch()] without
    options, and one for [watch([], { resumeAfter: token })]. *)
Definition cursor : ChangeStreamCursor.t :=
  (ChangeStreamCursor.new false "db.c" [ChangeStreamStage ∅] ∅).1.

Definition resumedCursor : ChangeStreamCursor.t :=
  (ChangeStreamCursor.new false "db.c"
     [ChangeStreamStage {["resumeAfter" := Obj 1]}] {["resumeAfter" := Obj 1]}).1.

(** The engine that [new ChangeStream(collection)] builds. *)
Definition engine : ChangeStream.t :=
  ChangeStream.mk [] ∅ ChangeStream.COLLECTION parent (Some cursor) [] false false
                  ChangeStream.Unset 0.

Definition change : Document :=
  {["_id" := Obj 11; "operationType" := Str "insert"]}.

(** A reply to the aggregate: an empty first batch with a post-batch
    token, on a server of wire version 7. *)
Definition server : Server := mkServer 7.

Definition firstReply : ChangeStreamCursor.RawResult :=
  ChangeStreamCursor.mkRaw (Obj 21) "db.c" (Long.Number 42)
    (ChangeStreamCursor.FirstBatch []) (Obj 99) ∅.

(** An open cursor on a live server cursor, nothing buffered. *)
Definition liveCursor : Cursor.t :=
  Cursor.mk (Some (Long.Alloc 42)) None (Some server) "db.c" [] None true false false
            None false.

(** A cursor that has not been used yet. *)
Definition freshCursor : Cursor.t := Cursor.new false "db.c" ∅.

Definition doc (n : Z) : Document := {["x" := Num n]}.

(** The server answers the next getMore with cursor id 0 and two documents. *)
Definition lastBatchEnv : Cursor.Env :=
  Cursor.mkEnv false None false []
    [Cursor.GetMoreOk (Long.Number 0) [doc 1; doc 2]].

(** A consumer iterates: [next(cb1)] gets the cursor, and the call of
    [cursor.next] fails with a network error that can be resumed; the
    engine drops the cursor and waits for the topology. *)
Definition iterating : ChangeStream.t := step engine (OpIterate ChangeStream.Next 1).

Definition networkError : Error := MongoNetworkError "connection closed".

Definition resuming : ChangeStream.t :=
  (ChangeStream.nextReturned true 1 (Some networkError) None iterating).1.1.

Definition waiting : ChangeStream.Waiting :=
  ChangeStream.mkWaiting
    (ChangeStreamCursor.set_base (Cursor.close (ChangeStreamCursor.base cursor)).1 cursor)
    (Some 1%nat).

(** While the engine waits, the consumer calls [next(cb2)], which is
    queued, and then [close()]. *)
Definition closedWhileResuming : ChangeStream.t :=
  run [OpIterate ChangeStream.Next 2; OpClose] resuming.

(** The topology is connected again and the probe of the new cursor
    succeeds. *)
Definition probeOk (c : ChangeStreamCursor.t) : option Error * ChangeStreamCursor.t :=
  (None, c).

Definition resumedAfterClose : ChangeStream.Completion :=
  ChangeStream.topologyWaited waiting None probeOk closedWhileResuming.

End Sample.

(** ** More of [AbstractCursor]: the methods that configure, rewind and
    drain a cursor *)

(** Errors that the methods of a cursor throw at their caller. *)
Inductive UsageError : Type :=
| MongoCursorInUseError
| MongoTailableCursorError (msg : string)
| MongoInvalidArgumentError (msg : string).

(** A name between double quotes, as the messages of the driver have it. *)
Definition quoted (name : string) : string :=
  let quote := Ascii.ascii_of_nat 34 in
  String quote name ++ String quote EmptyString.

Module CursorApi.

Import Cursor.

Definition CURSOR_FLAGS : list string :=
  ["tailable"; "oplogReplay"; "noCursorTimeout"; "awaitData"; "exhaust"; "partial"].

(** A cursor together with the entries of [this[kOptions]] that [Cursor.t]
    does not hold ([batchSize] is a field of [Cursor.t]). *)
Record t : Type := mk {
  cursor : Cursor.t;
  kOptions : gmap string value
}.

Definition set_kTransform (v : option (Document -> Document)) (c : Cursor.t) : Cursor.t :=
  Cursor.mk (kId c) (kSession c) (kServer c) (kNamespace c) (kDocuments c) v
            (kInitialized c) (kClosed c) (kKilled c) (batchSize c) (loadBalanced c).
Definition set_batchSize (v : option Z) (c : Cursor.t) : Cursor.t :=
  Cursor.mk (kId c) (kSession c) (kServer c) (kNamespace c) (kDocuments c) (kTransform c)
            (kInitialized c) (kClosed c) (kKilled c) v (loadBalanced c).

(** [assertUninitialized(cursor)]: the error it throws, if any. *)
Definition assertUninitialized (c : Cursor.t) : option UsageError :=
  if kInitialized c then Some MongoCursorInUseError else None.

(** [addCursorFlag(flag, value)]; an array in a template string is joined
    with commas. *)
Definition addCursorFlag (flag : string) (value : value) (s : t) : UsageError + t :=
  match assertUninitialized (cursor s) with
  | Some e => inl e
  | None =>
      if negb (bool_decide (flag ∈ CURSOR_FLAGS)) then
        inl (MongoInvalidArgumentError
               ("Flag " ++ flag ++ " is not one of " ++ String.concat "," CURSOR_FLAGS))
      else
        match value with
        | Bool _ => inr (mk (cursor s) (<[flag := value]> (kOptions s)))
        | _ => inl (MongoInvalidArgumentError ("Flag " ++ flag ++ " must be a boolean value"))
        end
  end.

(** [map(transform)] *)
Definition map (transform : Document -> Document) (c : Cursor.t)
    : UsageError + Cursor.t :=
  match assertUninitialized c with
  | Some e => inl e
  | None =>
      match kTransform c with
      | Some oldTransform =>
          inr (set_kTransform (Some (λ doc, transform (oldTransform doc))) c)
      | None => inr (set_kTransform (Some transform) c)
      end
  end.

(** [maxTimeMS(value)] *)
Definition maxTimeMS (value : value) (s : t) : UsageError + t :=
  match assertUninitialized (cursor s) with
  | Some e => inl e
  | None =>
      match value with
      | Num _ => inr (mk (cursor s) (<["maxTimeMS" := value]> (kOptions s)))
      | _ => inl (MongoInvalidArgumentError "Argument for maxTimeMS must be a number")
      end
  end.

(** [batchSize(value)] *)
Definition batchSize (value : value) (s : t) : UsageError + t :=
  match assertUninitialized (cursor s) with
  | Some e => inl e
  | None =>
      if truthy (get (kOptions s) "tailable") then
        inl (MongoTailableCursorError "Tailable cursor does not support batchSize")
      else
        match value with
        | Num n => inr (mk (set_batchSize (Some n) (cursor s)) (kOptions s))
        | _ =>
            inl (MongoInvalidArgumentError
                   ("Operation " ++ quoted "batchSize" ++ " requires an integer"))
        end
  end.

(** What [rewind] reads from the session of the cursor. *)
Record SessionLife : Type := mkLife {
  explicit : bool;
  hasEnded : bool
}.

(** [rewind()]; [life] describes [this[kSession]] when there is one. *)
Definition rewind (life : SessionLife) (c : Cursor.t) : Cursor.t * list Effect :=
  if negb (kInitialized c) then (c, [])
  else
    let c1 :=
      set_kInitialized false
        (set_kKilled false (set_kClosed false (set_kDocuments [] (set_kId None c)))) in
    match kSession c1 with
    | Some _ =>
        (set_kSession None c1,
         if negb (explicit life) && negb (hasEnded life) then [EndSession None] else [])
    | None => (c1, [])
    end.

(** [readBufferedDocuments(number)]:
    [this[kDocuments].splice(0, number ?? this[kDocuments].length)]; [splice]
    takes no more than there is and nothing for a negative count. *)
Definition readBufferedDocuments (number : option Z) (c : Cursor.t)
    : list Document * Cursor.t :=
  let count :=
    match number with
    | Some n => Z.to_nat (Z.min (Z.max n 0) (Z.of_nat (length (kDocuments c))))
    | None => length (kDocuments c)
    end in
  (take count (kDocuments c), set_kDocuments (drop count (kDocuments c)) c).

(** [toArray(callback)]: the loop [fetchDocs], one round for each call of
    [next]; [transform] is read once, before the loop. *)
Fixpoint fetchDocs (rounds fuel : nat) (transform : option (Document -> Document))
    (docs : list Document) (env : Env) (c : Cursor.t)
    : Result (list Document) * Cursor.t * Env * list Effect :=
  match rounds with
  | O => (Pending, c, env, [])
  | S rounds =>
      let '(r, c1, env1, e1) := next fuel true env c in
      match r with
      | Pending => (Pending, c1, env1, e1)
      | Done (Some err) _ => (Done (Some err) None, c1, env1, e1)
      | Done None None => (Done None (Some docs), c1, env1, e1)
      | Done None (Some doc) =>
          let internalDocs :=
            match transform with
            | Some transform => List.map transform (kDocuments c1)
            | None => kDocuments c1
            end in
          let '(r2, c2, env2, e2) :=
            fetchDocs rounds fuel transform (docs ++ doc :: internalDocs) env1
                      (set_kDocuments [] c1) in
          (r2, c2, env2, e1 ++ e2)
      end
  end.

Definition toArray (rounds fuel : nat) (env : Env) (c : Cursor.t)
    : Result (list Document) * Cursor.t * Env * list Effect :=
  fetchDocs rounds fuel (kTransform c) [] env c.

(** What a call of the iterator of [forEach] does: it returns [false], it
    returns something else, or it throws. *)
Inductive IteratorResult : Type :=
| Continue
| Stop
| Throw (error : Error).

(** The loop of [forEach] over the rest of a batch: the documents that the
    iterator was called with, and how the loop ended if it ended early. *)
Fixpoint eachBuffered (iterator : Document -> IteratorResult) (docs : list Document)
    : list Document * option (option Error) :=
  match docs with
  | [] => ([], None)
  | doc :: rest =>
      match iterator doc with
      | Throw error => ([doc], Some (Some error))
      | Stop => ([doc], Some None)
      | Continue =>
          let (visited, ending) := eachBuffered iterator rest in
          (doc :: visited, ending)
      end
  end.

(** [forEach(iterator, callback)]: the loop [fetchDocs], one round for each
    call of [next]; the second component lists the arguments of the calls of
    the iterator. *)
Fixpoint forEachDocs (rounds fuel : nat) (iterator : Document -> IteratorResult)
    (transform : option (Document -> Document)) (env : Env) (c : Cursor.t)
    : Result unit * list Document * Cursor.t * Env * list Effect :=
  match rounds with
  | O => (Pending, [], c, env, [])
  | S rounds =>
      let '(r, c1, env1, e1) := next fuel true env c in
      match r with
      | Pending => (Pending, [], c1, env1, e1)
      | Done (Some err) _ => (Done (Some err) None, [], c1, env1, e1)
      | Done None None => (Done None None, [], c1, env1, e1)
      | Done None (Some doc) =>
          match iterator doc with
          | Throw error => (Done (Some error) None, [doc], c1, env1, e1)
          | Stop => (Done None None, [doc], c1, env1, e1)
          | Continue =>
              let internalDocs := kDocuments c1 in
              let c2 := set_kDocuments [] c1 in
              match
                eachBuffered iterator
                  (match transform with
                   | Some transform => List.map transform internalDocs
                   | None => internalDocs
                   end)
              with
              | (visited, Some ending) =>
                  (Done ending None, doc :: visited, c2, env1, e1)
              | (visited, None) =>
                  let '(r2, visited2, c3, env3, e3) :=
                    forEachDocs rounds fuel iterator transform env1 c2 in
                  (r2, doc :: visited ++ visited2, c3, env3, e1 ++ e3)
              end
          end
      end
  end.

Definition forEach (rounds fuel : nat) (iterator : Document -> IteratorResult)
    (env : Env) (c : Cursor.t)
    : Result unit * list Document * Cursor.t * Env * list Effect :=
  forEachDocs rounds fuel iterator (kTransform c) env c.

End CursorApi.

(** ** Subclasses of [AbstractCursor] *)

Module Dispatch.

(** How [_getMore(batchSize, callback)] calls back: not at all, or with an
    error or a response (the id and the batch of [response.cursor]) or with
    neither. *)
Inductive GetMoreOutcome : Type :=
| NoAnswer
| Answer (err : option Error) (response : option (Long.wire * list Document)).

(** What a subclass adds to [AbstractCursor]: its own fields around the
    inherited ones, the callback that [_initialize] gives to
    [executeOperation] (it receives the outcome of the operation and yields
    what is passed on to the callback of [kInit]), and [_getMore]. *)
Class Subclass (S : Type) : Type := {
  inherited : S -> Cursor.t;
  set_inherited : Cursor.t -> S -> S;
  _initialize :
    option Error * option Cursor.ExecutionResult -> S ->
    (option Error * option Cursor.ExecutionResult) * S * list Effect;
  _getMore : Z -> Cursor.Env -> S -> GetMoreOutcome * S * Cursor.Env * list Effect
}.

(** [AbstractCursor._getMore] seen by the module-level [next]. *)
Definition superGetMore (batchSize : Z) (env : Cursor.Env) (c : Cursor.t)
    : GetMoreOutcome * Cursor.Env * list Effect :=
  let '(reply, env1, e1) := Cursor._getMore batchSize env c in
  (match reply with
   | None => NoAnswer
   | Some (Cursor.GetMoreErr e) => Answer (Some e) None
   | Some (Cursor.GetMoreOk id nextBatch) => Answer None (Some (id, nextBatch))
   end, env1, e1).

Section Methods.

Context {S : Type} `{Subclass S}.

(** [AbstractCursor[kInit]], with the [_initialize] of the subclass. *)
Fixpoint kInit (fuel : nat) (env : Cursor.Env) (s : S)
    : Cursor.Result Document * S * Cursor.Env * list Effect :=
  match fuel with
  | O => (Cursor.Pending, s, env, [])
  | Datatypes.S fuel =>
      let run_initialize (s : S) (before : list Effect) :=
        match Cursor.initReplies env with
        | [] => (Cursor.Pending, s, env, before)
        | reply :: _ =>
            let '((err, state), s1, e0) := _initialize reply s in
            let '(r, c1, e1) := Cursor.initialized err state (inherited s1) in
            (r, set_inherited c1 s1, Cursor.popInit env, before ++ e0 ++ e1)
        end in
      match Cursor.kSession (inherited s) with
      | None =>
          if Cursor.shouldCheckForSessionSupport env then
            match Cursor.selectServer env with
            | Some err => (Cursor.Done (Some err) None, s, env, [SelectServer])
            | None =>
                let '(r, s1, env1, e1) := kInit fuel (Cursor.serverSelected env) s in
                (r, s1, env1, SelectServer :: e1)
            end
          else if Cursor.hasSessionSupport env then
            run_initialize
              (set_inherited (Cursor.set_kSession (Some (mkSession true false)) (inherited s)) s)
              [StartSession]
          else run_initialize s []
      | Some _ => run_initialize s []
      end
  end.

(** The module-level [next(cursor, blocking, callback)], with the
    [_initialize] and the [_getMore] of the subclass. *)
Fixpoint next (fuel : nat) (blocking : bool) (env : Cursor.Env) (s : S)
    : Cursor.Result Document * S * Cursor.Env * list Effect :=
  match fuel with
  | O => (Cursor.Pending, s, env, [])
  | Datatypes.S fuel =>
      let c := inherited s in
      if Cursor.kClosed c then (Cursor.Done None None, s, env, [])
      else if negb (length (Cursor.kDocuments c) =? 0)%nat then
        let (doc, c1) := Cursor.nextDocument c in (Cursor.Done None doc, set_inherited c1 s, env, [])
      else
        match Cursor.kId c with
        | None =>
            let '(r, s1, env1, e1) := kInit fuel env s in
            match r with
            | Cursor.Pending => (Cursor.Pending, s1, env1, e1)
            | Cursor.Done (Some err) _ => (Cursor.Done (Some err) None, s1, env1, e1)
            | Cursor.Done None (Some value) => (Cursor.Done None (Some value), s1, env1, e1)
            | Cursor.Done None None =>
                let '(r2, s2, env2, e2) := next fuel blocking env1 s1 in
                (r2, s2, env2, e1 ++ e2)
            end
        | Some _ =>
            if Cursor.cursorIsDead c then
              let (c1, e1) := Cursor.cleanupCursor None None c in
              (Cursor.Done None None, set_inherited c1 s, env, e1)
            else
              let batchSize :=
                match Cursor.batchSize c with
                | Some n => if n =? 0 then 1000 else n
                | None => 1000
                end in
              let '(outcome, s1, env1, e1) := _getMore batchSize env s in
              match outcome with
              | NoAnswer => (Cursor.Pending, s1, env1, e1)
              | Answer err response =>
                  let s2 :=
                    match response with
                    | Some (id, nextBatch) =>
                        set_inherited
                          (Cursor.set_kId (Some (Long.ofWire id))
                             (Cursor.set_kDocuments nextBatch (inherited s1))) s1
                    | None => s1
                    end in
                  if is_Some_b err || Cursor.cursorIsDead (inherited s2) then
                    let (c2, e2) := Cursor.cleanupCursor err None (inherited s2) in
                    let (doc, c3) := Cursor.nextDocument c2 in
                    (Cursor.Done err doc, set_inherited c3 s2, env1, e1 ++ e2)
                  else if (length (Cursor.kDocuments (inherited s2)) =? 0)%nat && negb blocking then
                    (Cursor.Done None None, s2, env1, e1)
                  else
                    let '(r2, s3, env2, e2) := next fuel blocking env1 s2 in
                    (r2, s3, env2, e1 ++ e2)
              end
        end
  end.

End Methods.

End Dispatch.

(** The class that overrides nothing: [_initialize] hands on what the
    operation gave. *)
#[global] Instance plainCursor : Dispatch.Subclass Cursor.t := {
  Dispatch.inherited := λ c, c;
  Dispatch.set_inherited := λ c _, c;
  Dispatch._initialize := λ reply c, (reply, c, []);
  Dispatch._getMore := λ batchSize env c,
    let '(outcome, env1, e1) := Dispatch.superGetMore batchSize env c in
    (outcome, c, env1, e1)
}.

(** ** [FindCursor] *)

Module FindCursor.

Import Cursor.

Record t : Type := mk {
  (** the inherited fields and [this[kOptions]] *)
  api : CursorApi.t;
  kFilter : value;
  (** [this[kNumReturned]]: [None] stands for [undefined] and for [NaN],
      which [undefined + n] is; both are falsy and both stay what they are
      when a number is added *)
  kNumReturned : option Z;
  kBuiltOptions : gmap string value
}.

Definition set_api (v : CursorApi.t) (s : t) : t :=
  mk v (kFilter s) (kNumReturned s) (kBuiltOptions s).
Definition set_kFilter (v : value) (s : t) : t :=
  mk (api s) v (kNumReturned s) (kBuiltOptions s).
Definition set_kNumReturned (v : option Z) (s : t) : t :=
  mk (api s) (kFilter s) v (kBuiltOptions s).
Definition set_kBuiltOptions (v : gmap string value) (s : t) : t :=
  mk (api s) (kFilter s) (kNumReturned s) v.

Definition cursor (s : t) : Cursor.t := CursorApi.cursor (api s).
Definition set_cursor (c : Cursor.t) (s : t) : t :=
  set_api (CursorApi.mk c (CursorApi.kOptions (api s))) s.

(** The callback of [executeOperation] in [_initialize]: the number of
    documents of the first batch is recorded.  A response without a cursor
    is the answer to an explain, which has no [documents]. *)
Definition _initialize (reply : option Error * option ExecutionResult) (s : t)
    : (option Error * option ExecutionResult) * t * list Effect :=
  match reply with
  | (Some e, _) => ((Some e, None), s, [])
  | (None, None) => ((None, None), s, [])
  | (None, Some state) =>
      let numReturned :=
        match st_cursor state with
        | Some cur => Z.of_nat (length (cd_batch cur))
        | None => 0
        end in
      ((None, Some state), set_kNumReturned (Some numReturned) s, [])
  end.

(** [_getMore(batchSize, callback)].  [limit] is a number when it is set
    ([FindOptions.limit?: number], and the method [limit] checks). *)
Definition _getMore (batchSize : Z) (env : Env) (s : t)
    : Dispatch.GetMoreOutcome * t * Env * list Effect :=
  let numReturned := kNumReturned s in
  let super_getMore (batchSize : Z) :=
    let '(outcome, env1, e1) := Dispatch.superGetMore batchSize env (cursor s) in
    match outcome with
    | Dispatch.Answer None (Some (id, nextBatch)) =>
        (outcome,
         set_kNumReturned
           (match kNumReturned s with
            | Some n => Some (n + Z.of_nat (length nextBatch))
            | None => None
            end) s,
         env1, e1)
    | _ => (outcome, s, env1, e1)
    end in
  match numReturned with
  | Some numReturned =>
      if numReturned =? 0 then super_getMore batchSize
      else
        let batchSize :=
          match get (kBuiltOptions s) "limit" with
          | Num limit =>
              if (0 <? limit) && (limit <? numReturned + batchSize)
              then limit - numReturned else batchSize
          | _ => batchSize
          end in
        if batchSize <=? 0 then
          let (c1, e1) := Cursor.close (cursor s) in
          (Dispatch.Answer None None, set_cursor c1 s, env, e1)
        else super_getMore batchSize
  | None => super_getMore batchSize
  end.

#[global] Instance subclass : Dispatch.Subclass t := {
  Dispatch.inherited := cursor;
  Dispatch.set_inherited := set_cursor;
  Dispatch._initialize := _initialize;
  Dispatch._getMore := _getMore
}.

(** The methods that store an option: [assertUninitialized], then the
    assignment to [this[kBuiltOptions]]. *)
Definition setOption (key : string) (value : value) (s : t) : UsageError + t :=
  match CursorApi.assertUninitialized (cursor s) with
  | Some e => inl e
  | None => inr (set_kBuiltOptions (<[key := value]> (kBuiltOptions s)) s)
  end.

(** [filter(filter)] *)
Definition filter (filter : value) (s : t) : UsageError + t :=
  match CursorApi.assertUninitialized (cursor s) with
  | Some e => inl e
  | None => inr (set_kFilter filter s)
  end.

Definition hint : value -> t -> UsageError + t := setOption "hint".
Definition min : value -> t -> UsageError + t := setOption "min".
Definition max : value -> t -> UsageError + t := setOption "max".
Definition returnKey : value -> t -> UsageError + t := setOption "returnKey".
Definition showRecordId : value -> t -> UsageError + t := setOption "showRecordId".
Definition comment : value -> t -> UsageError + t := setOption "comment".
Definition project : value -> t -> UsageError + t := setOption "projection".
Definition collation : value -> t -> UsageError + t := setOption "collation".

(** The methods that check [typeof value !== 'number'] first. *)
Definition setNumber (key message : string) (value : value) (s : t) : UsageError + t :=
  match CursorApi.assertUninitialized (cursor s) with
  | Some e => inl e
  | None =>
      match value with
      | Num _ => inr (set_kBuiltOptions (<[key := value]> (kBuiltOptions s)) s)
      | _ => inl (MongoInvalidArgumentError message)
      end
  end.

Definition maxAwaitTimeMS : value -> t -> UsageError + t :=
  setNumber "maxAwaitTimeMS" "Argument for maxAwaitTimeMS must be a number".

(** The override of [maxTimeMS]: the value goes to [this[kBuiltOptions]],
    not to [this[kOptions]]. *)
Definition maxTimeMS : value -> t -> UsageError + t :=
  setNumber "maxTimeMS" "Argument for maxTimeMS must be a number".

(** [limit] and [skip]: not on a cursor built with the option [tailable]. *)
Definition setCount (key : string) (value : value) (s : t) : UsageError + t :=
  match CursorApi.assertUninitialized (cursor s) with
  | Some e => inl e
  | None =>
      if truthy (get (kBuiltOptions s) "tailable") then
        inl (MongoTailableCursorError ("Tailable cursor does not support " ++ key))
      else
        match value with
        | Num _ => inr (set_kBuiltOptions (<[key := value]> (kBuiltOptions s)) s)
        | _ =>
            inl (MongoInvalidArgumentError
                   ("Operation " ++ quoted key ++ " requires an integer"))
        end
  end.

Definition limit : value -> t -> UsageError + t := setCount "limit".
Definition skip : value -> t -> UsageError + t := setCount "skip".

(** [allowDiskUse()] *)
Definition allowDiskUse (s : t) : UsageError + t :=
  match CursorApi.assertUninitialized (cursor s) with
  | Some e => inl e
  | None =>
      if negb (truthy (get (kBuiltOptions s) "sort")) then
        inl (MongoInvalidArgumentError
               ("Option " ++ quoted "allowDiskUse" ++ " requires a sort specification"))
      else inr (set_kBuiltOptions (<["allowDiskUse" := Bool true]> (kBuiltOptions s)) s)
  end.

(** The inherited [addCursorFlag] and [batchSize], on the inherited part. *)
Definition addCursorFlag (flag : string) (value : value) (s : t) : UsageError + t :=
  match CursorApi.addCursorFlag flag value (api s) with
  | inl e => inl e
  | inr a => inr (set_api a s)
  end.

Definition batchSize (value : value) (s : t) : UsageError + t :=
  match CursorApi.batchSize value (api s) with
  | inl e => inl e
  | inr a => inr (set_api a s)
  end.

Section Sort.

(** [formatSort] of [sort.ts], which is not among the sources: the sort
    specification that it returns, or the error that it throws. *)
Variable formatSort : value -> value -> UsageError + value.

(** [sort(sort, direction)] *)
Definition sort (sort direction : value) (s : t) : UsageError + t :=
  match CursorApi.assertUninitialized (cursor s) with
  | Some e => inl e
  | None =>
      if truthy (get (kBuiltOptions s) "tailable") then
        inl (MongoTailableCursorError "Tailable cursor does not support sorting")
      else
        match formatSort sort direction with
        | inl e => inl e
        | inr spec => inr (set_kBuiltOptions (<["sort" := spec]> (kBuiltOptions s)) s)
        end
  end.

(** [addQueryModifier(name, value)]; character 36 is the dollar sign. *)
Definition addQueryModifier (name : string) (value : value) (s : t) : UsageError + t :=
  match CursorApi.assertUninitialized (cursor s) with
  | Some e => inl e
  | None =>
      let store (key : string) :=
        inr (set_kBuiltOptions (<[key := value]> (kBuiltOptions s)) s) in
      let invalid := inl (MongoInvalidArgumentError ("Invalid query modifier: " ++ name)) in
      let notValid :=
        inl (MongoInvalidArgumentError (name ++ " is not a valid query modifier")) in
      match name with
      | EmptyString => notValid
      | String first field =>
          if negb (Ascii.eqb first (Ascii.ascii_of_nat 36)) then notValid
          else if String.eqb field "comment" then store "comment"
          else if String.eqb field "explain" then store "explain"
          else if String.eqb field "hint" then store "hint"
          else if String.eqb field "max" then store "max"
          else if String.eqb field "maxTimeMS" then store "maxTimeMS"
          else if String.eqb field "min" then store "min"
          else if String.eqb field "orderby" then
            match formatSort value Undefined with
            | inl e => inl e
            | inr spec => inr (set_kBuiltOptions (<["sort" := spec]> (kBuiltOptions s)) s)
            end
          else if String.eqb field "query" then inr (set_kFilter value s)
          else if String.eqb field "returnKey" then store "returnKey"
          else if String.eqb field "showDiskLoc" then store "showRecordId"
          else invalid
      end
  end.

End Sort.

End FindCursor.

(** ** What a cursor sends to the server *)

(** [cursor[kOptions].batchSize || 1000], the batch size that the
    module-level [next] passes to [_getMore]. *)
Definition requestedBatchSize (c : Cursor.t) : Z :=
  match Cursor.batchSize c with
  | Some n => if n =? 0 then 1000 else n
  | None => 1000
  end.

(** The cursor id that a request to the server names. *)
Definition cursorIdOf (e : Effect) : option Long.t :=
  match e with
  | GetMore _ id _ | KillCursors _ id => Some id
  | _ => None
  end.

(** The batch size that a getMore asks for. *)
Definition asksFor (e : Effect) : option Z :=
  match e with GetMore _ _ batchSize => Some batchSize | _ => None end.

(** What holds of every request that a cursor with the requested batch
    size [bs] sends. *)
Definition wellAddressed (bs : Z) (e : Effect) : Prop :=
  (forall id, cursorIdOf e = Some id -> Long.isZero id = false)
  ∧ (forall n, asksFor e = Some n -> n = bs).

(** ** More of the engine: what the consumer is told *)

(** What an effect tells the consumer about a failure: the error, and the
    callback that receives it ([None] for the ['error'] event). *)
Definition told (e : ChangeStream.CsEffect) : option (option nat * Error) :=
  match e with
  | ChangeStream.Call cb (Some err) _ => Some (Some cb, err)
  | ChangeStream.CsEmit (ERROR err) => Some (None, err)
  | _ => None
  end.

(** The change that an effect hands to the consumer, if any. *)
Definition delivered (e : ChangeStream.CsEffect) : option Document :=
  match e with
  | ChangeStream.Call _ None (Some change) => Some change
  | ChangeStream.CsEmit (CHANGE change) => Some change
  | _ => None
  end.

(** The continuation that an effect runs, if any. *)
Definition ran (e : ChangeStream.CsEffect)
    : option (ChangeStream.Request * option Error * bool) :=
  match e with
  | ChangeStream.Run request err withCursor => Some (request, err, withCursor)
  | _ => None
  end.

Module Continuation.

Import ChangeStream.

(** How far a continuation gets before it waits for the cursor: the
    callback of the consumer is called with the error, or the cursor is
    asked, or the request is queued again, or the call throws. *)
Inductive Outcome : Type :=
| Answered (cb : nat) (err : option Error)
| Asked (op : IterOp) (cb : nat)
| Queued
| Thrown (e : Error).

(** The function that [hasNext], [next] and [tryNext] give to
    [_getCursor], called with [(err, cursor)]:
    [if (err || !cursor) return cb(err)], else the cursor is asked. *)
Definition withCursor (op : IterOp) (cb : nat) (err : option Error)
    (hasCursor : bool) : Outcome :=
  if is_Some_b err || negb hasCursor then Answered cb err else Asked op cb.

(** A continuation of the resume queue is called with [(err, cursor)].
    [() => this.next(cb)] ignores both and calls [next] again, whose
    [_getCursor] either calls its callback at once or queues it. *)
Definition runRequest (request : Request) (err : option Error) (hasCursor : bool)
    (s : t) : t * Outcome :=
  match request with
  | WithCursor op cb => (s, withCursor op cb err hasCursor)
  | NextAgain cb =>
      match next cb s with
      | inl e => (s, Thrown e)
      | inr (s1, [Run (WithCursor op cb1) err1 hasCursor1]) =>
          (s1, withCursor op cb1 err1 hasCursor1)
      | inr (s1, _) => (s1, Queued)
      end
  end.



End Continuation.

(** ** The wait for the topology *)

Definition SELECTION_TIMEOUT : Z := 30000.

(** [_waitForTopologyConnected(topology, options, callback)].  The timer
    runs once for each element of [ticks], which holds what
    [topology.isConnected()] answers then and what
    [calculateDurationInMs(start)] measures; the result is the argument of
    the callback, or [None] when no run of the timer has called it.
    [options.timeout || SELECTION_TIMEOUT]: a timeout of 0 counts as none. *)
Fixpoint _waitForTopologyConnected (timeout : option Z) (ticks : list (bool * Z))
    : option (option Error) :=
  match ticks with
  | [] => None
  | (isConnected, duration) :: ticks =>
      let limit :=
        match timeout with
        | Some t => if t =? 0 then SELECTION_TIMEOUT else t
        | None => SELECTION_TIMEOUT
        end in
      if isConnected then Some None
      else if limit <? duration then
        Some (Some (MongoRuntimeError "Timed out waiting for connection"))
      else _waitForTopologyConnected timeout ticks
  end.

(** ** More sample inputs *)

Module Scenario.

(** The server answers two getMores: a batch of two documents from a
    cursor that stays alive, then a last batch of one document. *)
Definition twoBatches : Cursor.Env :=
  Cursor.mkEnv false None false []
    [Cursor.GetMoreOk (Long.Number 42) [Sample.doc 1; Sample.doc 2];
     Cursor.GetMoreOk (Long.Number 0) [Sample.doc 3]].

(** The server answers three getMores: a batch of two documents, an empty
    batch, both from a cursor that stays alive, then a last batch of one
    document. *)
Definition threeBatches : Cursor.Env :=
  Cursor.mkEnv false None false []
    [Cursor.GetMoreOk (Long.Number 42) [Sample.doc 1; Sample.doc 2];
     Cursor.GetMoreOk (Long.Number 43) [];
     Cursor.GetMoreOk (Long.Number 0) [Sample.doc 3]].

(** The server answers a getMore with an empty batch, the cursor alive. *)
Definition emptyBatch : Cursor.Env :=
  Cursor.mkEnv false None false [] [Cursor.GetMoreOk (Long.Number 42) []].

(** The server answers a getMore with two documents, the cursor alive. *)
Definition oneBatch : Cursor.Env :=
  Cursor.mkEnv false None false []
    [Cursor.GetMoreOk (Long.Number 42) [Sample.doc 1; Sample.doc 2]].

(** The getMore fails. *)
Definition brokenGetMore : Cursor.Env :=
  Cursor.mkEnv false None false [] [Cursor.GetMoreErr Sample.networkError].

(** The first request is answered without a cursor, as for an explain. *)
Definition explained : Cursor.ExecutionResult :=
  Cursor.mkExec Sample.server None None (Sample.doc 7).

Definition explainEnv : Cursor.Env :=
  Cursor.mkEnv false None false [(None, Some explained)] [].

(** The first request fails. *)
Definition brokenInit : Cursor.Env :=
  Cursor.mkEnv false None false [(Some Sample.networkError, None)] [].

(** The first request is answered with a live cursor and two documents. *)
Definition firstBatch : Cursor.CursorDesc :=
  Cursor.mkDesc (Long.Number 42) (Some "db.c") [Sample.doc 1; Sample.doc 2].

Definition found : Cursor.ExecutionResult :=
  Cursor.mkExec Sample.server None (Some firstBatch) ∅.

Definition findEnv : Cursor.Env :=
  Cursor.mkEnv false None false [(None, Some found)] [].

(** Two transforms: each marks the document it has seen. *)
Definition seen : Document -> Document := λ doc, <["seen" := Bool true]> doc.
Definition counted : Document -> Document := λ doc, <["counted" := Bool true]> doc.

(** A live cursor with a transform. *)
Definition mappedCursor : Cursor.t :=
  CursorApi.set_kTransform (Some seen) Sample.liveCursor.

(** An implicit session that has not ended. *)
Definition implicitSession : CursorApi.SessionLife := CursorApi.mkLife false false.

(** A find cursor with a limit of 5 that has returned some documents; its
    server cursor is alive. *)
Definition limited (returned : Z) : FindCursor.t :=
  FindCursor.mk (CursorApi.mk Sample.liveCursor ∅) (Obj 1) (Some returned)
                {["limit" := Num 5]}.

(** Find cursors that have not been used: one built without options, one
    built with the option [tailable]. *)
Definition unusedFind : FindCursor.t :=
  FindCursor.mk (CursorApi.mk Sample.freshCursor ∅) (Obj 1) None ∅.

Definition tailableFind : FindCursor.t :=
  FindCursor.mk (CursorApi.mk Sample.freshCursor ∅) (Obj 1) None
                {["tailable" := Bool true]}.

(** A [formatSort] that takes every specification as it is. *)
Definition sortAsGiven : value -> value -> UsageError + value := λ spec _, inr spec.

(** The error of a wait for the topology that timed out. *)
Definition timedOut : Error := MongoRuntimeError "Timed out waiting for connection".

End Scenario.

(** * Properties *)

(** ** The resume-token cache *)

Section ResumeToken.

Import ChangeStreamCursor.

(** [cacheResumeToken] on its own: which token is stored, which event is
    emitted, and the flag. *)
Lemma cacheResumeToken_spec token c :
  let stored :=
    if (Cursor.bufferedCount (base c) =? 0) && truthy (postBatchResumeToken c)
    then postBatchResumeToken c else token in
  resumeToken (cacheResumeToken token c).1 = stored
  ∧ hasReceived (cacheResumeToken token c).1 = Some true
  ∧ (cacheResumeToken token c).2 = [Emit (RESUME_TOKEN_CHANGED stored)]
  ∧ options (cacheResumeToken token c).1 = options c
  ∧ postBatchResumeToken (cacheResumeToken token c).1 = postBatchResumeToken c
  ∧ startAtOperationTime (cacheResumeToken token c).1 = startAtOperationTime c
  ∧ resumeAfter (cacheResumeToken token c).1 = resumeAfter c
  ∧ startAfter (cacheResumeToken token c).1 = startAfter c.
Proof.
  unfold cacheResumeToken.
  destruct ((Cursor.bufferedCount (base c) =? 0) && truthy (postBatchResumeToken c));
    by destruct c.
Qed.

Lemma processBatch_spec response c :
  let c' := (_processBatch response c).1 in
  options c' = options c
  ∧ startAtOperationTime c' = startAtOperationTime c
  ∧ resumeAfter c' = resumeAfter c
  ∧ startAfter c' = startAfter c
  ∧ hasReceived c' = hasReceived c
  ∧ base c' = base c
  ∧ (if truthy (r_postBatchResumeToken response)
     then postBatchResumeToken c' = r_postBatchResumeToken response
          ∧ resumeToken c' =
              (if (length (batchOf response) =? 0)%nat
               then r_postBatchResumeToken response else resumeToken c)
     else postBatchResumeToken c' = postBatchResumeToken c
          ∧ resumeToken c' = resumeToken c).
Proof.
  unfold _processBatch.
  destruct (truthy (r_postBatchResumeToken response)); [|done].
  destruct (length (batchOf response) =? 0)%nat; by destruct c.
Qed.

End ResumeToken.

Section ResumePoint.

Import ChangeStreamCursor.

Lemma consistent_new loadBalanced namespace pipeline options :
  consistent (new loadBalanced namespace pipeline options).1.
Proof.
  unfold consistent, isSet, new.
  destruct (truthy (get options "startAfter")) eqn:Hs; simpl.
  - repeat split; auto.
  - destruct (truthy (get options "resumeAfter")) eqn:Hr; simpl;
      repeat split; auto; intros [H|H]; congruence.
Qed.

Lemma consistent_processBatch response c :
  consistent c -> consistent (_processBatch response c).1.
Proof.
  intros (Htok & Htime & Hra & Hsa & Hpb).
  pose proof (processBatch_spec response c) as (Ho & Ht & Hra' & Hsa' & _ & _ & Hcase).
  simpl in *. unfold consistent.
  rewrite Ho, Ht, Hra', Hsa'.
  destruct (truthy (r_postBatchResumeToken response)) eqn:Hp.
  - destruct Hcase as [-> ->]. repeat split; auto.
    destruct (length (batchOf response) =? 0)%nat; auto.
  - destruct Hcase as [-> ->]. repeat split; auto.
Qed.

Lemma consistent_startAtOperationTime time c :
  consistent c -> nullish (startAtOperationTime c) = true ->
  consistent (set_startAtOperationTime time c).
Proof.
  intros (Htok & Htime & Hra & Hsa & Hpb) Hnull.
  unfold consistent. destruct c; simpl in *.
  repeat split; auto.
  intros Hset. specialize (Htime Hset).
  destruct startAtOperationTime0; simpl in *; congruence.
Qed.

Lemma reachable_consistent c : reachable c -> consistent c.
Proof.
  induction 1 as [lb ns p o|c token _ IH Htoken|c response _ IH
                 |c server session err response _ IH|c err response _ IH|c b _ IH].
  - apply consistent_new.
  - destruct IH as (Htok & Htime & Hra & Hsa & Hpb).
    pose proof (cacheResumeToken_spec token c)
      as (Hr & _ & _ & Ho & Hp & Ht & Hra' & Hsa').
    simpl in Hr. unfold consistent.
    rewrite Ho, Hp, Hr, Ht, Hra', Hsa'.
    repeat split; auto.
    intros _.
    destruct (Cursor.bufferedCount (base c) =? 0); simpl; [|done].
    by destruct (truthy (postBatchResumeToken c)) eqn:E.
  - by apply consistent_processBatch.
  - unfold _initialize.
    destruct err as [e|]; [done|].
    destruct response as [response|]; [|done].
    match goal with
    | |- context [_processBatch response ?c1] =>
        pose proof (consistent_processBatch response c1) as Hb;
        destruct (_processBatch response c1) as [c2 e2]
    end.
    simpl in *. apply Hb.
    destruct (nullish (startAtOperationTime c)) eqn:Hn; simpl; [|done].
    match goal with
    | |- consistent (if ?b then _ else _) => destruct b; [|done]
    end.
    by apply consistent_startAtOperationTime.
  - unfold _getMore. destruct err as [e|]; [done|].
    pose proof (consistent_processBatch response c IH) as Hb.
    by destruct (_processBatch response c).
  - by destruct c.
Qed.

(** On a cursor that the program can reach, a post-batch resume token is
    present exactly when the field is truthy: [_processBatch] is the only
    writer and stores truthy tokens only. *)
Lemma postBatchResumeToken_present c :
  reachable c ->
  truthy (postBatchResumeToken c) = true <-> postBatchResumeToken c ≠ Undefined.
Proof.
  intros Hreach. apply reachable_consistent in Hreach.
  destruct Hreach as (_ & _ & _ & _ & [Hu|Ht]).
  - rewrite Hu. simpl. split; [discriminate|done].
  - split; [|done]. intros _ Hu. by rewrite Hu in Ht.
Qed.

Lemma lookup_filterOptions (o : gmap string value) names k :
  filterOptions o names !! k = if decide (k ∈ names) then o !! k else None.
Proof.
  unfold filterOptions. apply option_eq. intros v.
  rewrite map_lookup_filter_Some. simpl.
  destruct (decide (k ∈ names)) as [Hin|Hout].
  - split; [by intros [? _]|by intros ?].
  - split; [by intros [_ ?]|discriminate].
Qed.

Lemma START_OPTIONS_cases k :
  k ∈ START_OPTIONS ->
  k = "resumeAfter" ∨ k = "startAfter" ∨ k = "startAtOperationTime".
Proof.
  unfold START_OPTIONS. rewrite !elem_of_cons, elem_of_nil.
  intros [?|[?|[?|[]]]]; auto.
Qed.

Lemma get_filterOptions_start (o : gmap string value) k :
  k ∈ START_OPTIONS -> get (filterOptions o CURSOR_OPTIONS) k = get o k.
Proof.
  intros Hk. unfold get. rewrite lookup_filterOptions.
  destruct (decide (k ∈ CURSOR_OPTIONS)) as [|Hn]; [done|].
  exfalso. apply Hn. apply START_OPTIONS_cases in Hk.
  unfold CURSOR_OPTIONS, CHANGE_STREAM_OPTIONS.
  destruct Hk as [->|[->| ->]]; cbn; repeat constructor.
Qed.

End ResumePoint.

Section TokenClaims.

Import ChangeStreamCursor.

(** C1.  When [ChangeStream._processNewChange] consumes a change document
    [d] (the engine is open, owns a cursor, and [d._id] is there, so that
    [cacheResumeToken(d._id)] is called): if the buffer of the cursor is
    empty at that moment and a post-batch resume token is present, the
    resume token becomes the post-batch token; otherwise it becomes
    [d._id]; in both cases [hasReceived] becomes true. *)
Theorem processNewChange_caches_resume_token
    (s : ChangeStream.t) (c : t) (d : Document) (callback : option nat) :
  ChangeStream.kClosed s = false ->
  ChangeStream.cursor s = Some c ->
  truthy (get d "_id") = true ->
  exists c',
    ChangeStream.cursor (ChangeStream._processNewChange (Some d) callback s).1 = Some c'
    ∧ (Cursor.bufferedCount (base c) = 0
       ∧ truthy (postBatchResumeToken c) = true ->
       resumeToken c' = postBatchResumeToken c)
    ∧ (¬ (Cursor.bufferedCount (base c) = 0
          ∧ truthy (postBatchResumeToken c) = true) ->
       resumeToken c' = get d "_id")
    ∧ hasReceived c' = Some true.
Proof.
  intros Hopen Hcur Hid.
  unfold ChangeStream._processNewChange.
  rewrite Hopen, Hid, Hcur. simpl.
  pose proof (cacheResumeToken_spec (get d "_id") c) as (Htok & Hrecv & _).
  destruct (cacheResumeToken (get d "_id") c) as [c1 e1]. simpl in *.
  exists c1. split; [done|].
  rewrite Htok. repeat split; [| |done].
  - intros [Hb Hp]. by rewrite Hb, Hp.
  - intros Hno.
    destruct (Cursor.bufferedCount (base c) =? 0) eqn:Hb; [|done].
    destruct (truthy (postBatchResumeToken c)) eqn:Hp; [|done].
    exfalso. apply Hno. split; [by apply Z.eqb_eq|done].
Qed.

Lemma processNewChange_caches_resume_token_witness :
  exists c',
    ChangeStream.cursor
      (ChangeStream._processNewChange (Some Sample.change) (Some 1%nat)
                                      Sample.engine).1 = Some c'
    ∧ (Cursor.bufferedCount (base Sample.cursor) = 0
       ∧ truthy (postBatchResumeToken Sample.cursor) = true ->
       resumeToken c' = postBatchResumeToken Sample.cursor)
    ∧ (¬ (Cursor.bufferedCount (base Sample.cursor) = 0
          ∧ truthy (postBatchResumeToken Sample.cursor) = true) ->
       resumeToken c' = get Sample.change "_id")
    ∧ hasReceived c' = Some true.
Proof.
  apply (processNewChange_caches_resume_token
           Sample.engine Sample.cursor Sample.change (Some 1%nat));
    reflexivity.
Defined.

(** C2.  For every batch that the change-stream cursor processes -- in
    [_processBatch] itself, in the first batch of the aggregate
    ([_initialize]) and in the next batch of a getMore ([_getMore]): if the
    response carries [cursor.postBatchResumeToken], it is stored as
    [postBatchResumeToken], and if the batch is empty as well, the resume
    token equals it afterwards. *)
Theorem processBatch_stores_post_batch_token
    (response : RawResult) (c : t) (server : Server)
    (session : option ClientSession) :
  truthy (r_postBatchResumeToken response) = true ->
  let stored (c' : t) :=
    postBatchResumeToken c' = r_postBatchResumeToken response
    ∧ (batchOf response = [] -> resumeToken c' = r_postBatchResumeToken response) in
  stored (_processBatch response c).1
  ∧ stored (_initialize server session None (Some response) c).1.2
  ∧ stored (_getMore None response c).1.2.
Proof.
  intros Hp.
  assert (Hstored : forall c0,
    postBatchResumeToken (_processBatch response c0).1 = r_postBatchResumeToken response
    ∧ (batchOf response = [] ->
       resumeToken (_processBatch response c0).1 = r_postBatchResumeToken response)).
  { intros c0.
    pose proof (processBatch_spec response c0) as (_ & _ & _ & _ & _ & _ & Hcase).
    simpl in Hcase. rewrite Hp in Hcase. destruct Hcase as [Hpb Htok].
    split; [done|]. intros Hempty. by rewrite Htok, Hempty. }
  simpl. split; [apply Hstored|]. split.
  - unfold _initialize.
    match goal with
    | |- context [_processBatch response ?c1] =>
        specialize (Hstored c1); destruct (_processBatch response c1)
    end.
    exact Hstored.
  - unfold _getMore. specialize (Hstored c).
    by destruct (_processBatch response c).
Qed.

Lemma processBatch_stores_post_batch_token_witness :
  (postBatchResumeToken (_processBatch Sample.firstReply Sample.cursor).1 = Obj 21
   ∧ (batchOf Sample.firstReply = [] ->
      resumeToken (_processBatch Sample.firstReply Sample.cursor).1 = Obj 21))
  ∧ (postBatchResumeToken
       (_initialize Sample.server None None (Some Sample.firstReply) Sample.cursor).1.2
     = Obj 21
     ∧ (batchOf Sample.firstReply = [] ->
        resumeToken
          (_initialize Sample.server None None (Some Sample.firstReply) Sample.cursor).1.2
        = Obj 21))
  ∧ (postBatchResumeToken (_getMore None Sample.firstReply Sample.cursor).1.2 = Obj 21
     ∧ (batchOf Sample.firstReply = [] ->
        resumeToken (_getMore None Sample.firstReply Sample.cursor).1.2 = Obj 21)).
Proof.
  apply (processBatch_stores_post_batch_token
           Sample.firstReply Sample.cursor Sample.server None).
  reflexivity.
Defined.

(** C10.  A cursor constructed with a [startAfter] or a [resumeAfter]
    option has that token as its resume token right after construction,
    [startAfter] first when both are given, and the constructor emits
    [resumeTokenChanged] for this assignment; without either option the
    resume token starts as [null] (and nothing is emitted). *)
Theorem constructor_sets_resume_token
    (loadBalanced : bool) (namespace : string) (pipeline : list Stage)
    (options : gmap string value) :
  let c := (new loadBalanced namespace pipeline options).1 in
  let emitted := (new loadBalanced namespace pipeline options).2 in
  (isSet options "startAfter" ->
   resumeToken c = get options "startAfter"
   ∧ emitted = [Emit (RESUME_TOKEN_CHANGED (get options "startAfter"))])
  ∧ (¬ isSet options "startAfter" -> isSet options "resumeAfter" ->
     resumeToken c = get options "resumeAfter"
     ∧ emitted = [Emit (RESUME_TOKEN_CHANGED (get options "resumeAfter"))])
  ∧ (¬ isSet options "startAfter" -> ¬ isSet options "resumeAfter" ->
     resumeToken c = Null ∧ emitted = []).
Proof.
  unfold isSet, new. simpl.
  destruct (truthy (get options "startAfter")) eqn:Hs; simpl.
  - repeat split; intros; congruence.
  - destruct (truthy (get options "resumeAfter")) eqn:Hr; simpl;
      repeat split; intros; congruence.
Qed.

End TokenClaims.

Section ResumeOptions.

Import ChangeStreamCursor.

(** The snapshot when a resume token is known. *)
Lemma resumeOptions_token c :
  truthy (resumeToken c) = true ->
  let r := resumeOptions c in
  if truthy (get (options c) "startAfter") && negb (default false (hasReceived c))
  then r !! "startAfter" = Some (resumeToken c)
       ∧ r !! "resumeAfter" = None ∧ r !! "startAtOperationTime" = None
  else r !! "resumeAfter" = Some (resumeToken c)
       ∧ r !! "startAfter" = None ∧ r !! "startAtOperationTime" = None.
Proof.
  intros Htok. unfold resumeOptions. rewrite Htok. simpl.
  destruct (truthy (get (options c) "startAfter")
            && negb (default false (hasReceived c)));
    by simplify_map_eq.
Qed.

(** The snapshot when only an operation time is known. *)
Lemma resumeOptions_operationTime c :
  truthy (resumeToken c) = false ->
  truthy (startAtOperationTime c) = true ->
  let r := resumeOptions c in
  if 7 <=? maxWireVersion (Cursor.kServer (base c))
  then r !! "startAtOperationTime" = Some (startAtOperationTime c)
       ∧ r !! "resumeAfter" = None ∧ r !! "startAfter" = None
  else r !! "startAtOperationTime" = None
       ∧ r !! "resumeAfter" = None ∧ r !! "startAfter" = None.
Proof.
  intros Htok Htime. unfold resumeOptions. rewrite Htok, Htime. simpl.
  destruct (7 <=? maxWireVersion (Cursor.kServer (base c)));
    by simplify_map_eq.
Qed.

(** The snapshot when nothing is known: the options of the cursor. *)
Lemma resumeOptions_nothing c :
  truthy (resumeToken c) = false ->
  truthy (startAtOperationTime c) = false ->
  resumeOptions c = filterOptions (options c) CURSOR_OPTIONS.
Proof. intros Htok Htime. unfold resumeOptions. by rewrite Htok, Htime. Qed.

(** C3 as stated fails: when neither a resume token nor an operation time
    is known, [resumeOptions] deletes nothing, and the three keys of the
    options stay in the snapshot with the values they came with, here
    [null], [undefined] and [0]. *)
Lemma resumeOptions_keeps_falsy_start_options :
  let c :=
    (new false "db.c" [ChangeStreamStage ∅]
       {["resumeAfter" := Null; "startAfter" := Undefined;
         "startAtOperationTime" := Num 0]}).1 in
  let r := resumeOptions c in
  reachable c
  ∧ truthy (resumeToken c) = false ∧ truthy (startAtOperationTime c) = false
  ∧ r !! "resumeAfter" = Some Null
  ∧ r !! "startAfter" = Some Undefined
  ∧ r !! "startAtOperationTime" = Some (Num 0)
  ∧ ¬ (forall k1 k2, k1 ∈ START_OPTIONS -> k2 ∈ START_OPTIONS ->
         is_Some (r !! k1) -> is_Some (r !! k2) -> k1 = k2).
Proof.
  cbv zeta. split; [apply reach_new|].
  split; [by vm_compute|]. split; [by vm_compute|].
  assert (H1 : resumeOptions
                 (new false "db.c" [ChangeStreamStage ∅]
                    {["resumeAfter" := Null; "startAfter" := Undefined;
                      "startAtOperationTime" := Num 0]}).1
               !! "resumeAfter" = Some Null) by (by vm_compute).
  assert (H2 : resumeOptions
                 (new false "db.c" [ChangeStreamStage ∅]
                    {["resumeAfter" := Null; "startAfter" := Undefined;
                      "startAtOperationTime" := Num 0]}).1
               !! "startAfter" = Some Undefined) by (by vm_compute).
  split; [exact H1|]. split; [exact H2|]. split; [by vm_compute|].
  intros Hone.
  assert (Heq : "resumeAfter" = "startAfter"); [|discriminate Heq].
  apply Hone.
  - cbn. repeat constructor.
  - cbn. repeat constructor.
  - rewrite H1. by eexists.
  - rewrite H2. by eexists.
Qed.

(** C3, amended.  For every state that a [ChangeStreamCursor] can reach, the
    snapshot [resumeOptions] never has two of [resumeAfter], [startAfter],
    [startAtOperationTime] set (with a truthy value).  When the resume
    token is set, the snapshot has [startAfter := resumeToken] if the
    options of the cursor had [startAfter] and [hasReceived] is false, and
    [resumeAfter := resumeToken] otherwise, and in both cases neither of
    the other two keys; when the resume token is not set but
    [startAtOperationTime] is, and the wire version of the server is at
    least 7, it has [startAtOperationTime] and neither of the other two
    keys.  As soon as a token or an operation time is known, at most one of
    the three keys occurs in the snapshot at all; when neither is known,
    the snapshot is the recognized subset of the options, untouched. *)
Theorem resumeOptions_at_most_one (c : t) :
  reachable c ->
  let r := resumeOptions c in
  (forall k1 k2, k1 ∈ START_OPTIONS -> k2 ∈ START_OPTIONS ->
     isSet r k1 -> isSet r k2 -> k1 = k2)
  ∧ (truthy (resumeToken c) = true ->
     if truthy (get (options c) "startAfter") && negb (default false (hasReceived c))
     then r !! "startAfter" = Some (resumeToken c)
          ∧ r !! "resumeAfter" = None ∧ r !! "startAtOperationTime" = None
     else r !! "resumeAfter" = Some (resumeToken c)
          ∧ r !! "startAfter" = None ∧ r !! "startAtOperationTime" = None)
  ∧ (truthy (resumeToken c) = false ->
     truthy (startAtOperationTime c) = true ->
     7 <= maxWireVersion (Cursor.kServer (base c)) ->
     r !! "startAtOperationTime" = Some (startAtOperationTime c)
     ∧ r !! "resumeAfter" = None ∧ r !! "startAfter" = None)
  ∧ (truthy (resumeToken c) = true ∨ truthy (startAtOperationTime c) = true ->
     forall k1 k2, k1 ∈ START_OPTIONS -> k2 ∈ START_OPTIONS ->
       is_Some (r !! k1) -> is_Some (r !! k2) -> k1 = k2)
  ∧ (truthy (resumeToken c) = false -> truthy (startAtOperationTime c) = false ->
     r = filterOptions (options c) CURSOR_OPTIONS).
Proof.
  intros Hreach. apply reachable_consistent in Hreach.
  destruct Hreach as (Htok & Htime & _).
  assert (Hkeys : truthy (resumeToken c) = true ∨ truthy (startAtOperationTime c) = true ->
    forall k1 k2, k1 ∈ START_OPTIONS -> k2 ∈ START_OPTIONS ->
      is_Some (resumeOptions c !! k1) -> is_Some (resumeOptions c !! k2) -> k1 = k2).
  { intros Hknown k1 k2 H1 H2 [v1 E1] [v2 E2].
    apply START_OPTIONS_cases in H1, H2.
    destruct (truthy (resumeToken c)) eqn:Ht.
    - pose proof (resumeOptions_token c Ht) as Hr. simpl in Hr.
      destruct (truthy (get (options c) "startAfter")
                && negb (default false (hasReceived c)));
        destruct Hr as (Ha & Hb & Hc);
        destruct H1 as [->|[->| ->]], H2 as [->|[->| ->]]; congruence.
    - destruct Hknown as [|Hs]; [done|].
      pose proof (resumeOptions_operationTime c Ht Hs) as Hr. simpl in Hr.
      destruct (7 <=? maxWireVersion (Cursor.kServer (base c)));
        destruct Hr as (Ha & Hb & Hc);
        destruct H1 as [->|[->| ->]], H2 as [->|[->| ->]]; congruence. }
  simpl. split; [|split; [|split; [|split]]].
  - intros k1 k2 H1 H2 S1 S2.
    destruct (truthy (resumeToken c)) eqn:Ht;
      [|destruct (truthy (startAtOperationTime c)) eqn:Hs].
    + apply Hkeys; auto; unfold isSet, get in *.
      * by destruct (resumeOptions c !! k1).
      * by destruct (resumeOptions c !! k2).
    + apply Hkeys; auto; unfold isSet, get in *.
      * by destruct (resumeOptions c !! k1).
      * by destruct (resumeOptions c !! k2).
    + exfalso. unfold isSet in S1.
      rewrite (resumeOptions_nothing c Ht Hs), get_filterOptions_start in S1 by done.
      apply START_OPTIONS_cases in H1. unfold isSet in *.
      destruct H1 as [->|[->| ->]].
      * discriminate Htok. by right.
      * discriminate Htok. by left.
      * by discriminate Htime.
  - apply resumeOptions_token.
  - intros Ht Hs Hwire.
    pose proof (resumeOptions_operationTime c Ht Hs) as Hr. simpl in Hr.
    destruct (7 <=? maxWireVersion (Cursor.kServer (base c))) eqn:Hw; [done|].
    apply Z.leb_gt in Hw. lia.
  - exact Hkeys.
  - apply resumeOptions_nothing.
Qed.

Lemma resumeOptions_at_most_one_witness :
  let r := resumeOptions Sample.resumedCursor in
  (forall k1 k2, k1 ∈ START_OPTIONS -> k2 ∈ START_OPTIONS ->
     isSet r k1 -> isSet r k2 -> k1 = k2)
  ∧ (truthy (resumeToken Sample.resumedCursor) = true ->
     if truthy (get (options Sample.resumedCursor) "startAfter")
        && negb (default false (hasReceived Sample.resumedCursor))
     then r !! "startAfter" = Some (resumeToken Sample.resumedCursor)
          ∧ r !! "resumeAfter" = None ∧ r !! "startAtOperationTime" = None
     else r !! "resumeAfter" = Some (resumeToken Sample.resumedCursor)
          ∧ r !! "startAfter" = None ∧ r !! "startAtOperationTime" = None)
  ∧ (truthy (resumeToken Sample.resumedCursor) = false ->
     truthy (startAtOperationTime Sample.resumedCursor) = true ->
     7 <= maxWireVersion (Cursor.kServer (base Sample.resumedCursor)) ->
     r !! "startAtOperationTime" = Some (startAtOperationTime Sample.resumedCursor)
     ∧ r !! "resumeAfter" = None ∧ r !! "startAfter" = None)
  ∧ (truthy (resumeToken Sample.resumedCursor) = true
     ∨ truthy (startAtOperationTime Sample.resumedCursor) = true ->
     forall k1 k2, k1 ∈ START_OPTIONS -> k2 ∈ START_OPTIONS ->
       is_Some (r !! k1) -> is_Some (r !! k2) -> k1 = k2)
  ∧ (truthy (resumeToken Sample.resumedCursor) = false ->
     truthy (startAtOperationTime Sample.resumedCursor) = false ->
     r = filterOptions (options Sample.resumedCursor) CURSOR_OPTIONS).
Proof.
  apply (resumeOptions_at_most_one Sample.resumedCursor).
  apply reach_new.
Defined.

(** The snapshot of the sample cursor, evaluated. *)
Example resumeOptions_sample :
  resumeOptions Sample.resumedCursor = {["resumeAfter" := Obj 1]}.
Proof. by vm_compute. Qed.

End ResumeOptions.

(** ** The operation time of the first response *)

Section OperationTime.

Import ChangeStreamCursor.

(** What [_initialize] does with [response.operationTime] on a cursor
    that the program can reach: the fields [resumeAfter] and [startAfter]
    of the cursor are never assigned, so their tests always pass. *)
Lemma initialize_startAtOperationTime c server session response :
  reachable c ->
  startAtOperationTime (_initialize server session None (Some response) c).1.2
  = if nullish (startAtOperationTime c) && (7 <=? wire_version server)
    then r_operationTime response
    else startAtOperationTime c.
Proof.
  intros Hreach. apply reachable_consistent in Hreach.
  destruct Hreach as (_ & _ & Hra & Hsa & _).
  unfold _initialize. rewrite Hra, Hsa. simpl.
  match goal with
  | |- context [_processBatch response ?c1] =>
      pose proof (processBatch_spec response c1) as (_ & Ht & _);
      destruct (_processBatch response c1) as [c2 e2]
  end.
  simpl in *. rewrite Ht. rewrite !andb_true_r.
  destruct (nullish (startAtOperationTime c)); simpl; [|done].
  destruct (7 <=? wire_version server); by destruct c.
Qed.

(** C4.  The code at the failing input: a cursor constructed with
    [{ resumeAfter: token }] has the option set, and still records the
    operation time of the first response (wire version 7), because the
    test reads the fields [this.resumeAfter] and [this.startAfter], which
    nothing assigns, and not the options. *)
Theorem initialize_records_operationTime_despite_resumeAfter :
  isSet (options Sample.resumedCursor) "resumeAfter"
  ∧ resumeAfter Sample.resumedCursor = Undefined
  ∧ startAtOperationTime Sample.resumedCursor = Undefined
  ∧ startAtOperationTime
      (_initialize Sample.server None None (Some Sample.firstReply)
                   Sample.resumedCursor).1.2
    = r_operationTime Sample.firstReply.
Proof. by vm_compute. Qed.

End OperationTime.

(** ** The life of a cursor *)

Section CursorLifecycle.

Import Cursor.

Lemma next_closed fuel blocking env c :
  kClosed c = true ->
  next (S fuel) blocking env c = (Done None None, c, env, []).
Proof. intros Hc. simpl. by rewrite Hc. Qed.

Lemma next_buffered fuel blocking env c doc rest :
  kClosed c = false -> kDocuments c = doc :: rest ->
  next (S fuel) blocking env c
  = (Done None (Some (transformed c doc)), set_kDocuments rest c, env, []).
Proof.
  intros Hc Hd. simpl. rewrite Hc, Hd. simpl.
  unfold nextDocument, transformed. rewrite Hd.
  by destruct (kTransform c).
Qed.

Lemma next_exhausted fuel blocking env c id :
  kClosed c = false -> kDocuments c = [] ->
  kId c = Some id -> Long.isZero id = true ->
  let c' := set_kId (Some Long.ZERO) (set_kClosed true c) in
  next (S fuel) blocking env c
  = (Done None None, c', env, Emit CLOSE :: releaseSession None c').
Proof.
  intros Hc Hd Hid Hz. simpl. rewrite Hc, Hd, Hid. simpl.
  unfold cursorIsDead, cleanupCursor, killTarget. rewrite Hid, Hz, Hd. simpl.
  by destruct (kServer c).
Qed.

(** [close] marks the cursor closed and runs [cleanupCursor], which looks
    for a server cursor to kill: the two cases of every fact about [close]. *)
Ltac close_cases c :=
  unfold close, cleanupCursor, completeCleanup;
  replace (killTarget (set_kClosed true c)) with (killTarget c) by (by destruct c);
  destruct (killTarget c) as [[? ?]|] eqn:?; simpl.

Lemma close_fields c :
  let c' := (close c).1 in
  kClosed c' = true
  ∧ kDocuments c' = kDocuments c
  ∧ kId c' =
      (match killTarget c with
       | Some _ => kId c
       | None => if kClosed c then kId c else Some Long.ZERO
       end).
Proof.
  close_cases c.
  - by destruct c.
  - destruct (kClosed c); by destruct c.
Qed.

(** What [close] does to the outside world. *)
Lemma close_effects c :
  (close c).2 =
    match killTarget c with
    | Some (cursorNs, cursorId) =>
        KillCursors cursorNs cursorId :: releaseSession None c ++ [Emit CLOSE]
    | None =>
        (if kClosed c then [] else [Emit CLOSE]) ++ releaseSession None c
    end.
Proof.
  close_cases c.
  - by destruct c.
  - destruct (kClosed c); by destruct c.
Qed.

Lemma close_killTarget c :
  is_Some (killTarget c) -> killTarget (close c).1 = killTarget c.
Proof.
  intros [[ns id] Hk]. close_cases c; [by destruct c|done].
Qed.

(** A second [close] of a cursor whose server cursor is alive sends
    [killCursors] and emits [close] once more. *)
Lemma close_again_kills_again c cursorNs cursorId :
  killTarget c = Some (cursorNs, cursorId) ->
  (close (close c).1).2
  = KillCursors cursorNs cursorId :: releaseSession None (close c).1 ++ [Emit CLOSE].
Proof.
  intros Hk. rewrite close_effects, close_killTarget by (rewrite Hk; eauto).
  by rewrite Hk.
Qed.

(** C7.  The code at the failing input: two calls of [close] on an open
    cursor whose server cursor (id 42) is alive send [killCursors] twice
    and emit [close] twice. *)
Theorem close_twice_kills_and_emits_twice :
  (closes 2 Sample.liveCursor).2
  = [KillCursors "db.c" (Long.Alloc 42); Emit CLOSE;
     KillCursors "db.c" (Long.Alloc 42); Emit CLOSE]
  ∧ length (List.filter is_emit_close (closes 2 Sample.liveCursor).2) = 2%nat
  ∧ length (List.filter is_killCursors (closes 2 Sample.liveCursor).2) = 2%nat.
Proof. by vm_compute. Qed.

(** On the exit of [cleanupCursor] that does not kill, the guard works:
    a second [close] neither kills nor emits. *)
Lemma close_again_without_kill c :
  killTarget c = None ->
  List.filter is_emit_close (close (close c).1).2 = []
  ∧ List.filter is_killCursors (close (close c).1).2 = [].
Proof.
  intros Hk.
  pose proof (close_fields c) as (Hclosed & _ & Hid). simpl in *.
  rewrite Hk in Hid.
  assert (Hs : kServer (close c).1 = kServer c).
  { close_cases c; [done|]. destruct (kClosed c); by destruct c. }
  assert (Hk' : killTarget (close c).1 = None).
  { unfold killTarget in *. rewrite Hid, Hs.
    destruct (kClosed c); [|by destruct (kServer c)].
    destruct (kId c) as [id|]; [|done].
    destruct (kServer c); [|done].
    by destruct (Long.isZero id). }
  rewrite close_effects, Hk', Hclosed. simpl.
  unfold releaseSession.
  destruct (kSession (close c).1) as [s|]; [|done].
  destruct (owner_is_cursor s); [done|].
  by destruct (negb (inTransaction s)).
Qed.

End CursorLifecycle.

Section AfterClose.

Import Cursor.

(** C8 as stated fails: a cursor that is closed before its first use has
    its id set to [Long.ZERO] by [cleanupCursor], and the method [next]
    then answers with [MongoCursorExhaustedError] instead of the end of
    the stream. *)
Lemma next_method_after_close_of_fresh_cursor_fails :
  let c := (close Sample.freshCursor).1 in
  let result := (next_method 3 Sample.lastBatchEnv c).1.1.1 in
  kClosed c = true
  ∧ result = Done (Some MongoCursorExhaustedError) None
  ∧ result ≠ Done None None.
Proof. by vm_compute. Qed.

(** C8, amended.  After [close()] has completed, the documents that were
    buffered are still there, and the module-level [next] (on which
    [hasNext], [toArray], [forEach] and the stream are built) reports the
    end of the stream: no document, no error, no effect.  The method
    [AbstractCursor.next] does the same when [close] had a live server
    cursor to kill (the id stays as it was); when [close] found nothing to
    kill on a cursor that was still open, it has set the id to
    [Long.ZERO], and the method fails with [MongoCursorExhaustedError]. *)
Theorem next_after_close (c : t) (fuel : nat) (blocking : bool) (env : Env) :
  let c' := (close c).1 in
  kDocuments c' = kDocuments c
  ∧ next (S fuel) blocking env c' = (Done None None, c', env, [])
  ∧ (is_Some (killTarget c) ->
     next_method (S fuel) env c' = (Done None None, c', env, []))
  ∧ (killTarget c = None -> kClosed c = false ->
     next_method fuel env c' = (Done (Some MongoCursorExhaustedError) None, c', env, [])).
Proof.
  pose proof (close_fields c) as (Hclosed & Hdocs & Hid). simpl in *.
  split; [done|]. split; [by apply next_closed|]. split.
  - intros [[ns id] Hk]. rewrite Hk in Hid.
    unfold next_method. rewrite Hid.
    unfold killTarget in Hk.
    destruct (kId c) as [i|]; [|done].
    destruct (kServer c); [|done].
    destruct i as [|v]; [done|]. simpl.
    by rewrite Hclosed.
  - intros Hk Hopen. rewrite Hk, Hopen in Hid.
    unfold next_method. by rewrite Hid.
Qed.

End AfterClose.

Section LastBatch.

Import Cursor.

Lemma releaseSession_no_getMore error c :
  List.filter is_getMore (releaseSession error c) = [].
Proof.
  unfold releaseSession.
  destruct (kSession c) as [s|]; [|done].
  destruct (owner_is_cursor s); [done|].
  by destruct (negb (inTransaction s)).
Qed.

Lemma nexts_S n fuel blocking env c :
  nexts (S n) fuel blocking env c
  = let '(r, c1, env1, e1) := next fuel blocking env c in
    let '(rs, c2, env2, e2) := nexts n fuel blocking env1 c1 in
    (r :: rs, c2, env2, e1 ++ e2).
Proof. reflexivity. Qed.

Lemma next_methods_S n fuel env c :
  next_methods (S n) fuel env c
  = let '(r, c1, env1, e1) := next_method fuel env c in
    let '(rs, c2, env2, e2) := next_methods n fuel env1 c1 in
    (r :: rs, c2, env2, e1 ++ e2).
Proof. reflexivity. Qed.

(** A dead cursor (id zero) that is still open hands out what it has
    buffered, one document for each call, and then ends. *)
Lemma nexts_drain fuel blocking env id docs : forall c,
  kClosed c = false -> kDocuments c = docs ->
  kId c = Some id -> Long.isZero id = true ->
  nexts (S (length docs)) (S fuel) blocking env c
  = (map (λ doc, Done None (Some (transformed c doc))) docs ++ [Done None None],
     ended c, env, Emit CLOSE :: releaseSession None (ended c)).
Proof.
  induction docs as [|doc rest IH]; intros c Hopen Hdocs Hid Hz.
  - cbn [length]. rewrite nexts_S.
    rewrite (next_exhausted fuel blocking env c id) by done.
    simpl. 
    replace (set_kId (Some Long.ZERO) (set_kClosed true c)) with (ended c);
      [by rewrite app_nil_r|].
    unfold ended. destruct c; simpl in *; by subst.
  - cbn [length]. rewrite nexts_S.
    rewrite (next_buffered fuel blocking env c doc rest) by done.
    rewrite (IH (set_kDocuments rest c)) by (by destruct c).
    simpl. by destruct c.
Qed.

Lemma next_methods_drain fuel env id docs : forall c,
  kClosed c = false -> kDocuments c = docs ->
  kId c = Some id -> Long.is_ZERO id = false ->
  next_methods (S (length docs)) (S fuel) env c
  = nexts (S (length docs)) (S fuel) true env c.
Proof.
  induction docs as [|doc rest IH]; intros c Hopen Hdocs Hid Hz.
  - cbn [length]. rewrite nexts_S, next_methods_S.
    unfold next_method. by rewrite Hid, Hz.
  - cbn [length]. rewrite nexts_S, next_methods_S.
    unfold next_method. rewrite Hid, Hz.
    rewrite (next_buffered fuel true env c doc rest) by done.
    by rewrite (IH (set_kDocuments rest c)) by (by destruct c).
Qed.

Lemma nexts_closed fuel blocking env c n :
  kClosed c = true ->
  nexts n (S fuel) blocking env c = (replicate n (Done None None), c, env, []).
Proof.
  intros Hc. induction n as [|n IH]; [done|].
  rewrite nexts_S, next_closed by done. by rewrite IH.
Qed.

(** The call of [next] that receives the last batch. *)
Lemma next_last_batch fuel blocking env c id server wid doc docs rest :
  kClosed c = false -> kDocuments c = [] ->
  kId c = Some id -> Long.isZero id = false -> kServer c = Some server ->
  getMoreReplies env = GetMoreOk wid (doc :: docs) :: rest ->
  Long.isZero (Long.ofWire wid) = true ->
  exists batchSize,
    let c0 := set_kId (Some (Long.ofWire wid)) (set_kDocuments (doc :: docs) c) in
    next (S fuel) blocking env c
    = (Done None (Some (transformed c doc)), set_kDocuments docs c0, popGetMore env,
       GetMore (kNamespace c) id batchSize :: releaseSession None c0).
Proof.
  intros Hopen Hdocs Hid Hlive Hserver Hreply Hzero.
  eexists. simpl.
  rewrite Hopen, Hdocs, Hid. simpl.
  unfold cursorIsDead at 1. rewrite Hid, Hlive.
  unfold _getMore. rewrite Hid, Hserver, Hreply. simpl.
  unfold cursorIsDead, cleanupCursor, killTarget, nextDocument, transformed. simpl.
  rewrite Hzero, Hserver. simpl.
  destruct (kTransform c); reflexivity.
Qed.

(** C9.  When a getMore answers with cursor id 0 and a non-empty batch,
    the following calls of [next] yield every document of the batch, in
    the order of the batch (through the transform of the cursor, if it has
    one), and only then the end of the stream.  The getMore that brought
    the batch is the only one: no later call sends another, the remaining
    replies of the server are untouched, the cursor ends closed, and
    further calls do nothing.  The method [AbstractCursor.next] behaves
    the same, the id of the response being an object of its own and not
    the constant [Long.ZERO]. *)
Theorem last_batch_is_drained
    (c : t) (env : Env) (id : Long.t) (server : Server) (wid : Long.wire)
    (batch : list Document) (rest : list GetMoreReply)
    (fuel : nat) (blocking : bool) :
  kClosed c = false -> kDocuments c = [] ->
  kId c = Some id -> Long.isZero id = false -> kServer c = Some server ->
  getMoreReplies env = GetMoreOk wid batch :: rest ->
  Long.isZero (Long.ofWire wid) = true ->
  batch ≠ [] ->
  let run := nexts (S (length batch)) (S fuel) blocking env c in
  run.1.1.1
    = map (λ doc, Done None (Some (transformed c doc))) batch ++ [Done None None]
  ∧ length (List.filter is_getMore run.2) = 1%nat
  ∧ getMoreReplies run.1.2 = rest
  ∧ kClosed run.1.1.2 = true
  ∧ kDocuments run.1.1.2 = []
  ∧ (forall n, (nexts n (S fuel) blocking run.1.2 run.1.1.2).2 = [])
  ∧ (Long.is_ZERO (Long.ofWire wid) = false ->
     next_methods (S (length batch)) (S fuel) env c
     = nexts (S (length batch)) (S fuel) true env c).
Proof.
  intros Hopen Hdocs Hid Hlive Hserver Hreply Hzero Hbatch.
  destruct batch as [|doc docs]; [done|].
  assert (Hfirst : forall blocking, exists batchSize,
    let c0 := set_kId (Some (Long.ofWire wid)) (set_kDocuments (doc :: docs) c) in
    next (S fuel) blocking env c
    = (Done None (Some (transformed c doc)), set_kDocuments docs c0, popGetMore env,
       GetMore (kNamespace c) id batchSize :: releaseSession None c0)).
  { intros b. by eapply next_last_batch. }
  set (c0 := set_kId (Some (Long.ofWire wid)) (set_kDocuments (doc :: docs) c)).
  assert (Hdrain : forall blocking,
    nexts (S (length docs)) (S fuel) blocking (popGetMore env) (set_kDocuments docs c0)
    = (map (λ d, Done None (Some (transformed c d))) docs ++ [Done None None],
       ended c, popGetMore env, Emit CLOSE :: releaseSession None (ended c))).
  { intros b.
    rewrite (nexts_drain fuel b (popGetMore env) (Long.ofWire wid) docs)
      by (by destruct c).
    by destruct c. }
  destruct (Hfirst blocking) as [bs Hn]. cbv zeta in Hn. fold c0 in Hn.
  assert (Hrun :
    nexts (S (S (length docs))) (S fuel) blocking env c
    = (Done None (Some (transformed c doc))
         :: map (λ d, Done None (Some (transformed c d))) docs ++ [Done None None],
       ended c, popGetMore env,
       (GetMore (kNamespace c) id bs :: releaseSession None c0)
         ++ Emit CLOSE :: releaseSession None (ended c))).
  { by rewrite nexts_S, Hn, Hdrain. }
  cbn [length]. cbv zeta. rewrite Hrun. cbn [fst snd].
  split; [done|]. split.
  { rewrite List.filter_app. cbn [List.filter is_getMore is_emit_close].
    by rewrite !releaseSession_no_getMore. }
  split; [by unfold popGetMore; cbn; rewrite Hreply|].
  split; [done|]. split; [done|]. split.
  { intros n. by rewrite nexts_closed. }
  intros Hobj.
  rewrite (nexts_S (S (length docs))), (next_methods_S (S (length docs))).
  assert (Hm : next_method (S fuel) env c = next (S fuel) true env c).
  { unfold next_method. rewrite Hid. by destruct id. }
  rewrite Hm.
  destruct (Hfirst true) as [bs' Hn']. cbv zeta in Hn'. rewrite Hn'. fold c0.
  by rewrite (next_methods_drain fuel (popGetMore env) (Long.ofWire wid) docs)
    by (by destruct c).
Qed.

Lemma last_batch_is_drained_witness :
  let run := nexts 3 1 true Sample.lastBatchEnv Sample.liveCursor in
  run.1.1.1
    = map (λ doc, Done None (Some (transformed Sample.liveCursor doc)))
          [Sample.doc 1; Sample.doc 2] ++ [Done None None]
  ∧ length (List.filter is_getMore run.2) = 1%nat
  ∧ getMoreReplies run.1.2 = []
  ∧ kClosed run.1.1.2 = true
  ∧ kDocuments run.1.1.2 = []
  ∧ (forall n, (nexts n 1 true run.1.2 run.1.1.2).2 = [])
  ∧ (Long.is_ZERO (Long.ofWire (Long.Number 0)) = false ->
     next_methods 3 1 Sample.lastBatchEnv Sample.liveCursor
     = nexts 3 1 true Sample.lastBatchEnv Sample.liveCursor).
Proof.
  apply (last_batch_is_drained Sample.liveCursor Sample.lastBatchEnv
           (Long.Alloc 42) Sample.server (Long.Number 0)
           [Sample.doc 1; Sample.doc 2] [] 0 true);
    try reflexivity.
  discriminate.
Defined.

(** The run of the sample, evaluated: two documents, then the end; one
    getMore, and [close] emitted once at the end. *)
Example last_batch_sample :
  (nexts 3 1 true Sample.lastBatchEnv Sample.liveCursor).1.1.1
    = [Done None (Some (Sample.doc 1)); Done None (Some (Sample.doc 2)); Done None None]
  ∧ (nexts 3 1 true Sample.lastBatchEnv Sample.liveCursor).2
    = [GetMore "db.c" (Long.Alloc 42) 1000; Emit CLOSE].
Proof. by vm_compute. Qed.

End LastBatch.

(** ** The resume queue *)

Section ResumeQueue.

Import ChangeStream.

(** With an error the loop runs every continuation with that error. *)
Lemma drain_error e closed hasCursor queue :
  drain (Some e) closed hasCursor queue
  = ([], map (λ request, Run request (Some e) hasCursor) queue).
Proof. induction queue as [|r q IH]; [done|]. simpl. by rewrite IH. Qed.


(** Without an error, on a closed engine, the loop runs the continuation
    at the back of the deque and returns: the others stay queued. *)
Lemma drain_closed hasCursor request queue :
  drain None true hasCursor (request :: queue)
  = (queue, [Run request (Some closedError) false]).
Proof. reflexivity. Qed.

(** The failing end of a resume attempt closes the engine and empties the
    queue: every continuation is run once, with the error. *)
Lemma unresumableError_empties_queue callback err s :
  kResumeQueue (unresumableError callback err s).1 = [].
Proof.
  unfold unresumableError, _processResumeQueue.
  destruct (close s) as [s1 e1].
  rewrite drain_error. by destruct s1.
Qed.


(** If the engine has been closed in the meantime, one continuation is
    told so and the others are left in the queue without an outcome. *)
Lemma resumeWithCursor_closed newCursor s request queue :
  kClosed s = true -> kResumeQueue s = request :: queue ->
  kResumeQueue (resumeWithCursor newCursor s).1 = queue
  ∧ (resumeWithCursor newCursor s).2 = [Run request (Some closedError) false].
Proof.
  intros Hclosed Hqueue. unfold resumeWithCursor, _processResumeQueue. simpl.
  by rewrite Hclosed, Hqueue.
Qed.

(** C5.  The code at the failing input: [next(cb1)] fails with a
    resumable error, [next(cb2)] is queued behind its retry, and the
    consumer closes the engine while it waits for the topology.  When the
    resume attempt then succeeds, [_processResumeQueue] tells the
    continuation of [cb2] that the engine is closed and returns; the retry
    of [cb1] stays in the queue and is never run. *)
Theorem resume_after_close_leaves_queue :
  kResumeQueue Sample.closedWhileResuming = [WithCursor Next 2; NextAgain 1]
  ∧ kClosed Sample.closedWhileResuming = true
  ∧ exists s effects,
      Sample.resumedAfterClose = inr (s, effects)
      ∧ kResumeQueue s = [NextAgain 1]
      ∧ List.filter (λ e, match e with Run _ _ _ => true | _ => false end) effects
        = [Run (WithCursor Next 2) (Some closedError) false].
Proof.
  split; [by vm_compute|]. split; [by vm_compute|].
  eexists _, _. split; [by vm_compute|]. split; by vm_compute.
Qed.

End ResumeQueue.

Example sample_waiting :
  (ChangeStream.nextReturned true 1 (Some Sample.networkError) None Sample.iterating).2
  = Some Sample.waiting.
Proof. by vm_compute. Qed.

(** The sample engine is the one that the constructor builds. *)
Example sample_engine :
  ChangeStream.new Sample.parent [] ∅ = inr (Sample.engine, []).
Proof. by vm_compute. Qed.

(** ** Closing the engine *)

(** [ChangeStream.close] drops the cursor it has closed, so that a second
    call, made after the first has completed, finds nothing to do. *)
Lemma engine_close_again s :
  ChangeStream.close (ChangeStream.close s).1 = ((ChangeStream.close s).1, []).
Proof.
  assert (H : ChangeStream.kClosed (ChangeStream.close s).1 = true
              ∧ ChangeStream.cursor (ChangeStream.close s).1 = None).
  { unfold ChangeStream.close. simpl.
    destruct (ChangeStream.cursor s) as [c|] eqn:Hc; [|done].
    by destruct (Cursor.close (ChangeStreamCursor.base c)). }
  destruct H as [Hclosed Hcursor].
  destruct (ChangeStream.close s) as [s1 e1]. simpl in *.
  unfold ChangeStream.close. simpl. rewrite Hcursor.
  destruct s1; simpl in *; by subst.
Qed.

(** ** The mode guard *)

Section Mode.

Import ChangeStream.

Lemma setIsEmitter_spec s :
  _setIsEmitter s
  = if decide (kMode s = Iterator) then inl emitterAfterIterator
    else inr (set_kMode Emitter s).
Proof. unfold _setIsEmitter. by destruct (kMode s). Qed.

Lemma setIsIterator_spec s :
  _setIsIterator s
  = if decide (kMode s = Emitter) then inl iteratorAfterEmitter
    else inr (set_kMode Iterator s).
Proof. unfold _setIsIterator. by destruct (kMode s). Qed.

Lemma streamEvents_mode s :
  match _streamEvents s with
  | inl e => kMode s = Iterator ∧ e = emitterAfterIterator
  | inr (s', _) => kMode s ≠ Iterator ∧ kMode s' = Emitter
  end.
Proof.
  unfold _streamEvents. rewrite setIsEmitter_spec.
  destruct (decide (kMode s = Iterator)); [done|]. by destruct s.
Qed.

Lemma iterate_mode op cb s :
  match iterate op cb s with
  | inl e => kMode s = Emitter ∧ e = iteratorAfterEmitter
  | inr (s', _) => kMode s ≠ Emitter ∧ kMode s' = Iterator
  end.
Proof.
  unfold iterate. rewrite setIsIterator_spec.
  destruct (decide (kMode s = Emitter)); [done|].
  unfold _getCursor. simpl.
  destruct (kClosed s); [done|]. by destruct (cursor s).
Qed.

Lemma close_mode s : kMode (close s).1 = kMode s.
Proof.
  unfold close. simpl. destruct (cursor s) as [c|]; [|done].
  by destruct (Cursor.close (ChangeStreamCursor.base c)).
Qed.

Lemma closeWithError_mode error callback s :
  kMode (_closeWithError error callback s).1 = kMode s.
Proof.
  unfold _closeWithError. pose proof (close_mode s) as H.
  by destruct (close s).
Qed.

Lemma processResumeQueue_mode err s : kMode (_processResumeQueue err s).1 = kMode s.
Proof.
  unfold _processResumeQueue.
  by destruct (drain err (kClosed s) (is_Some_b (cursor s)) (kResumeQueue s)).
Qed.

Lemma processNewChange_mode change callback s :
  kMode (_processNewChange change callback s).1 = kMode s.
Proof.
  unfold _processNewChange.
  destruct (kClosed s); [done|].
  destruct change as [change|]; [|apply closeWithError_mode].
  destruct (negb (truthy (get change "_id"))); [apply closeWithError_mode|].
  destruct (cursor s) as [c|]; [|done].
  by destruct (ChangeStreamCursor.cacheResumeToken (get change "_id") c).
Qed.

Lemma unresumableError_mode callback err s :
  kMode (unresumableError callback err s).1 = kMode s.
Proof.
  unfold unresumableError.
  pose proof (close_mode s) as H. destruct (close s) as [s1 e1].
  pose proof (processResumeQueue_mode (Some err) s1) as H2.
  destruct (_processResumeQueue (Some err) s1). simpl in *. congruence.
Qed.

Lemma resumeWithCursor_mode newCursor s :
  kMode (resumeWithCursor newCursor s).1 = kMode s.
Proof. unfold resumeWithCursor. by rewrite processResumeQueue_mode. Qed.

Lemma processError_mode resumable error callback s :
  kMode (_processError resumable error callback s).1.1 = kMode s.
Proof.
  unfold _processError.
  destruct (kClosed s); [done|].
  pose proof (closeWithError_mode error callback s) as H.
  destruct (cursor s) as [c|]; [destruct resumable|].
  - simpl. by destruct (Cursor.close (ChangeStreamCursor.base c)).
  - by destruct (_closeWithError error callback s).
  - by destruct (_closeWithError error callback s).
Qed.

Lemma nextReturned_mode resumable cb error change s :
  kMode (nextReturned resumable cb error change s).1.1 = kMode s.
Proof.
  unfold nextReturned. destruct error as [e|].
  - by rewrite processError_mode.
  - pose proof (processNewChange_mode change (Some cb) s) as H.
    by destruct (_processNewChange change (Some cb) s).
Qed.

Lemma createChangeStreamCursor_mode options s :
  match _createChangeStreamCursor options s with
  | inl e => kMode s = Iterator
  | inr (_, s', _) => kMode s' = kMode s ∨ (kMode s = Unset ∧ kMode s' = Emitter)
  end.
Proof.
  unfold _createChangeStreamCursor.
  destruct (ChangeStreamCursor.new _ _ _ _) as [c e1].
  destruct (0 <? changeListeners s)%nat; [|by left].
  pose proof (streamEvents_mode s) as H.
  destruct (_streamEvents s) as [e|[s1 e2]]; [by destruct H|].
  destruct H as [Hn ->]. destruct (kMode s); [by right|done|by left].
Qed.

Lemma topologyWaited_mode w err probe s :
  kMode s ≠ Unset -> kMode (after (topologyWaited w err probe s) s) = kMode s.
Proof.
  intros Hset. unfold topologyWaited.
  destruct err as [err|]; [apply unresumableError_mode|].
  pose proof (createChangeStreamCursor_mode
                (ChangeStreamCursor.resumeOptions (oldCursor w)) s) as H.
  destruct (_createChangeStreamCursor _ s) as [e|[[newCursor s1] e1]]; [done|].
  assert (Hs1 : kMode s1 = kMode s) by (destruct H as [|[]]; done).
  destruct (waitingCallback w) as [cb|].
  - destruct (probe newCursor) as [[perr|] probed].
    + pose proof (unresumableError_mode (Some cb) perr s1) as H2.
      destruct (unresumableError (Some cb) perr s1). simpl in *. congruence.
    + pose proof (resumeWithCursor_mode probed s1) as H2.
      destruct (resumeWithCursor probed s1). simpl in *. congruence.
  - pose proof (resumeWithCursor_mode newCursor s1) as H2.
    destruct (resumeWithCursor newCursor s1). simpl in *. congruence.
Qed.

(** No call and no callback moves an engine out of the mode it is in. *)
Lemma step_keeps_mode s o : kMode s ≠ Unset -> kMode (step s o) = kMode s.
Proof.
  intros Hset. destruct o; simpl.
  - pose proof (iterate_mode op cb s) as H.
    destruct (iterate op cb s) as [e|[s1 e1]]; [done|]. simpl.
    destruct H as [Hn ->]. by destruct (kMode s).
  - unfold on.
    destruct (String.eqb eventName "change" && is_Some_b (cursor s)
              && (changeListeners s =? 0)%nat).
    + pose proof (streamEvents_mode s) as H.
      destruct (_streamEvents s) as [e|[s1 e1]]; [done|]. simpl.
      destruct H as [Hn H1].
      destruct (String.eqb eventName "change"); simpl; rewrite H1;
        by destruct (kMode s).
    + simpl. by destruct (String.eqb eventName "change").
  - unfold off. by destruct (String.eqb eventName "change").
  - unfold stream. by destruct (cursor s).
  - pose proof (streamEvents_mode s) as H.
    destruct (_streamEvents s) as [e|[s1 e1]]; [done|]. simpl.
    destruct H as [Hn ->]. by destruct (kMode s).
  - apply close_mode.
  - apply processNewChange_mode.
  - apply processError_mode.
  - apply nextReturned_mode.
  - by apply topologyWaited_mode.
  - apply processResumeQueue_mode.
Qed.

Lemma run_keeps_mode ops : forall s, kMode s ≠ Unset -> kMode (run ops s) = kMode s.
Proof.
  induction ops as [|o ops IH]; intros s Hset; [done|].
  unfold run in *. simpl.
  rewrite IH; rewrite step_keeps_mode; done.
Qed.

(** C6 as stated fails: in iterator mode, while the engine has no cursor
    -- during a resume attempt, or after [close()] -- the first ['change']
    listener is attached without any error; and on an engine that was
    closed before any mode was set, the first ['change'] listener sets no
    mode, so that the iterator operation after it is accepted. *)
Lemma first_change_listener_without_cursor_is_accepted :
  kMode Sample.iterating = Iterator
  ∧ kMode Sample.resuming = Iterator
  ∧ changeListeners Sample.resuming = 0%nat
  ∧ (exists s, on "change" Sample.resuming = inr (s, [])
               ∧ changeListeners s = 1%nat ∧ kMode s = Iterator)
  ∧ (exists s, on "change" (close Sample.iterating).1 = inr (s, [])
               ∧ changeListeners s = 1%nat ∧ kMode s = Iterator)
  ∧ (exists s s' effects,
       on "change" (close Sample.engine).1 = inr (s, [])
       ∧ changeListeners s = 1%nat ∧ kMode s = Unset
       ∧ next 1 s = inr (s', effects) ∧ kMode s' = Iterator).
Proof.
  split; [by vm_compute|]. split; [by vm_compute|]. split; [by vm_compute|].
  split; [eexists; (split; [by vm_compute|]); by vm_compute|].
  split; [eexists; (split; [by vm_compute|]); by vm_compute|].
  eexists _, _, _. split; [by vm_compute|]. split; [by vm_compute|].
  split; [by vm_compute|]. split; [by vm_compute|]. by vm_compute.
Qed.

(** C6, amended.  A call of [next], [tryNext] or [hasNext] that does not
    throw leaves the engine in iterator mode, a call of [_streamEvents]
    that does not throw in emitter mode; the first ['change'] listener runs
    [_streamEvents] if the engine owns a cursor, and only then.  In
    iterator mode every call of [_streamEvents] fails with the
    mode-conflict error, and so does the attachment of the first ['change']
    listener as long as the engine owns a cursor.  In emitter mode every
    call of [next], [tryNext] and [hasNext] fails with the mode-conflict
    error.  A ['change'] listener that is attached while the engine has no
    cursor, or that is not the first, is attached without an error and
    leaves the mode as it is: in iterator mode no conflict is reported, and
    with no mode set the iterator operation after it is accepted.  Once the
    engine is in a mode it stays in it, whatever happens afterwards. *)
Theorem mode_is_sticky (s : t) :
  (forall op cb s' effects,
     iterate op cb s = inr (s', effects) -> kMode s' = Iterator)
  ∧ (forall s' effects, _streamEvents s = inr (s', effects) -> kMode s' = Emitter)
  ∧ (kMode s = Iterator ->
     _streamEvents s = inl emitterAfterIterator
     ∧ (is_Some (cursor s) -> changeListeners s = 0%nat ->
        on "change" s = inl emitterAfterIterator)
     ∧ (cursor s = None ->
        on "change" s = inr (set_changeListeners (S (changeListeners s)) s, []))
     ∧ forall ops, kMode (run ops s) = Iterator)
  ∧ (kMode s = Emitter ->
     (forall cb, next cb s = inl iteratorAfterEmitter)
     ∧ (forall cb, tryNext cb s = inl iteratorAfterEmitter)
     ∧ (forall cb, hasNext cb s = inl iteratorAfterEmitter)
     ∧ forall ops, kMode (run ops s) = Emitter)
  ∧ (is_Some (cursor s) -> changeListeners s = 0%nat -> kMode s ≠ Iterator ->
     exists s' effects,
       on "change" s = inr (s', effects) ∧ kMode s' = Emitter
       ∧ forall op cb, iterate op cb s' = inl iteratorAfterEmitter)
  ∧ (cursor s = None ∨ (0 < changeListeners s)%nat ->
     on "change" s = inr (set_changeListeners (S (changeListeners s)) s, [])
     ∧ (kMode s ≠ Emitter ->
        forall op cb, exists s' effects,
          iterate op cb (set_changeListeners (S (changeListeners s)) s)
          = inr (s', effects) ∧ kMode s' = Iterator)).
Proof.
  assert (Hguard : forall s0 : t,
    kMode s0 = Emitter -> forall op cb, iterate op cb s0 = inl iteratorAfterEmitter).
  { intros s0 Hm op cb. unfold iterate. rewrite setIsIterator_spec.
    by destruct (decide (kMode s0 = Emitter)). }
  split; [|split; [|split; [|split; [|split]]]].
  - intros op cb s' effects H.
    pose proof (iterate_mode op cb s) as Hm. rewrite H in Hm. by destruct Hm.
  - intros s' effects H.
    pose proof (streamEvents_mode s) as Hm. rewrite H in Hm. by destruct Hm.
  - intros Hmode.
    assert (Hstream : _streamEvents s = inl emitterAfterIterator).
    { unfold _streamEvents. rewrite setIsEmitter_spec.
      by destruct (decide (kMode s = Iterator)). }
    split; [done|]. split; [|split].
    + intros [c Hc] Hfirst. unfold on. rewrite Hc, Hfirst. simpl.
      by rewrite Hstream.
    + intros Hc. unfold on. by rewrite Hc.
    + intros ops. rewrite run_keeps_mode; [done|]. by rewrite Hmode.
  - intros Hmode.
    split; [by apply Hguard|]. split; [by apply Hguard|]. split; [by apply Hguard|].
    intros ops. rewrite run_keeps_mode; [done|]. by rewrite Hmode.
  - intros [c Hc] Hfirst Hmode. unfold on. rewrite Hc, Hfirst.
    cbn [String.eqb Ascii.eqb Bool.eqb andb is_Some_b Nat.eqb].
    unfold _streamEvents. rewrite setIsEmitter_spec.
    destruct (decide (kMode s = Iterator)) as [|_]; [done|].
    eexists _, _. split; [reflexivity|]. split; [done|].
    by apply Hguard.
  - intros Hno.
    assert (Hon : on "change" s
                  = inr (set_changeListeners (S (changeListeners s)) s, [])).
    { unfold on. destruct Hno as [Hc|Hl]; [by rewrite Hc|].
      destruct (changeListeners s); [lia|].
      cbn [Nat.eqb]. by rewrite andb_false_r. }
    split; [exact Hon|].
    intros Hmode op cb. unfold iterate. rewrite setIsIterator_spec.
    destruct (decide (kMode (set_changeListeners (S (changeListeners s)) s) = Emitter))
      as [He|_]; [done|].
    destruct (_getCursor _ _) as [s' effects] eqn:Hg.
    exists s', effects. split; [done|].
    unfold _getCursor in Hg.
    destruct (kClosed _); [by injection Hg as <- _|].
    destruct (cursor _); by injection Hg as <- _.
Qed.

End Mode.

(** ** More of the iteration *)

Section MoreIteration.

Import Cursor.

(** The call of [next] that receives a batch from a server cursor that
    stays alive. *)
Lemma next_live_batch fuel blocking env c id server w doc docs rest :
  kClosed c = false -> kDocuments c = [] ->
  kId c = Some id -> Long.isZero id = false -> kServer c = Some server ->
  getMoreReplies env = GetMoreOk w (doc :: docs) :: rest ->
  Long.isZero (Long.ofWire w) = false ->
  exists batchSize,
    next (S (S fuel)) blocking env c
    = (Done None (Some (transformed c doc)),
       set_kDocuments docs (set_kId (Some (Long.ofWire w)) (set_kDocuments (doc :: docs) c)),
       popGetMore env, [GetMore (kNamespace c) id batchSize]).
Proof.
  intros Hopen Hdocs Hid Hlive Hserver Hreply Hw.
  eexists. remember (S fuel) as fuel' eqn:Hfuel. simpl.
  rewrite Hopen, Hdocs, Hid. simpl.
  unfold cursorIsDead at 1. rewrite Hid, Hlive.
  unfold _getMore. rewrite Hid, Hserver, Hreply. simpl.
  unfold cursorIsDead. simpl. rewrite Hw. simpl.
  subst fuel'.
  rewrite (next_buffered fuel blocking (popGetMore env) _ doc docs) by done.
  simpl. unfold transformed. simpl. reflexivity.
Qed.

(** The call of [next] that receives an empty last batch. *)
Lemma next_last_batch_empty fuel blocking env c id server w rest :
  kClosed c = false -> kDocuments c = [] ->
  kId c = Some id -> Long.isZero id = false -> kServer c = Some server ->
  getMoreReplies env = GetMoreOk w [] :: rest ->
  Long.isZero (Long.ofWire w) = true ->
  exists batchSize c',
    next (S fuel) blocking env c
    = (Done None None, c', popGetMore env,
       GetMore (kNamespace c) id batchSize :: Emit CLOSE :: releaseSession None c')
    ∧ kClosed c' = true ∧ kDocuments c' = [].
Proof.
  intros Hopen Hdocs Hid Hlive Hserver Hreply Hw.
  eexists _, _. simpl.
  rewrite Hopen, Hdocs, Hid. simpl.
  unfold cursorIsDead at 1. rewrite Hid, Hlive.
  unfold _getMore. rewrite Hid, Hserver, Hreply. simpl.
  unfold cursorIsDead, cleanupCursor, killTarget, nextDocument. simpl.
  rewrite Hw, Hserver. simpl. done.
Qed.

Lemma fetchDocs_S rounds fuel transform docs env c :
  CursorApi.fetchDocs (S rounds) fuel transform docs env c
  = let '(r, c1, env1, e1) := next fuel true env c in
    match r with
    | Pending => (Pending, c1, env1, e1)
    | Done (Some err) _ => (Done (Some err) None, c1, env1, e1)
    | Done None None => (Done None (Some docs), c1, env1, e1)
    | Done None (Some doc) =>
        let internalDocs :=
          match transform with
          | Some transform => List.map transform (kDocuments c1)
          | None => kDocuments c1
          end in
        let '(r2, c2, env2, e2) :=
          CursorApi.fetchDocs rounds fuel transform (docs ++ doc :: internalDocs) env1
                              (set_kDocuments [] c1) in
        (r2, c2, env2, e1 ++ e2)
    end.
Proof. reflexivity. Qed.

(** What [toArray] adds for a batch: [next] transforms the first document,
    the loop the others. *)
Lemma internalDocs_transformed c docs :
  match kTransform c with
  | Some transform => List.map transform docs
  | None => docs
  end = List.map (transformed c) docs.
Proof.
  unfold transformed. destruct (kTransform c); [done|].
  induction docs as [|d ds IH]; [done|]. simpl. by rewrite <- IH.
Qed.

(** The loop on a dead cursor that is drained: one more call of [next]
    closes the cursor and the documents are handed over. *)
Lemma fetchDocs_drained rounds fuel transform docs env c id :
  kClosed c = false -> kDocuments c = [] ->
  kId c = Some id -> Long.isZero id = true ->
  exists c' effects,
    CursorApi.fetchDocs (S rounds) (S fuel) transform docs env c
    = (Done None (Some docs), c', env, effects)
    ∧ kClosed c' = true ∧ List.filter is_getMore effects = [].
Proof.
  intros Hopen Hdocs Hid Hz.
  rewrite fetchDocs_S, (next_exhausted fuel true env c id) by done.
  eexists _, _. split; [reflexivity|]. split; [done|].
  simpl. apply releaseSession_no_getMore.
Qed.

(** The equations of [kInit] and [next] at a positive fuel. *)
Lemma kInit_S fuel env c :
  kInit (S fuel) env c
  = let run_initialize (c : t) (before : list Effect) :=
      match initReplies env with
      | [] => (Pending, c, env, before)
      | (err, state) :: _ =>
          let '(r, c1, e1) := initialized err state c in
          (r, c1, popInit env, before ++ e1)
      end in
    match kSession c with
    | None =>
        if shouldCheckForSessionSupport env then
          match selectServer env with
          | Some err => (Done (Some err) None, c, env, [SelectServer])
          | None =>
              let '(r, c1, env1, e1) := kInit fuel (serverSelected env) c in
              (r, c1, env1, SelectServer :: e1)
          end
        else if hasSessionSupport env then
          run_initialize (set_kSession (Some (mkSession true false)) c) [StartSession]
        else run_initialize c []
    | Some _ => run_initialize c []
    end.
Proof. reflexivity. Qed.

Lemma next_S fuel blocking env c :
  next (S fuel) blocking env c
  = if kClosed c then (Done None None, c, env, [])
    else if negb (length (kDocuments c) =? 0)%nat then
      let (doc, c1) := nextDocument c in (Done None doc, c1, env, [])
    else
      match kId c with
      | None =>
          let '(r, c1, env1, e1) := kInit fuel env c in
          match r with
          | Pending => (Pending, c1, env1, e1)
          | Done (Some err) _ => (Done (Some err) None, c1, env1, e1)
          | Done None (Some value) => (Done None (Some value), c1, env1, e1)
          | Done None None =>
              let '(r2, c2, env2, e2) := next fuel blocking env1 c1 in
              (r2, c2, env2, e1 ++ e2)
          end
      | Some _ =>
          if cursorIsDead c then
            let (c1, e1) := cleanupCursor None None c in
            (Done None None, c1, env, e1)
          else
            let batchSize :=
              match batchSize c with
              | Some n => if n =? 0 then 1000 else n
              | None => 1000
              end in
            let '(reply, env1, e1) := _getMore batchSize env c in
            match reply with
            | None => (Pending, c, env1, e1)
            | Some reply =>
                let (err, c1) :=
                  match reply with
                  | GetMoreOk id nextBatch =>
                      (None, set_kId (Some (Long.ofWire id)) (set_kDocuments nextBatch c))
                  | GetMoreErr e => (Some e, c)
                  end in
                if is_Some_b err || cursorIsDead c1 then
                  let (c2, e2) := cleanupCursor err None c1 in
                  let (doc, c3) := nextDocument c2 in
                  (Done err doc, c3, env1, e1 ++ e2)
                else if (length (kDocuments c1) =? 0)%nat && negb blocking then
                  (Done None None, c1, env1, e1)
                else
                  let '(r2, c2, env2, e2) := next fuel blocking env1 c1 in
                  (r2, c2, env2, e1 ++ e2)
            end
      end.
Proof. reflexivity. Qed.

(** An answer of [kInit] does not depend on the fuel that is left. *)
Lemma kInit_more_fuel fuel : forall env c err val c' env' effects,
  kInit fuel env c = (Done err val, c', env', effects) ->
  kInit (S fuel) env c = (Done err val, c', env', effects).
Proof.
  induction fuel as [|fuel IH]; intros env c err val c' env' effects H; [done|].
  rewrite kInit_S in H. rewrite kInit_S. cbv zeta in *.
  destruct (kSession c); [exact H|].
  destruct (shouldCheckForSessionSupport env); [|exact H].
  destruct (selectServer env); [exact H|].
  destruct (kInit fuel (serverSelected env) c) as [[[r c1] env1] e1] eqn:Hk.
  destruct r as [|err1 val1]; [done|].
  by rewrite (IH _ _ _ _ _ _ _ Hk).
Qed.

(** An answer of [next] does not depend on the fuel that is left. *)
Lemma next_more_fuel blocking fuel : forall env c err val c' env' effects,
  next fuel blocking env c = (Done err val, c', env', effects) ->
  next (S fuel) blocking env c = (Done err val, c', env', effects).
Proof.
  induction fuel as [|fuel IH]; intros env c err val c' env' effects H; [done|].
  rewrite next_S in H. rewrite next_S. cbv zeta in *.
  destruct (kClosed c); [exact H|].
  destruct (negb (length (kDocuments c) =? 0)%nat); [exact H|].
  destruct (kId c).
  - destruct (cursorIsDead c); [exact H|].
    destruct (_getMore _ env c) as [[reply env1] e1].
    destruct reply as [reply|]; [|exact H].
    destruct (match reply with
              | GetMoreErr e => (Some e, c)
              | GetMoreOk id nextBatch =>
                  (None, set_kId (Some (Long.ofWire id)) (set_kDocuments nextBatch c))
              end) as [err1 c1].
    destruct (is_Some_b err1 || cursorIsDead c1); [exact H|].
    destruct ((length (kDocuments c1) =? 0)%nat && negb blocking); [exact H|].
    destruct (next fuel blocking env1 c1) as [[[r2 c2] env2] e2] eqn:Hn.
    destruct r2 as [|err2 val2]; [done|].
    by rewrite (IH _ _ _ _ _ _ _ Hn).
  - destruct (kInit fuel env c) as [[[r c1] env1] e1] eqn:Hk.
    destruct r as [|err1 val1]; [done|].
    rewrite (kInit_more_fuel _ _ _ _ _ _ _ _ Hk).
    destruct err1 as [e|]; [exact H|]. destruct val1 as [v|]; [exact H|].
    destruct (next fuel blocking env1 c1) as [[[r2 c2] env2] e2] eqn:Hn.
    destruct r2 as [|err2 val2]; [done|].
    by rewrite (IH _ _ _ _ _ _ _ Hn).
Qed.

(** The call of [next] that receives an empty batch from a server cursor
    that stays alive goes on to ask again. *)
Lemma next_empty_live_batch fuel env c id server w rest :
  kClosed c = false -> kDocuments c = [] ->
  kId c = Some id -> Long.isZero id = false -> kServer c = Some server ->
  getMoreReplies env = GetMoreOk w [] :: rest ->
  Long.isZero (Long.ofWire w) = false ->
  exists batchSize,
    next (S fuel) true env c
    = (let '(r, c2, env2, e2) :=
         next fuel true (popGetMore env)
              (set_kId (Some (Long.ofWire w)) (set_kDocuments [] c)) in
       (r, c2, env2, GetMore (kNamespace c) id batchSize :: e2)).
Proof.
  intros Hopen Hdocs Hid Hlive Hserver Hreply Hw. eexists.
  rewrite next_S. rewrite Hopen, Hdocs, Hid. cbn [length Nat.eqb negb].
  unfold cursorIsDead at 1. rewrite Hid, Hlive.
  unfold _getMore. rewrite Hid, Hserver, Hreply. cbn [head is_Some_b orb].
  unfold cursorIsDead. cbn [kId set_kId kDocuments set_kDocuments length Nat.eqb andb negb].
  rewrite Hw.
  match goal with
  | |- context [next fuel true ?e ?c1] =>
      by destruct (next fuel true e c1) as [[[? ?] ?] ?]
  end.
Qed.

(** The loop on a live cursor with an empty buffer: every batch that the
    server sends is added, in order; an empty batch costs a getMore and a
    unit of fuel. *)
Lemma fetchDocs_batches server wz last rest :
  Long.isZero (Long.ofWire wz) = true ->
  forall (live : list (Long.wire * list Document)) extra fuel docs env c id,
    kClosed c = false -> kDocuments c = [] ->
    kId c = Some id -> Long.isZero id = false -> kServer c = Some server ->
    getMoreReplies env
      = List.map (λ p, GetMoreOk p.1 p.2) live ++ GetMoreOk wz last :: rest ->
    Forall (λ p, Long.isZero (Long.ofWire p.1) = false) live ->
    exists c' env' effects,
      CursorApi.fetchDocs (length live + 2 + extra) (length live + 2 + fuel)
                          (kTransform c) docs env c
      = (Done None
           (Some (docs ++ List.map (transformed c) (concat (List.map snd live) ++ last))),
         c', env', effects)
      ∧ kClosed c' = true
      ∧ getMoreReplies env' = rest
      ∧ length (List.filter is_getMore effects) = S (length live).
Proof.
  intros Hwz live.
  induction live as [|[w batch] live IH];
    intros extra fuel docs env c id Hopen Hdocs Hid Hlive Hserver Hreplies Hall.
  - simpl in Hreplies. cbn [length Nat.add List.map concat app].
    rewrite fetchDocs_S.
    destruct last as [|doc last].
    + destruct (next_last_batch_empty (S fuel) true env c id server wz rest)
        as (bs & c' & Hn & Hc & Hd); try done.
      rewrite Hn. eexists _, _, _. split; [by rewrite app_nil_r|].
      split; [done|]. split; [by unfold popGetMore; cbn; rewrite Hreplies|].
      cbn [List.filter is_getMore]. by rewrite releaseSession_no_getMore.
    + destruct (next_last_batch (S fuel) true env c id server wz doc last rest)
        as (bs & Hn); try done.
      cbv zeta in Hn. rewrite Hn.
      set (c0 := set_kId (Some (Long.ofWire wz)) (set_kDocuments (doc :: last) c)).
      rewrite internalDocs_transformed. cbv zeta. cbn [kDocuments set_kDocuments].
      match goal with
      | |- context [CursorApi.fetchDocs _ _ ?t ?d ?e ?c1] =>
          destruct (fetchDocs_drained extra (S fuel) t d e c1 (Long.ofWire wz))
            as (c' & effects & Hf & Hc & He); try done
      end.
      rewrite Hf. eexists _, _, _. split; [reflexivity|].
      split; [done|]. split; [by unfold popGetMore; cbn; rewrite Hreplies|].
      rewrite List.filter_app, He. cbn [List.filter is_getMore].
      by rewrite releaseSession_no_getMore.
  - apply Forall_cons in Hall as [Hw Hall]. simpl in Hw.
    assert (Henv : getMoreReplies (popGetMore env)
                   = List.map (λ p, GetMoreOk p.1 p.2) live ++ GetMoreOk wz last :: rest).
    { unfold popGetMore. cbn. by rewrite Hreplies. }
    destruct batch as [|doc batch].
    + (* an empty batch: the same call of [next] asks again *)
      set (c1 := set_kId (Some (Long.ofWire w)) (set_kDocuments [] c)).
      destruct (next_empty_live_batch (length live + 2 + fuel) env c id server w
                  (List.map (λ p, GetMoreOk p.1 p.2) live ++ GetMoreOk wz last :: rest))
        as (bs & Hn); try done.
      fold c1 in Hn.
      destruct (IH extra fuel docs (popGetMore env) c1 (Long.ofWire w))
        as (c0' & env0' & effects0 & Hf0 & _); try done.
      destruct (IH (S extra) (S fuel) docs (popGetMore env) c1 (Long.ofWire w))
        as (c' & env' & effects & Hf & Hc & He & Hg); try done.
      change (kTransform c1) with (kTransform c) in Hf0, Hf.
      change (transformed c1) with (transformed c) in Hf0, Hf.
      replace (length live + 2 + extra)%nat with (S (length live + 1 + extra)) in Hf0 by lia.
      replace (length live + 2 + S extra)%nat with (S (length live + 2 + extra)) in Hf by lia.
      replace (length live + 2 + S fuel)%nat with (S (length live + 2 + fuel)) in Hf by lia.
      rewrite fetchDocs_S in Hf0, Hf.
      destruct (next (length live + 2 + fuel) true (popGetMore env) c1)
        as [[[r c2] env2] e2] eqn:Hnext.
      destruct r as [|err val]; [done|].
      rewrite (next_more_fuel true _ _ _ _ _ _ _ _ Hnext) in Hf.
      cbn [length Nat.add]. rewrite fetchDocs_S, Hn.
      cbn [List.map concat snd app].
      destruct err as [e|]; [done|].
      destruct val as [doc|].
      * cbv zeta in Hf |- *.
        match goal with
        | |- context [CursorApi.fetchDocs ?r ?f ?t ?d ?e ?cc] =>
            destruct (CursorApi.fetchDocs r f t d e cc) as [[[r3 c3] env3] e3]
        end.
        injection Hf as -> -> -> <-.
        eexists _, _, _. split; [reflexivity|]. split; [done|]. split; [done|].
        cbn [app List.filter is_getMore length]. by rewrite Hg.
      * injection Hf as Hres -> -> <-.
        eexists _, _, _. split; [by rewrite <- Hres|]. split; [done|]. split; [done|].
        cbn [List.filter is_getMore length]. by rewrite Hg.
    + cbn [length Nat.add]. rewrite fetchDocs_S.
      replace (S (length live + 2 + fuel)) with (S (S (S (length live + fuel)))) by lia.
      destruct (next_live_batch (S (length live + fuel)) true env c id server w doc batch
                  (List.map (λ p, GetMoreOk p.1 p.2) live ++ GetMoreOk wz last :: rest))
        as (bs & Hn); try done.
      rewrite Hn.
      set (c0 := set_kId (Some (Long.ofWire w)) (set_kDocuments (doc :: batch) c)).
      rewrite internalDocs_transformed. cbv zeta. cbn [kDocuments set_kDocuments].
      replace (S (S (S (length live + fuel)))) with (length live + 2 + S fuel)%nat by lia.
      match goal with
      | |- context [CursorApi.fetchDocs _ _ _ ?d ?e ?c1] =>
          destruct (IH extra (S fuel) d e c1 (Long.ofWire w))
            as (c' & env' & effects & Hf & Hc & He & Hg); try done
      end.
      change (kTransform (set_kDocuments [] (set_kDocuments batch c0)))
        with (kTransform c) in Hf.
      rewrite Hf. eexists _, _, _. split.
      { do 4 f_equal.
        change (transformed (set_kDocuments [] (set_kDocuments batch c0)))
          with (transformed c).
        cbn [List.map concat snd app].
        by rewrite <- !app_assoc, !List.map_app. }
      split; [done|]. split; [done|].
      cbn [List.filter is_getMore app length]. by rewrite Hg.
Qed.

(** X1.  [toArray] on an open cursor with a live server cursor, when the
    cursor has no transform or a transform that maps every document to a
    document, returns what is buffered and then every batch that the server
    sends, empty batches included, up to and including the batch that comes
    with cursor id 0, in that order; every document has gone through the
    transform of the cursor exactly once.  One getMore is sent for each
    batch, and the cursor ends closed. *)
Theorem toArray_returns_all_batches
    (c : t) (env : Env) (id : Long.t) (server : Server)
    (live : list (Long.wire * list Document)) (wz : Long.wire)
    (last : list Document) (rest : list GetMoreReply) (fuel extra : nat) :
  kClosed c = false ->
  kId c = Some id -> Long.isZero id = false -> kServer c = Some server ->
  getMoreReplies env
    = List.map (λ p, GetMoreOk p.1 p.2) live ++ GetMoreOk wz last :: rest ->
  Forall (λ p, Long.isZero (Long.ofWire p.1) = false) live ->
  Long.isZero (Long.ofWire wz) = true ->
  exists c' env' effects,
    CursorApi.toArray (length live + 3 + extra) (length live + 2 + fuel) env c
    = (Done None
         (Some (List.map (transformed c)
                         (kDocuments c ++ concat (List.map snd live) ++ last))),
       c', env', effects)
    ∧ kClosed c' = true
    ∧ getMoreReplies env' = rest
    ∧ length (List.filter is_getMore effects) = S (length live).
Proof.
  intros Hopen Hid Hlive Hserver Hreplies Hall Hwz.
  unfold CursorApi.toArray.
  replace (length live + 3 + extra)%nat with (S (length live + 2 + extra)) by lia.
  destruct (kDocuments c) as [|doc docs] eqn:Hdocs.
  - destruct (fetchDocs_batches server wz last rest Hwz live (S extra) fuel [] env c id)
      as (c' & env' & effects & Hf & Hrest); try done.
    replace (S (length live + 2 + extra)) with (length live + 2 + S extra)%nat by lia.
    rewrite Hf. by eexists _, _, _.
  - rewrite fetchDocs_S.
    assert (Hn : next (length live + 2 + fuel) true env c
                 = (Done None (Some (transformed c doc)), set_kDocuments docs c, env, [])).
    { replace (length live + 2 + fuel)%nat with (S (length live + 1 + fuel)) by lia.
      by apply next_buffered. }
    rewrite Hn.
    rewrite internalDocs_transformed. cbv zeta. cbn [kDocuments set_kDocuments].
    match goal with
    | |- context [CursorApi.fetchDocs _ _ _ ?d ?e ?c1] =>
        destruct (fetchDocs_batches server wz last rest Hwz live extra fuel d e c1 id)
          as (c' & env' & effects & Hf & Hc & He & Hg); try done
    end.
    change (kTransform (set_kDocuments [] (set_kDocuments docs c)))
      with (kTransform c) in Hf.
    rewrite Hf. eexists _, _, _. split; [|done].
    do 4 f_equal.
    change (transformed (set_kDocuments [] (set_kDocuments docs c)))
      with (transformed c).
    cbn [app List.map]. by rewrite (List.map_app _ docs).
Qed.

(** X2.  [tryNext] on a live cursor whose getMore brings an empty batch
    gives [null] after that one getMore and leaves the cursor open, with the
    id of the reply; the blocking [next] does not return there but asks the
    server again. *)
Theorem tryNext_returns_on_empty_batch
    (c : t) (env : Env) (id : Long.t) (server : Server) (w : Long.wire)
    (rest : list GetMoreReply) (fuel : nat) :
  kClosed c = false -> kDocuments c = [] ->
  kId c = Some id -> Long.isZero id = false -> kServer c = Some server ->
  getMoreReplies env = GetMoreOk w [] :: rest ->
  Long.isZero (Long.ofWire w) = false ->
  let c' := set_kId (Some (Long.ofWire w)) (set_kDocuments [] c) in
  exists batchSize,
    tryNext (S fuel) env c
    = (Done None None, c', popGetMore env, [GetMore (kNamespace c) id batchSize])
    ∧ kClosed c' = false
    ∧ next (S (S fuel)) true env c
      = (let '(r, c2, env2, e2) := next (S fuel) true (popGetMore env) c' in
         (r, c2, env2, GetMore (kNamespace c) id batchSize :: e2)).
Proof.
  intros Hopen Hdocs Hid Hlive Hserver Hreply Hw. cbv zeta.
  eexists. split; [|split; [exact Hopen|]].
  - unfold tryNext. rewrite Hid.
    replace (Long.is_ZERO id) with false by (by destruct id).
    simpl. rewrite Hopen, Hdocs, Hid. simpl.
    unfold cursorIsDead at 1. rewrite Hid, Hlive.
    unfold _getMore. rewrite Hid, Hserver, Hreply. simpl.
    unfold cursorIsDead. simpl. rewrite Hw. reflexivity.
  - remember (S fuel) as fuel' eqn:Hfuel. simpl.
    rewrite Hopen, Hdocs, Hid. simpl.
    unfold cursorIsDead at 1. rewrite Hid, Hlive.
    unfold _getMore. rewrite Hid, Hserver, Hreply. simpl.
    unfold cursorIsDead. simpl. rewrite Hw. simpl.
    match goal with
    | |- context [next fuel' true ?e ?c1] =>
        by destruct (next fuel' true e c1) as [[[? ?] ?] ?]
    end.
Qed.

(** X3.  [hasNext] on a live cursor with an empty buffer, when the cursor
    has no transform or a transform that maps every document to a document,
    fetches a batch, answers [true] and puts the document it got from [next]
    back at the front of the buffer.  That document has already gone through
    the transform of the cursor, and the following call of [next] sends it
    through the transform again; without a transform it is the first
    document of the batch, unchanged. *)
Theorem hasNext_puts_the_document_back
    (c : t) (env : Env) (id : Long.t) (server : Server) (w : Long.wire)
    (doc : Document) (docs : list Document) (rest : list GetMoreReply) (fuel : nat) :
  kClosed c = false -> kDocuments c = [] ->
  kId c = Some id -> Long.isZero id = false -> kServer c = Some server ->
  getMoreReplies env = GetMoreOk w (doc :: docs) :: rest ->
  Long.isZero (Long.ofWire w) = false ->
  exists batchSize c1,
    hasNext (S (S fuel)) env c
    = (Done None (Some true), c1, popGetMore env, [GetMore (kNamespace c) id batchSize])
    ∧ kDocuments c1 = transformed c doc :: docs
    ∧ next_method (S fuel) (popGetMore env) c1
      = (Done None (Some (transformed c (transformed c doc))),
         set_kDocuments docs c1, popGetMore env, [])
    ∧ (kTransform c = None ->
       (next_method (S fuel) (popGetMore env) c1).1.1.1 = Done None (Some doc)).
Proof.
  intros Hopen Hdocs Hid Hlive Hserver Hreply Hw.
  destruct (next_live_batch fuel true env c id server w doc docs rest) as [bs Hn];
    try done.
  eexists bs, _. split; [|split; [|split]].
  - unfold hasNext. rewrite Hid, Hdocs.
    replace (Long.is_ZERO id) with false by (by destruct id).
    cbn [length Nat.eqb negb]. rewrite Hn. reflexivity.
  - reflexivity.
  - unfold next_method. cbn [kId set_kId set_kDocuments].
    replace (Long.is_ZERO (Long.ofWire w)) with false by (by destruct (Long.ofWire w)).
    match goal with
    | |- next _ _ _ ?c1 = _ =>
        rewrite (next_buffered fuel true (popGetMore env) c1 (transformed c doc) docs)
          by done
    end.
    reflexivity.
  - intros Hnone. unfold next_method. cbn [kId set_kId set_kDocuments].
    replace (Long.is_ZERO (Long.ofWire w)) with false by (by destruct (Long.ofWire w)).
    match goal with
    | |- (next _ _ _ ?c1).1.1.1 = _ =>
        rewrite (next_buffered fuel true (popGetMore env) c1 (transformed c doc) docs)
          by done
    end.
    unfold transformed. cbn [kTransform set_kId set_kDocuments]. by rewrite Hnone.
Qed.

Lemma releaseSession_no_kill error c :
  List.filter is_killCursors (releaseSession error c) = [].
Proof.
  unfold releaseSession.
  destruct (kSession c) as [s|]; [|done].
  destruct (owner_is_cursor s); [done|].
  by destruct (negb (inTransaction s)).
Qed.

Lemma releaseSession_no_close error c :
  List.filter is_emit_close (releaseSession error c) = [].
Proof.
  unfold releaseSession.
  destruct (kSession c) as [s|]; [|done].
  destruct (owner_is_cursor s); [done|].
  by destruct (negb (inTransaction s)).
Qed.

(** The first call of [kInit] on a cursor when the topology does not ask
    for a server selection: a session is started if the cursor has none and
    the topology supports sessions, then the answer of [_initialize] is
    processed. *)
Lemma kInit_answered fuel env c err state rest :
  shouldCheckForSessionSupport env = false ->
  initReplies env = (err, state) :: rest ->
  exists c0 before,
    kInit (S fuel) env c
    = (let '(r, c1, e1) := initialized err state c0 in
       (r, c1, popInit env, before ++ e1))
    ∧ kId c0 = kId c ∧ kDocuments c0 = kDocuments c ∧ kClosed c0 = kClosed c
    ∧ kTransform c0 = kTransform c ∧ loadBalanced c0 = loadBalanced c
    ∧ kServer c0 = kServer c
    ∧ List.filter is_getMore before = []
    ∧ List.filter is_killCursors before = []
    ∧ List.filter is_emit_close before = [].
Proof.
  intros Hcheck Hreply. cbn [kInit]. rewrite Hreply, Hcheck.
  destruct (kSession c) as [session|] eqn:Hs.
  - by exists c, [].
  - destruct (hasSessionSupport env).
    + by eexists (set_kSession _ c), [StartSession].
    + by exists c, [].
Qed.

(** X4.  When the answer to the first request has no cursor in it (an
    explain, for one), the whole response is handed out as the only
    document and the next call reports the end of the stream: no getMore and
    no killCursors is sent, and the cursor ends closed. *)
Theorem response_without_cursor_is_the_only_document
    (c : t) (env : Env) (state : ExecutionResult)
    (rest : list (option Error * option ExecutionResult))
    (fuel : nat) (blocking : bool) :
  kClosed c = false -> kDocuments c = [] -> kId c = None ->
  shouldCheckForSessionSupport env = false ->
  initReplies env = (None, Some state) :: rest ->
  st_cursor state = None ->
  let run := nexts 2 (S (S fuel)) blocking env c in
  run.1.1.1 = [Done None (Some (transformed c (st_response state))); Done None None]
  ∧ kClosed run.1.1.2 = true
  ∧ initReplies run.1.2 = rest
  ∧ List.filter is_getMore run.2 = []
  ∧ List.filter is_killCursors run.2 = [].
Proof.
  intros Hopen Hdocs Hid Hcheck Hreply Hnocursor.
  destruct (kInit_answered fuel env c None (Some state) rest Hcheck Hreply)
    as (c0 & before & Hk & Hid0 & Hdocs0 & Hopen0 & Htr0 & _ & _ & Hg & Hkill & _).
  assert (Hinit : exists c1 e1,
    initialized None (Some state) c0
    = (Done None (Some (transformed c (st_response state))), c1, e1)
    ∧ kClosed c1 = false ∧ kDocuments c1 = [] ∧ kId c1 = Some Long.ZERO
    ∧ List.filter is_getMore e1 = [] ∧ List.filter is_killCursors e1 = []).
  { unfold initialized. rewrite Hnocursor. cbn [kId set_kSession set_kServer].
    rewrite Hid0, Hid.
    unfold cursorIsDead, cleanupCursor, killTarget, nextDocument, transformed.
    cbn. rewrite Htr0.
    destruct (kTransform c); eexists _, _; (split; [reflexivity|]); cbn;
      rewrite Hopen0, Hopen, releaseSession_no_getMore, releaseSession_no_kill;
      done. }
  destruct Hinit as (c1 & e1 & Hi & Hopen1 & Hdocs1 & Hid1 & Hg1 & Hkill1).
  assert (Hfirst :
    next (S (S fuel)) blocking env c
    = (Done None (Some (transformed c (st_response state))), c1, popInit env,
       before ++ e1)).
  { remember (S fuel) as fuel' eqn:Hf. cbn [next].
    rewrite Hopen, Hdocs, Hid. cbn [length Nat.eqb negb].
    subst fuel'. by rewrite Hk, Hi. }
  cbv zeta. rewrite nexts_S, Hfirst. cbv beta iota. rewrite nexts_S.
  rewrite (next_exhausted (S fuel) blocking (popInit env) c1 Long.ZERO) by done.
  cbn [nexts fst snd]. split; [done|]. split; [done|].
  split; [by unfold popInit; cbn; rewrite Hreply|].
  rewrite !List.filter_app, Hg, Hkill, Hg1, Hkill1.
  cbn [List.filter is_getMore is_killCursors app].
  by rewrite !releaseSession_no_getMore, !releaseSession_no_kill.
Qed.

(** A live cursor with an empty buffer asks the server first, whatever the
    answer is. *)
Lemma next_live_asks fuel blocking env c id server :
  kClosed c = false -> kDocuments c = [] ->
  kId c = Some id -> Long.isZero id = false -> kServer c = Some server ->
  exists batchSize rest,
    (next (S fuel) blocking env c).2 = GetMore (kNamespace c) id batchSize :: rest.
Proof.
  intros Hopen Hdocs Hid Hlive Hserver. eexists.
  cbn [next]. rewrite Hopen, Hdocs, Hid. cbn [length Nat.eqb negb].
  unfold cursorIsDead at 1. rewrite Hid, Hlive.
  unfold _getMore. rewrite Hid, Hserver.
  destruct (head (getMoreReplies env)) as [reply|]; [|by eexists].
  match goal with
  | |- context [let (err, c1) := ?p in _] => destruct p as [err c1]
  end.
  destruct (is_Some_b err || cursorIsDead c1).
  - destruct (cleanupCursor err None c1) as [c2 e2].
    destruct (nextDocument c2). by eexists.
  - destruct ((length (kDocuments c1) =? 0)%nat && negb blocking); [by eexists|].
    destruct (next fuel blocking (popGetMore env) c1) as [[[? ?] ?] ?]. by eexists.
Qed.

(** X5.  When the first request fails, the error is reported, the cursor
    counts as initialized and [close] is emitted once; nothing is sent to
    the server.  The cursor is marked closed and exhausted, unless the
    topology is load balanced and the error is a network error: then the
    cursor stays open and without an id. *)
Theorem initialize_error_closes_cursor
    (c : t) (env : Env) (e : Error)
    (rest : list (option Error * option ExecutionResult)) (fuel : nat) (blocking : bool) :
  kClosed c = false -> kDocuments c = [] -> kId c = None ->
  shouldCheckForSessionSupport env = false ->
  initReplies env = (Some e, None) :: rest ->
  let run := next (S (S fuel)) blocking env c in
  run.1.1.1 = Done (Some e) None
  ∧ kInitialized run.1.1.2 = true
  ∧ initReplies run.1.2 = rest
  ∧ List.filter is_emit_close run.2 = [Emit CLOSE]
  ∧ List.filter is_getMore run.2 = [] ∧ List.filter is_killCursors run.2 = []
  ∧ (if loadBalanced c && is_network e
     then kClosed run.1.1.2 = false ∧ kId run.1.1.2 = None
     else kClosed run.1.1.2 = true ∧ kId run.1.1.2 = Some Long.ZERO).
Proof.
  intros Hopen Hdocs Hid Hcheck Hreply.
  destruct (kInit_answered fuel env c (Some e) None rest Hcheck Hreply)
    as (c0 & before & Hk & Hid0 & Hdocs0 & Hopen0 & Htr0 & Hlb0 & Hsrv0 & Hg & Hkill & Hcl).
  assert (Hinit : exists c1 e1,
    initialized (Some e) None c0 = (Done (Some e) None, c1, e1)
    ∧ kInitialized c1 = true
    ∧ List.filter is_emit_close e1 = [Emit CLOSE]
    ∧ List.filter is_getMore e1 = [] ∧ List.filter is_killCursors e1 = []
    ∧ (if loadBalanced c && is_network e
       then kClosed c1 = false ∧ kId c1 = None
       else kClosed c1 = true ∧ kId c1 = Some Long.ZERO)).
  { unfold initialized. cbn [is_Some_b orb].
    unfold cleanupCursor, completeCleanup, killTarget, nextDocument.
    cbn [loadBalanced kDocuments kId kServer set_kInitialized default].
    rewrite Hlb0, Hdocs0, Hid0, Hid, Hdocs. cbn [length Nat.eqb].
    destruct (loadBalanced c && is_network e); cbn; rewrite ?Hdocs0, ?Hdocs;
      eexists _, _; (split; [reflexivity|]); cbn;
      rewrite ?List.filter_app,
        ?releaseSession_no_getMore, ?releaseSession_no_kill, ?releaseSession_no_close;
      rewrite ?Hopen0, ?Hid0; done. }
  destruct Hinit as (c1 & e1 & Hi & Hini & Hc1 & Hg1 & Hk1 & Hstate).
  cbv zeta. remember (S fuel) as fuel' eqn:Hf. cbn [next].
  rewrite Hopen, Hdocs, Hid. cbn [length Nat.eqb negb].
  subst fuel'. rewrite Hk, Hi. cbn [fst snd].
  rewrite !List.filter_app, Hg, Hkill, Hcl, Hc1, Hg1, Hk1.
  unfold popInit. cbn. by rewrite Hreply.
Qed.

(** X6.  When a getMore fails, the error is reported and the server cursor
    is killed (unless the topology is load balanced and the error is a
    network error), the session is released and [close] is emitted; but the
    cursor is not marked closed and keeps its id, so the next call sends a
    getMore for the killed cursor. *)
Theorem getMore_error_leaves_cursor_open
    (c : t) (env : Env) (id : Long.t) (server : Server) (e : Error)
    (rest : list GetMoreReply) (fuel : nat) (blocking : bool) :
  kClosed c = false -> kDocuments c = [] ->
  kId c = Some id -> Long.isZero id = false -> kServer c = Some server ->
  getMoreReplies env = GetMoreErr e :: rest ->
  let spared := loadBalanced c && is_network e in
  let c' := if spared then c else set_kKilled true c in
  exists batchSize,
    next (S fuel) blocking env c
    = (Done (Some e) None, c', popGetMore env,
       GetMore (kNamespace c) id batchSize
       :: (if spared then [] else [KillCursors (kNamespace c) id])
          ++ releaseSession (Some e) c ++ [Emit CLOSE])
    ∧ kClosed c' = false ∧ kId c' = Some id
    ∧ exists batchSize' more,
        (next (S fuel) blocking (popGetMore env) c').2
        = GetMore (kNamespace c) id batchSize' :: more.
Proof.
  intros Hopen Hdocs Hid Hlive Hserver Hreply. cbv zeta.
  eexists. split; [|split; [|split]].
  - cbn [next]. rewrite Hopen, Hdocs, Hid. cbn [length Nat.eqb negb].
    unfold cursorIsDead at 1. rewrite Hid, Hlive.
    unfold _getMore. rewrite Hid, Hserver, Hreply. cbn [head is_Some_b orb].
    unfold cleanupCursor, completeCleanup, killTarget, nextDocument.
    rewrite Hid, Hserver, Hlive.
    destruct (loadBalanced c && is_network e); cbn; by rewrite Hdocs.
  - by destruct (loadBalanced c && is_network e).
  - by destruct (loadBalanced c && is_network e).
  - destruct (loadBalanced c && is_network e).
    + by apply (next_live_asks fuel blocking (popGetMore env) c id server).
    + by apply (next_live_asks fuel blocking (popGetMore env) (set_kKilled true c) id server).
Qed.

End MoreIteration.

(** ** Requests to the server *)

Section Requests.

Import Cursor.

Lemma wellAddressed_other bs e :
  cursorIdOf e = None -> wellAddressed bs e.
Proof. intros H. split; [by rewrite H|by destruct e]. Qed.

Lemma releaseSession_wellAddressed bs error c :
  Forall (wellAddressed bs) (releaseSession error c).
Proof.
  unfold releaseSession.
  destruct (kSession c) as [s|]; [|constructor].
  destruct (owner_is_cursor s); [by repeat constructor|].
  destruct (negb (inTransaction s)); by repeat constructor.
Qed.

Lemma killTarget_live c ns id :
  killTarget c = Some (ns, id) -> Long.isZero id = false.
Proof.
  unfold killTarget. destruct (kId c) as [i|]; [|done].
  destruct (kServer c); [|done].
  destruct (Long.isZero i) eqn:Hz; [done|]. by intros [= _ <-].
Qed.

Lemma cleanupCursor_wellAddressed bs error needs c :
  batchSize (cleanupCursor error needs c).1 = batchSize c
  ∧ Forall (wellAddressed bs) (cleanupCursor error needs c).2.
Proof.
  unfold cleanupCursor, completeCleanup.
  destruct (match error with Some e => loadBalanced c && is_network e | None => false end).
  { split; [done|]. apply Forall_app. split; [apply releaseSession_wellAddressed|].
    by repeat constructor. }
  destruct (killTarget c) as [[ns id]|] eqn:Hk.
  - split; [done|]. cbn. constructor.
    + split; [|done]. intros ? [= <-]. by eapply killTarget_live.
    + apply Forall_app. split; [apply releaseSession_wellAddressed|].
      by repeat constructor.
  - destruct (default (length (kDocuments c) =? 0)%nat needs); cbn.
    + split; [done|]. constructor; [by apply wellAddressed_other|].
      apply releaseSession_wellAddressed.
    + split; [done|]. apply releaseSession_wellAddressed.
Qed.

Lemma nextDocument_batchSize c : batchSize (nextDocument c).2 = batchSize c.
Proof.
  unfold nextDocument. destruct (kDocuments c); [done|].
  by destruct (kTransform c).
Qed.

Lemma initialized_wellAddressed bs err state c :
  batchSize (initialized err state c).1.2 = batchSize c
  ∧ Forall (wellAddressed bs) (initialized err state c).2.
Proof.
  unfold initialized.
  match goal with
  | |- context [set_kInitialized true ?x] =>
      assert (Hb : batchSize x = batchSize c);
      [|generalize dependent x; intros c1 Hb]
  end.
  { destruct state as [state|]; [|done].
    destruct (st_cursor state) as [cur|]; cbn; [|by destruct (kId c)].
    destruct (cd_ns cur) as [n|]; [destruct (String.eqb n "")|]; done. }
  destruct (is_Some_b err || cursorIsDead (set_kInitialized true c1)); [|by split].
  destruct (cleanupCursor_wellAddressed bs err None (set_kInitialized true c1)) as [H1 H2].
  destruct (cleanupCursor err None (set_kInitialized true c1)) as [c3 e3].
  pose proof (nextDocument_batchSize c3) as H3.
  destruct (nextDocument c3) as [doc c4]. cbn in *. split; [congruence|done].
Qed.

Lemma kInit_wellAddressed bs fuel : forall env c,
  batchSize (kInit fuel env c).1.1.2 = batchSize c
  ∧ Forall (wellAddressed bs) (kInit fuel env c).2.
Proof.
  induction fuel as [|fuel IH]; intros env c; [by split|].
  assert (Hrun : forall c0 before,
    batchSize c0 = batchSize c -> Forall (wellAddressed bs) before ->
    let out :=
      match initReplies env with
      | [] => (Pending, c0, env, before)
      | (err, state) :: _ =>
          let '(r, c1, e1) := initialized err state c0 in
          (r, c1, popInit env, before ++ e1)
      end in
    batchSize out.1.1.2 = batchSize c ∧ Forall (wellAddressed bs) out.2).
  { intros c0 before Hb Hbefore. cbv zeta.
    destruct (initReplies env) as [|[err state] ?]; [by split|].
    destruct (initialized_wellAddressed bs err state c0) as [H1 H2].
    destruct (initialized err state c0) as [[r c1] e1]. cbn in *.
    split; [congruence|]. by apply Forall_app. }
  cbn [kInit].
  destruct (kSession c).
  - by apply Hrun.
  - destruct (shouldCheckForSessionSupport env).
    + destruct (selectServer env).
      * split; [done|]. by repeat constructor; apply wellAddressed_other.
      * destruct (IH (serverSelected env) c) as [H1 H2].
        destruct (kInit fuel (serverSelected env) c) as [[[r c1] env1] e1]. cbn in *.
        split; [done|]. constructor; [by apply wellAddressed_other|done].
    + destruct (hasSessionSupport env).
      * apply Hrun; [done|]. by repeat constructor; apply wellAddressed_other.
      * by apply Hrun.
Qed.

Lemma next_wellAddressed fuel blocking : forall env c,
  batchSize (next fuel blocking env c).1.1.2 = batchSize c
  ∧ Forall (wellAddressed (requestedBatchSize c)) (next fuel blocking env c).2.
Proof.
  induction fuel as [|fuel IH]; intros env c; [by split|].
  cbn [next].
  destruct (kClosed c); [by split|].
  destruct (negb (length (kDocuments c) =? 0)%nat).
  { pose proof (nextDocument_batchSize c) as H.
    destruct (nextDocument c). by split. }
  destruct (kId c) as [id|] eqn:Hid.
  - destruct (cursorIsDead c) eqn:Hdead.
    { destruct (cleanupCursor_wellAddressed (requestedBatchSize c) None None c) as [H1 H2].
      destruct (cleanupCursor None None c). by split. }
    assert (Hlive : Long.isZero id = false).
    { unfold cursorIsDead in Hdead. by rewrite Hid in Hdead. }
    unfold _getMore. rewrite Hid.
    destruct (kServer c); [|].
    2:{ cbn [is_Some_b orb].
        destruct (cleanupCursor_wellAddressed (requestedBatchSize c)
                    (Some (MongoRuntimeError "Unable to iterate cursor without selected server"))
                    None c) as [H1 H2].
        destruct (cleanupCursor _ None c) as [c2 e2].
        pose proof (nextDocument_batchSize c2) as H3.
        destruct (nextDocument c2). cbn in *. split; [congruence|done]. }
    assert (Hask : wellAddressed (requestedBatchSize c)
              (GetMore (kNamespace c) id (requestedBatchSize c))).
    { split; [by intros ? [= <-]|by intros ? [= <-]]. }
    fold (requestedBatchSize c).
    destruct (head (getMoreReplies env)) as [reply|];
      [|split; [done|by constructor]].
    match goal with
    | |- context [let (err, c1) := ?p in _] =>
        assert (Hb : batchSize p.2 = batchSize c) by (by destruct reply);
        destruct p as [err c1]
    end.
    cbn in Hb.
    destruct (is_Some_b err || cursorIsDead c1).
    + destruct (cleanupCursor_wellAddressed (requestedBatchSize c) err None c1) as [H1 H2].
      destruct (cleanupCursor err None c1) as [c2 e2].
      pose proof (nextDocument_batchSize c2) as H3.
      destruct (nextDocument c2). cbn in *. split; [congruence|by constructor].
    + destruct ((length (kDocuments c1) =? 0)%nat && negb blocking).
      { split; [done|by constructor]. }
      destruct (IH (popGetMore env) c1) as [H1 H2].
      destruct (next fuel blocking (popGetMore env) c1) as [[[r2 c2] env2] e2].
      cbn in *. split; [congruence|]. constructor; [done|].
      unfold requestedBatchSize in *. by rewrite Hb in H2.
  - destruct (kInit_wellAddressed (requestedBatchSize c) fuel env c) as [H1 H2].
    destruct (kInit fuel env c) as [[[r c1] env1] e1]. cbn in H1, H2.
    destruct r as [|[err|] [value|]]; try by split.
    destruct (IH env1 c1) as [H3 H4].
    destruct (next fuel blocking env1 c1) as [[[r2 c2] env2] e2]. cbn in *.
    split; [congruence|]. apply Forall_app. split; [done|].
    unfold requestedBatchSize in *. by rewrite H1 in H4.
Qed.

Lemma nexts_wellAddressed n fuel blocking : forall env c,
  batchSize (nexts n fuel blocking env c).1.1.2 = batchSize c
  ∧ Forall (wellAddressed (requestedBatchSize c)) (nexts n fuel blocking env c).2.
Proof.
  induction n as [|n IH]; intros env c; [by split|].
  rewrite nexts_S.
  destruct (next_wellAddressed fuel blocking env c) as [H1 H2].
  destruct (next fuel blocking env c) as [[[r c1] env1] e1].
  destruct (IH env1 c1) as [H3 H4].
  destruct (nexts n fuel blocking env1 c1) as [[[rs c2] env2] e2].
  cbn in *. split; [congruence|]. apply Forall_app. split; [done|].
  unfold requestedBatchSize in *. by rewrite H1 in H4.
Qed.

(** X7.  Every getMore that calls of [next] send asks for the batch size
    of the cursor, and for 1000 documents when the batch size is not set or
    is 0. *)
Theorem getMore_asks_for_the_batch_size
    (n fuel : nat) (blocking : bool) (env : Env) (c : t) :
  Forall (λ e, forall size, asksFor e = Some size -> size = requestedBatchSize c)
         (nexts n fuel blocking env c).2
  ∧ (batchSize c = None ∨ batchSize c = Some 0 -> requestedBatchSize c = 1000).
Proof.
  split.
  - destruct (nexts_wellAddressed n fuel blocking env c) as [_ H].
    eapply Forall_impl; [exact H|]. by intros e [_ He].
  - unfold requestedBatchSize. by intros [-> | ->].
Qed.

(** X8.  No getMore and no killCursors names the cursor id 0: not those
    that calls of [next] send, and not those of a [close] after them. *)
Theorem requests_name_a_live_cursor
    (n fuel : nat) (blocking : bool) (env : Env) (c : t) :
  let run := nexts n fuel blocking env c in
  Forall (λ e, forall id, cursorIdOf e = Some id -> Long.isZero id = false)
         (run.2 ++ (close run.1.1.2).2).
Proof.
  cbv zeta. apply Forall_app. split.
  - destruct (nexts_wellAddressed n fuel blocking env c) as [_ H].
    eapply Forall_impl; [exact H|]. by intros e [He _].
  - unfold close.
    match goal with
    | |- context [cleanupCursor None ?needs ?c1] =>
        destruct (cleanupCursor_wellAddressed 0 None needs c1) as [_ H]
    end.
    eapply Forall_impl; [exact H|]. by intros e [He _].
Qed.

End Requests.

(** ** A cursor in use *)

Section InUse.

Import Cursor.

Lemma cleanupCursor_kInitialized error needs c :
  kInitialized (cleanupCursor error needs c).1 = kInitialized c.
Proof.
  unfold cleanupCursor, completeCleanup.
  destruct (match error with Some e => loadBalanced c && is_network e | None => false end);
    [done|].
  destruct (killTarget c) as [[ns id]|]; [done|].
  by destruct (default (length (kDocuments c) =? 0)%nat needs).
Qed.

Lemma nextDocument_kInitialized c :
  kInitialized (nextDocument c).2 = kInitialized c.
Proof.
  unfold nextDocument. destruct (kDocuments c); [done|].
  by destruct (kTransform c).
Qed.

Lemma initialized_kInitialized err state c :
  kInitialized (initialized err state c).1.2 = true.
Proof.
  unfold initialized.
  match goal with
  | |- context [set_kInitialized true ?x] => generalize x; intros c1
  end.
  destruct (is_Some_b err || cursorIsDead (set_kInitialized true c1)); [|done].
  pose proof (cleanupCursor_kInitialized err None (set_kInitialized true c1)) as H1.
  destruct (cleanupCursor err None (set_kInitialized true c1)) as [c3 e3].
  pose proof (nextDocument_kInitialized c3) as H3.
  destruct (nextDocument c3) as [doc c4]. cbn in *. congruence.
Qed.

Lemma kInit_kInitialized fuel : forall env c,
  kInitialized c = true -> kInitialized (kInit fuel env c).1.1.2 = true.
Proof.
  induction fuel as [|fuel IH]; intros env c Hc; [done|].
  assert (Hrun : forall c0 before,
    kInitialized c0 = true ->
    kInitialized
      (match initReplies env with
       | [] => (Pending, c0, env, before)
       | (err, state) :: _ =>
           let '(r, c1, e1) := initialized err state c0 in
           (r, c1, popInit env, before ++ e1)
       end).1.1.2 = true).
  { intros c0 before Hb.
    destruct (initReplies env) as [|[err state] ?]; [done|].
    pose proof (initialized_kInitialized err state c0) as H1.
    by destruct (initialized err state c0) as [[r c1] e1]. }
  cbn [kInit].
  destruct (kSession c).
  - by apply Hrun.
  - destruct (shouldCheckForSessionSupport env).
    + destruct (selectServer env); [done|].
      pose proof (IH (serverSelected env) c Hc) as H1.
      by destruct (kInit fuel (serverSelected env) c) as [[[r c1] env1] e1].
    + destruct (hasSessionSupport env); by apply Hrun.
Qed.

(** Only [rewind] clears the mark of an initialized cursor. *)
Lemma next_kInitialized fuel blocking : forall env c,
  kInitialized c = true -> kInitialized (next fuel blocking env c).1.1.2 = true.
Proof.
  induction fuel as [|fuel IH]; intros env c Hc; [done|].
  cbn [next].
  destruct (kClosed c); [done|].
  destruct (negb (length (kDocuments c) =? 0)%nat).
  { pose proof (nextDocument_kInitialized c) as H.
    destruct (nextDocument c). cbn in *. congruence. }
  destruct (kId c) as [id|] eqn:Hid.
  - destruct (cursorIsDead c).
    { pose proof (cleanupCursor_kInitialized None None c) as H1.
      destruct (cleanupCursor None None c). cbn in *. congruence. }
    destruct (_getMore _ env c) as [[reply env1] e1].
    destruct reply as [reply|]; [|done].
    match goal with
    | |- context [let (err, c1) := ?p in _] =>
        assert (Hb : kInitialized p.2 = true) by (by destruct reply);
        destruct p as [err c1]
    end.
    cbn in Hb.
    destruct (is_Some_b err || cursorIsDead c1).
    + pose proof (cleanupCursor_kInitialized err None c1) as H1.
      destruct (cleanupCursor err None c1) as [c2 e2].
      pose proof (nextDocument_kInitialized c2) as H3.
      destruct (nextDocument c2). cbn in *. congruence.
    + destruct ((length (kDocuments c1) =? 0)%nat && negb blocking); [done|].
      pose proof (IH env1 c1 Hb) as H1.
      by destruct (next fuel blocking env1 c1) as [[[r2 c2] env2] e2].
  - pose proof (kInit_kInitialized fuel env c Hc) as H1.
    destruct (kInit fuel env c) as [[[r c1] env1] e1]. cbn in H1.
    destruct r as [|[err|] [value|]]; try done.
    pose proof (IH env1 c1 H1) as H3.
    by destruct (next fuel blocking env1 c1) as [[[r2 c2] env2] e2].
Qed.

(** The first call of [next] whose [_initialize] is answered leaves the
    cursor initialized. *)
Lemma next_initializes fuel blocking env c err state rest :
  kClosed c = false -> kDocuments c = [] -> kId c = None ->
  shouldCheckForSessionSupport env = false ->
  initReplies env = (err, state) :: rest ->
  kInitialized (next (S (S fuel)) blocking env c).1.1.2 = true.
Proof.
  intros Hopen Hdocs Hid Hcheck Hreply.
  remember (S fuel) as fuel' eqn:Hf. cbn [next].
  rewrite Hopen, Hdocs, Hid. cbn [length Nat.eqb negb].
  assert (H1 : kInitialized (kInit fuel' env c).1.1.2 = true).
  { subst fuel'. cbn [kInit]. rewrite Hreply, Hcheck.
    destruct (kSession c); [|destruct (hasSessionSupport env)];
      match goal with
      | |- context [initialized ?e ?s ?c0] =>
          pose proof (initialized_kInitialized e s c0);
          by destruct (initialized e s c0) as [[? ?] ?]
      end. }
  destruct (kInit fuel' env c) as [[[r c1] env1] e1]. cbn in H1.
  destruct r as [|[e|] [value|]]; try done.
  pose proof (next_kInitialized fuel' blocking env1 c1 H1) as H3.
  by destruct (next fuel' blocking env1 c1) as [[[r2 c2] env2] e2].
Qed.

(** X9.  Once the first request of a cursor has been answered, by a
    response or by an error, the methods that configure the cursor throw
    [MongoCursorInUseError], whatever their arguments; [rewind] makes the
    cursor configurable again. *)
Theorem configuring_a_used_cursor_fails
    (c : t) (env : Env) (err : option Error) (state : option ExecutionResult)
    (rest : list (option Error * option ExecutionResult)) (fuel : nat) (blocking : bool) :
  kClosed c = false -> kDocuments c = [] -> kId c = None ->
  shouldCheckForSessionSupport env = false ->
  initReplies env = (err, state) :: rest ->
  let c' := (next (S (S fuel)) blocking env c).1.1.2 in
  (forall transform, CursorApi.map transform c' = inl MongoCursorInUseError)
  ∧ (forall options flag value,
       CursorApi.addCursorFlag flag value (CursorApi.mk c' options)
       = inl MongoCursorInUseError)
  ∧ (forall options value,
       CursorApi.maxTimeMS value (CursorApi.mk c' options) = inl MongoCursorInUseError)
  ∧ (forall options value,
       CursorApi.batchSize value (CursorApi.mk c' options) = inl MongoCursorInUseError)
  ∧ (forall life transform,
       exists c2, CursorApi.map transform (CursorApi.rewind life c').1 = inr c2).
Proof.
  intros Hopen Hdocs Hid Hcheck Hreply c'.
  assert (Hin : kInitialized c' = true)
    by (by eapply next_initializes).
  repeat split; intros.
  - unfold CursorApi.map, CursorApi.assertUninitialized. by rewrite Hin.
  - unfold CursorApi.addCursorFlag, CursorApi.assertUninitialized. cbn. by rewrite Hin.
  - unfold CursorApi.maxTimeMS, CursorApi.assertUninitialized. cbn. by rewrite Hin.
  - unfold CursorApi.batchSize, CursorApi.assertUninitialized. cbn. by rewrite Hin.
  - unfold CursorApi.rewind. rewrite Hin. cbn [negb].
    unfold CursorApi.map, CursorApi.assertUninitialized.
    destruct (kSession _); cbn; destruct (kTransform c'); by eexists.
Qed.

End InUse.

(** ** Configuring and rewinding *)

Section Configure.

Import Cursor.

(** The first call of [next] on a cursor whose first request is answered
    with a cursor and a non-empty first batch. *)
Lemma next_first_batch fuel blocking env c state cur doc docs rest :
  kClosed c = false -> kDocuments c = [] -> kId c = None ->
  shouldCheckForSessionSupport env = false ->
  initReplies env = (None, Some state) :: rest ->
  st_cursor state = Some cur -> cd_batch cur = doc :: docs ->
  let run := next (S (S fuel)) blocking env c in
  run.1.1.1 = Done None (Some (transformed c doc))
  ∧ kDocuments run.1.1.2 = docs
  ∧ kId run.1.1.2 = Some (Long.ofWire (cd_id cur))
  ∧ run.1.2 = popInit env
  ∧ List.filter is_getMore run.2 = [].
Proof.
  intros Hopen Hdocs Hid Hcheck Hreply Hcur Hbatch.
  assert (Hinit : forall c0 before,
    kClosed c0 = false -> kTransform c0 = kTransform c ->
    List.filter is_getMore before = [] ->
    let out :=
      (let '(r, c1, e1) := initialized None (Some state) c0 in
       match r with
       | Pending => (Pending, c1, popInit env, before ++ e1)
       | Done (Some err) _ => (Done (Some err) None, c1, popInit env, before ++ e1)
       | Done None (Some value) => (Done None (Some value), c1, popInit env, before ++ e1)
       | Done None None =>
           let '(r2, c2, env2, e2) := next (S fuel) blocking (popInit env) c1 in
           (r2, c2, env2, (before ++ e1) ++ e2)
       end) in
    out.1.1.1 = Done None (Some (transformed c doc))
    ∧ kDocuments out.1.1.2 = docs
    ∧ kId out.1.1.2 = Some (Long.ofWire (cd_id cur))
    ∧ out.1.2 = popInit env
    ∧ List.filter is_getMore out.2 = []).
  { intros c0 before Hopen0 Htr0 Hbefore. cbv zeta.
    unfold initialized. rewrite Hcur. cbn [is_Some_b orb kId set_kId set_kDocuments].
    match goal with
    | |- context [set_kDocuments (cd_batch cur) ?y] => set (x := y)
    end.
    assert (Hx : kClosed x = false ∧ kTransform x = kTransform c
                 ∧ kId x = Some (Long.ofWire (cd_id cur))).
    { subst x. destruct (cd_ns cur) as [n|]; [destruct (String.eqb n "")|]; done. }
    clearbody x. destruct Hx as (Hx1 & Hx2 & Hx3).
    rewrite Hbatch, Hx3. unfold cursorIsDead. cbn [kId set_kInitialized set_kDocuments].
    rewrite Hx3.
    destruct (Long.isZero (Long.ofWire (cd_id cur))) eqn:Hz.
    - unfold cleanupCursor, killTarget, nextDocument, transformed.
      cbn. rewrite Hx3, Hz.
      destruct (kServer x); cbn; rewrite Hx2;
        destruct (kTransform c); cbn;
        by rewrite List.filter_app, Hbefore, releaseSession_no_getMore.
    - cbv beta iota.
      match goal with
      | |- context [next (S fuel) blocking ?e ?c1] =>
          rewrite (next_buffered fuel blocking e c1 doc docs) by done
      end.
      unfold transformed. cbn. rewrite Hx2.
      by rewrite !List.filter_app, Hbefore. }
  cbv zeta. remember (S fuel) as fuel' eqn:Hf. cbn [next].
  rewrite Hopen, Hdocs, Hid. cbn [length Nat.eqb negb].
  subst fuel'. cbn [kInit]. rewrite Hreply, Hcheck.
  destruct (kSession c); [|destruct (hasSessionSupport env)].
  - specialize (Hinit c [] Hopen eq_refl eq_refl). cbv zeta in Hinit.
    destruct (initialized None (Some state) c) as [[r c1] e1].
    by destruct r as [|[e|] [value|]].
  - specialize (Hinit (set_kSession (Some (mkSession true false)) c) [StartSession]
                  Hopen eq_refl eq_refl). cbv zeta in Hinit.
    destruct (initialized None (Some state) _) as [[r c1] e1].
    by destruct r as [|[e|] [value|]].
  - specialize (Hinit c [] Hopen eq_refl eq_refl). cbv zeta in Hinit.
    destruct (initialized None (Some state) c) as [[r c1] e1].
    by destruct r as [|[e|] [value|]].
Qed.

(** X10.  [rewind] of a used cursor forgets the buffer, the id and the
    closed state without telling the server: no killCursors is sent, the
    only effect is the end of a session that the cursor had created.  The
    next call runs the query again and hands out the first document of the
    new first batch, through the transform that the cursor had. *)
Theorem rewind_replays_the_query
    (c : t) (life : CursorApi.SessionLife) (env : Env) (state : ExecutionResult)
    (cur : CursorDesc) (doc : Document) (docs : list Document)
    (rest : list (option Error * option ExecutionResult)) (fuel : nat) (blocking : bool) :
  kInitialized c = true ->
  shouldCheckForSessionSupport env = false ->
  initReplies env = (None, Some state) :: rest ->
  st_cursor state = Some cur -> cd_batch cur = doc :: docs ->
  let c' := (CursorApi.rewind life c).1 in
  let run := next (S (S fuel)) blocking env c' in
  (CursorApi.rewind life c).2
  = (if is_Some_b (kSession c) && negb (CursorApi.explicit life)
        && negb (CursorApi.hasEnded life)
     then [EndSession None] else [])
  ∧ kSession c' = None ∧ kInitialized c' = false ∧ kKilled c' = false
  ∧ run.1.1.1 = Done None (Some (transformed c doc))
  ∧ kDocuments run.1.1.2 = docs
  ∧ kId run.1.1.2 = Some (Long.ofWire (cd_id cur))
  ∧ initReplies run.1.2 = rest.
Proof.
  intros Hin Hcheck Hreply Hcur Hbatch c' run.
  assert (Hc' : kClosed c' = false ∧ kDocuments c' = [] ∧ kId c' = None
                ∧ kTransform c' = kTransform c ∧ kSession c' = None
                ∧ kInitialized c' = false ∧ kKilled c' = false).
  { subst run c'. unfold CursorApi.rewind. rewrite Hin. cbn [negb].
    cbn [kSession set_kInitialized set_kKilled set_kClosed set_kDocuments set_kId].
    destruct (kSession c) eqn:Hs; cbn; by rewrite ?Hs. }
  destruct Hc' as (Hopen & Hdocs & Hid & Htr & Hs & Hini & Hkilled).
  destruct (next_first_batch fuel blocking env c' state cur doc docs rest)
    as (H1 & H2 & H3 & H4 & H5); try done.
  fold run in H1, H2, H3, H4.
  split; [|split; [|split; [|split; [|split; [|split; [|split]]]]]]; try done.
  - unfold CursorApi.rewind. rewrite Hin. cbn. by destruct (kSession c).
  - rewrite H1. unfold transformed. by rewrite Htr.
  - rewrite H4. unfold popInit. cbn. by rewrite Hreply.
Qed.

(** X11.  Transforms added with [map] compose: the one added last is applied
    last, to the result of the ones added before, and nothing else of the
    cursor changes. *)
Theorem map_composes
    (c : t) (f g : Document -> Document) :
  kInitialized c = false ->
  exists c1 c2,
    CursorApi.map f c = inr c1 ∧ CursorApi.map g c1 = inr c2
    ∧ (forall doc, transformed c2 doc = g (f (transformed c doc)))
    ∧ CursorApi.set_kTransform (kTransform c) c2 = c.
Proof.
  intros Hin.
  assert (Hmap : forall h c0, kInitialized c0 = false ->
    CursorApi.map h c0
    = inr (CursorApi.set_kTransform
             (Some (match kTransform c0 with
                    | Some oldTransform => λ doc, h (oldTransform doc)
                    | None => h
                    end)) c0)).
  { intros h c0 H0. unfold CursorApi.map, CursorApi.assertUninitialized.
    rewrite H0. by destruct (kTransform c0). }
  eexists _, _. split; [by apply Hmap|]. split; [by apply Hmap|].
  split.
  - intros doc. unfold transformed. cbn. by destruct (kTransform c).
  - by destruct c.
Qed.

(** X12.  [readBufferedDocuments] splits the buffer: what it returns
    followed by what it leaves is the buffer before the call, untransformed;
    it returns [number] documents, none for a negative number and the whole
    buffer when there are fewer or when no number is given. *)
Theorem readBufferedDocuments_splits_buffer
    (c : t) (number : option Z) :
  let out := CursorApi.readBufferedDocuments number c in
  out.1 ++ kDocuments out.2 = kDocuments c
  ∧ bufferedCount c = Z.of_nat (length out.1) + bufferedCount out.2
  ∧ Z.of_nat (length out.1)
    = match number with
      | Some n => Z.min (Z.max n 0) (bufferedCount c)
      | None => bufferedCount c
      end.
Proof.
  cbv zeta. unfold CursorApi.readBufferedDocuments, bufferedCount.
  cbn [fst snd kDocuments set_kDocuments].
  split; [apply take_drop|]. split.
  - rewrite <- Nat2Z.inj_add, <- length_app. by rewrite take_drop.
  - rewrite length_take. destruct number as [n|]; lia.
Qed.

(** X13.  A cursor flagged as tailable refuses a batch size; with the flag
    set to [false], or another flag, the batch size is stored. *)
Theorem tailable_cursor_refuses_batchSize
    (s : CursorApi.t) (tailable : bool) (n : Z) :
  kInitialized (CursorApi.cursor s) = false ->
  exists s',
    CursorApi.addCursorFlag "tailable" (Bool tailable) s = inr s'
    ∧ CursorApi.batchSize (Num n) s'
      = (if tailable
         then inl (MongoTailableCursorError "Tailable cursor does not support batchSize")
         else inr (CursorApi.mk (CursorApi.set_batchSize (Some n) (CursorApi.cursor s))
                     (CursorApi.kOptions s'))).
Proof.
  intros Hin. unfold CursorApi.addCursorFlag, CursorApi.assertUninitialized.
  rewrite Hin. eexists. split; [reflexivity|].
  unfold CursorApi.batchSize, CursorApi.assertUninitialized. cbn.
  rewrite Hin. unfold get. rewrite lookup_insert. by destruct tailable.
Qed.

End Configure.

(** ** [forEach] *)

Section ForEach.

Import Cursor.

Lemma eachBuffered_all iterator docs :
  (forall doc, iterator doc = CursorApi.Continue) ->
  CursorApi.eachBuffered iterator docs = (docs, None).
Proof.
  intros Hall. induction docs as [|doc docs IH]; [done|].
  cbn. by rewrite Hall, IH.
Qed.

Lemma forEachDocs_all iterator transform fuel :
  (forall doc, iterator doc = CursorApi.Continue) ->
  forall rounds acc env c docs c' env' effects,
    CursorApi.fetchDocs rounds fuel transform acc env c
    = (Done None (Some docs), c', env', effects) ->
    exists visited,
      docs = acc ++ visited
      ∧ CursorApi.forEachDocs rounds fuel iterator transform env c
        = (Done None None, visited, c', env', effects).
Proof.
  intros Hall. induction rounds as [|rounds IH]; intros acc env c docs c' env' effects;
    [done|].
  cbn [CursorApi.fetchDocs CursorApi.forEachDocs].
  destruct (next fuel true env c) as [[[r c1] env1] e1].
  destruct r as [|[err|] [doc|]]; try done.
  - cbv zeta. rewrite Hall, eachBuffered_all by done.
    destruct (CursorApi.fetchDocs rounds fuel transform _ env1 (set_kDocuments [] c1))
      as [[[r2 c2] env2] e2] eqn:Hf.
    intros [= -> -> -> <-].
    destruct (IH _ _ _ _ _ _ _ Hf) as (visited & -> & ->).
    eexists. split; [|reflexivity]. by rewrite <- app_assoc.
  - intros [= <- <- <- <-]. exists []. by rewrite app_nil_r.
Qed.

(** X14.  With an iterator that never returns [false] and never throws,
    [forEach] calls the iterator with the documents that [toArray]
    returns, in the same order, and leaves the cursor, the server and the events as
    [toArray] does. *)
Theorem forEach_visits_what_toArray_returns
    (iterator : Document -> CursorApi.IteratorResult) (rounds fuel : nat) (env env' : Env)
    (c c' : t) (docs : list Document) (effects : list Effect) :
  (forall doc, iterator doc = CursorApi.Continue) ->
  CursorApi.toArray rounds fuel env c = (Done None (Some docs), c', env', effects) ->
  CursorApi.forEach rounds fuel iterator env c = (Done None None, docs, c', env', effects).
Proof.
  intros Hall Harray.
  destruct (forEachDocs_all iterator (kTransform c) fuel Hall rounds [] env c
              docs c' env' effects Harray) as (visited & -> & Hf).
  exact Hf.
Qed.

Lemma eachBuffered_stops iterator docs :
  Forall (λ doc, iterator doc = CursorApi.Continue) (removelast (CursorApi.eachBuffered iterator docs).1)
  ∧ ((CursorApi.eachBuffered iterator docs).2 = None ->
     Forall (λ doc, iterator doc = CursorApi.Continue) (CursorApi.eachBuffered iterator docs).1).
Proof.
  induction docs as [|doc docs [IH1 IH2]]; [by split|].
  cbn [CursorApi.eachBuffered]. destruct (iterator doc) eqn:Hit; [|by split..].
  destruct (CursorApi.eachBuffered iterator docs) as [visited ending]. cbn in *.
  split.
  - destruct visited as [|d visited]; [constructor|].
    constructor; [done|]. exact IH1.
  - intros ->. constructor; [done|]. by apply IH2.
Qed.

Lemma removelast_app_Forall {A} (P : A -> Prop) l1 l2 :
  Forall P l1 -> Forall P (removelast l2) -> Forall P (removelast (l1 ++ l2)).
Proof.
  intros H1 H2. destruct l2 as [|x l2].
  - rewrite app_nil_r. clear H2. induction H1 as [|y l Hy Hl IH]; [constructor|].
    destruct l; [constructor|]. constructor; [done|]. exact IH.
  - rewrite removelast_app by done. by apply Forall_app.
Qed.

(** X15.  [forEach] does not call the iterator again after the iterator
    has returned [false] or thrown: every call but the last one returned
    something else. *)
Theorem forEach_stops_at_false
    (iterator : Document -> CursorApi.IteratorResult) (rounds fuel : nat) (env : Env) (c : t) :
  Forall (λ doc, iterator doc = CursorApi.Continue)
         (removelast (CursorApi.forEach rounds fuel iterator env c).1.1.1.2).
Proof.
  unfold CursorApi.forEach. generalize (kTransform c). intros transform.
  revert env c. induction rounds as [|rounds IH]; intros env c; [constructor|].
  cbn [CursorApi.forEachDocs].
  destruct (next fuel true env c) as [[[r c1] env1] e1].
  destruct r as [|[err|] [doc|]]; try constructor.
  destruct (iterator doc) eqn:Hit; try constructor.
  cbv zeta.
  match goal with
  | |- context [CursorApi.eachBuffered iterator ?l] =>
      destruct (eachBuffered_stops iterator l) as [H1 H2];
      destruct (CursorApi.eachBuffered iterator l) as [visited ending]
  end.
  cbn in H1, H2. destruct ending as [ending|].
  - cbn. destruct visited; [constructor|]. by constructor.
  - specialize (IH env1 (set_kDocuments [] c1)).
    destruct (CursorApi.forEachDocs rounds fuel iterator transform env1 (set_kDocuments [] c1))
      as [[[[r2 visited2] c3] env3] e3].
    cbn [fst snd] in IH |- *.
    change (doc :: visited ++ visited2) with ((doc :: visited) ++ visited2).
    apply removelast_app_Forall; [|done]. constructor; [done|]. by apply H2.
Qed.

End ForEach.

(** ** Subclasses *)

Section Subclasses.

Import Cursor.

Lemma kInit_of_base_class fuel : forall env c,
  Dispatch.kInit fuel env c = kInit fuel env c.
Proof.
  induction fuel as [|fuel IH]; intros env c; [done|].
  cbn [Dispatch.kInit kInit Dispatch.inherited Dispatch.set_inherited Dispatch._initialize plainCursor].
  rewrite IH.
  destruct (kSession c); [|destruct (shouldCheckForSessionSupport env);
                           [|destruct (hasSessionSupport env)]];
    try done;
    destruct (initReplies env) as [|[err state] ?]; done.
Qed.

(** The iteration with dynamic dispatch, for a class that overrides
    nothing, unfolds to the iteration of [AbstractCursor] above. *)
Lemma next_of_base_class (fuel : nat) (blocking : bool) (env : Env) (c : t) :
  Dispatch.next fuel blocking env c = next fuel blocking env c.
Proof.
  revert env c. induction fuel as [|fuel IH]; intros env c; [done|].
  cbn [Dispatch.next next Dispatch.inherited Dispatch.set_inherited Dispatch._getMore plainCursor].
  destruct (kClosed c); [done|].
  destruct (negb (length (kDocuments c) =? 0)%nat); [done|].
  destruct (kId c) as [id|] eqn:Hid.
  - destruct (cursorIsDead c); [done|].
    unfold Dispatch.superGetMore.
    destruct (Cursor._getMore _ env c) as [[reply env1] e1].
    destruct reply as [[e|w nextBatch]|]; [done| |done].
    cbn [is_Some_b orb].
    destruct (cursorIsDead (set_kId (Some (Long.ofWire w)) (set_kDocuments nextBatch c)));
      [done|].
    destruct ((length (kDocuments (set_kId (Some (Long.ofWire w))
                                     (set_kDocuments nextBatch c))) =? 0)%nat
              && negb blocking); [done|].
    by rewrite IH.
  - rewrite kInit_of_base_class.
    destruct (kInit fuel env c) as [[[r c1] env1] e1].
    destruct r as [|[err|] [value|]]; try done. by rewrite IH.
Qed.

End Subclasses.

(** ** [FindCursor] *)

Section Find.

Import Cursor.

Lemma cursor_set_kNumReturned v s :
  FindCursor.cursor (FindCursor.set_kNumReturned v s) = FindCursor.cursor s.
Proof. reflexivity. Qed.

Lemma cursor_set_cursor c s : FindCursor.cursor (FindCursor.set_cursor c s) = c.
Proof. reflexivity. Qed.

(** X17.  Once a find cursor has returned as many documents as its limit
    says, the next call does not ask the server for more: the cursor is
    closed, the server cursor is killed, and the call reports the end of
    the stream. *)
Theorem limit_reached_closes_cursor
    (s : FindCursor.t) (env : Env) (id : Long.t) (server : Server)
    (returned limit : Z) (fuel : nat) (blocking : bool) :
  let c := FindCursor.cursor s in
  kClosed c = false -> kDocuments c = [] ->
  kId c = Some id -> Long.isZero id = false -> kServer c = Some server ->
  FindCursor.kNumReturned s = Some returned ->
  get (FindCursor.kBuiltOptions s) "limit" = Num limit ->
  0 < limit <= returned ->
  let run := Dispatch.next (S (S fuel)) blocking env s in
  run.1.1.1 = Done None None
  ∧ kClosed (FindCursor.cursor run.1.1.2) = true
  ∧ run.1.2 = env
  ∧ run.2 = KillCursors (kNamespace c) id :: releaseSession None c ++ [Emit CLOSE].
Proof.
  intros c Hopen Hdocs Hid Hlive Hserver Hn Hlimit Hreached.
  cbv zeta. remember (S fuel) as fuel' eqn:Hf.
  cbn [Dispatch.next Dispatch.inherited Dispatch.set_inherited Dispatch._getMore FindCursor.subclass].
  fold c. rewrite Hopen, Hdocs, Hid. cbn [length Nat.eqb negb].
  unfold cursorIsDead at 1. rewrite Hid, Hlive.
  unfold FindCursor._getMore. rewrite Hn, Hlimit.
  replace (returned =? 0) with false by lia.
  match goal with
  | |- context [if ?b then limit - returned else ?bs] =>
      assert (Hle : ((if b then limit - returned else bs) <=? 0) = true)
        by (destruct b eqn:Hb; lia);
      rewrite Hle
  end.
  fold c.
  assert (Hk : killTarget (set_kClosed true c) = Some (kNamespace c, id)).
  { unfold killTarget. cbn. by rewrite Hid, Hserver, Hlive. }
  unfold close, cleanupCursor, completeCleanup. rewrite Hk.
  cbn [is_Some_b orb fst snd FindCursor.cursor FindCursor.set_cursor FindCursor.set_api
       FindCursor.api CursorApi.cursor].
  unfold cursorIsDead. cbn [kId set_kKilled set_kClosed]. rewrite Hid, Hlive.
  cbn [kDocuments set_kKilled set_kClosed]. rewrite Hdocs. cbn [length Nat.eqb andb].
  subst fuel'.
  destruct blocking; cbn; rewrite ?app_nil_r; done.
Qed.

(** X18.  Below the limit, a getMore of a find cursor asks for no more
    documents than the limit leaves, and the documents of the answer are
    counted; but when the first batch was empty the count is 0, which the
    test of the count takes for no count, and the getMore asks for the whole
    batch size. *)
Theorem limit_clamps_getMore
    (s : FindCursor.t) (env : Env) (id : Long.t) (server : Server)
    (returned limit : Z) (w : Long.wire) (doc : Document) (docs : list Document)
    (rest : list GetMoreReply) (fuel : nat) (blocking : bool) :
  let c := FindCursor.cursor s in
  kClosed c = false -> kDocuments c = [] ->
  kId c = Some id -> Long.isZero id = false -> kServer c = Some server ->
  FindCursor.kNumReturned s = Some returned ->
  get (FindCursor.kBuiltOptions s) "limit" = Num limit ->
  0 <= returned < limit -> limit < returned + requestedBatchSize c ->
  getMoreReplies env = GetMoreOk w (doc :: docs) :: rest ->
  Long.isZero (Long.ofWire w) = false ->
  let run := Dispatch.next (S (S fuel)) blocking env s in
  run.1.1.1 = Done None (Some (transformed c doc))
  ∧ run.2 = [GetMore (kNamespace c) id
               (if returned =? 0 then requestedBatchSize c else limit - returned)]
  ∧ FindCursor.kNumReturned run.1.1.2 = Some (returned + Z.of_nat (S (length docs)))
  ∧ kDocuments (FindCursor.cursor run.1.1.2) = docs.
Proof.
  intros c Hopen Hdocs Hid Hlive Hserver Hn Hlimit Hbelow Hover Hreply Hw.
  cbv zeta. remember (S fuel) as fuel' eqn:Hf.
  cbn [Dispatch.next Dispatch.inherited Dispatch.set_inherited Dispatch._getMore FindCursor.subclass].
  fold c. rewrite Hopen, Hdocs, Hid. cbn [length Nat.eqb negb].
  unfold cursorIsDead at 1. rewrite Hid, Hlive.
  fold (requestedBatchSize c).
  unfold FindCursor._getMore. rewrite Hn, Hlimit.
  assert (Hsuper : forall bs,
    Dispatch.superGetMore bs env c
    = (Dispatch.Answer None (Some (w, doc :: docs)), popGetMore env,
       [GetMore (kNamespace c) id bs])).
  { intros bs. unfold Dispatch.superGetMore, Cursor._getMore.
    by rewrite Hid, Hserver, Hreply. }
  fold c.
  destruct (returned =? 0) eqn:Hzero;
    [|replace ((0 <? limit) && (limit <? returned + requestedBatchSize c)) with true by lia;
      replace (limit - returned <=? 0) with false by lia];
    rewrite Hsuper; cbv beta iota zeta; rewrite ?Hn;
    unfold cursorIsDead;
    cbn [is_Some_b orb FindCursor.cursor FindCursor.set_cursor FindCursor.set_api
         FindCursor.set_kNumReturned FindCursor.api CursorApi.cursor
         FindCursor.kNumReturned kId set_kId kDocuments set_kDocuments];
    rewrite Hw; cbn [length Nat.eqb andb];
    subst fuel';
    cbn [Dispatch.next Dispatch.inherited Dispatch.set_inherited FindCursor.subclass
         FindCursor.cursor FindCursor.set_cursor FindCursor.set_api
         FindCursor.set_kNumReturned FindCursor.api CursorApi.cursor];
    rewrite ?cursor_set_kNumReturned;
    cbn [kClosed set_kId set_kDocuments kDocuments];
    fold c; rewrite Hopen; cbn [length Nat.eqb negb];
    unfold nextDocument, transformed;
    cbn [kDocuments kTransform set_kId set_kDocuments];
    rewrite ?Hid, ?Hlive;
    destruct (kTransform c); cbn [fst snd app];
    rewrite ?cursor_set_cursor; done.
Qed.

(** X19.  The inherited [batchSize] looks for the flag [tailable] that
    [addCursorFlag] sets, the methods [limit] and [skip] for the option
    [tailable] that the cursor was built with: a cursor flagged as tailable
    refuses a batch size and still takes a limit and a skip. *)
Theorem tailable_flag_allows_limit (s : FindCursor.t) (n : Z) :
  kInitialized (FindCursor.cursor s) = false ->
  truthy (get (FindCursor.kBuiltOptions s) "tailable") = false ->
  exists s',
    FindCursor.addCursorFlag "tailable" (Bool true) s = inr s'
    ∧ FindCursor.batchSize (Num n) s'
      = inl (MongoTailableCursorError "Tailable cursor does not support batchSize")
    ∧ FindCursor.limit (Num n) s'
      = inr (FindCursor.set_kBuiltOptions
               (<["limit" := Num n]> (FindCursor.kBuiltOptions s)) s')
    ∧ FindCursor.skip (Num n) s'
      = inr (FindCursor.set_kBuiltOptions
               (<["skip" := Num n]> (FindCursor.kBuiltOptions s)) s').
Proof.
  intros Hin Hopt. eexists. split.
  { unfold FindCursor.addCursorFlag, CursorApi.addCursorFlag,
      CursorApi.assertUninitialized.
    fold (FindCursor.cursor s). rewrite Hin. reflexivity. }
  split; [|split].
  - unfold FindCursor.batchSize, CursorApi.batchSize, CursorApi.assertUninitialized.
    cbn. fold (FindCursor.cursor s). rewrite Hin.
    unfold get. by rewrite lookup_insert.
  - unfold FindCursor.limit, FindCursor.setCount, CursorApi.assertUninitialized.
    cbn. fold (FindCursor.cursor s). by rewrite Hin, Hopt.
  - unfold FindCursor.skip, FindCursor.setCount, CursorApi.assertUninitialized.
    cbn. fold (FindCursor.cursor s). by rewrite Hin, Hopt.
Qed.

(** X20.  A cursor built with the option [tailable] refuses a limit, a
    skip and a sort, whatever their arguments, and still takes a batch
    size. *)
Theorem tailable_option_allows_batchSize
    (formatSort : value -> value -> UsageError + value) (s : FindCursor.t) (n : Z) :
  kInitialized (FindCursor.cursor s) = false ->
  truthy (get (FindCursor.kBuiltOptions s) "tailable") = true ->
  truthy (get (CursorApi.kOptions (FindCursor.api s)) "tailable") = false ->
  (forall value,
     FindCursor.limit value s
     = inl (MongoTailableCursorError "Tailable cursor does not support limit"))
  ∧ (forall value,
       FindCursor.skip value s
       = inl (MongoTailableCursorError "Tailable cursor does not support skip"))
  ∧ (forall spec direction,
       FindCursor.sort formatSort spec direction s
       = inl (MongoTailableCursorError "Tailable cursor does not support sorting"))
  ∧ FindCursor.batchSize (Num n) s
    = inr (FindCursor.set_cursor
             (CursorApi.set_batchSize (Some n) (FindCursor.cursor s)) s).
Proof.
  intros Hin Hopt Hflag. split; [|split; [|split]].
  - intros value.
    unfold FindCursor.limit, FindCursor.setCount, CursorApi.assertUninitialized.
    by rewrite Hin, Hopt.
  - intros value.
    unfold FindCursor.skip, FindCursor.setCount, CursorApi.assertUninitialized.
    by rewrite Hin, Hopt.
  - intros spec direction.
    unfold FindCursor.sort, CursorApi.assertUninitialized. by rewrite Hin, Hopt.
  - unfold FindCursor.batchSize, CursorApi.batchSize, CursorApi.assertUninitialized.
    fold (FindCursor.cursor s). rewrite Hin, Hflag.
    by destruct s as [[c o] f r b].
Qed.

(** X21.  A query modifier changes the cursor as the method of its name
    does, [$showDiskLoc] as [showRecordId], [$query] as [filter] and
    [$orderby] as [sort] without a direction; but the modifier [$maxTimeMS]
    stores every value that is not a number, which the method refuses. *)
Theorem query_modifier_is_the_method
    (formatSort : value -> value -> UsageError + value) (value : value)
    (s : FindCursor.t) :
  Forall (λ '(name, method),
            FindCursor.addQueryModifier formatSort name value s = method value s)
         [("$comment", FindCursor.comment); ("$hint", FindCursor.hint);
          ("$max", FindCursor.max); ("$min", FindCursor.min);
          ("$returnKey", FindCursor.returnKey);
          ("$showDiskLoc", FindCursor.showRecordId); ("$query", FindCursor.filter)]
  ∧ (truthy (get (FindCursor.kBuiltOptions s) "tailable") = false ->
     FindCursor.addQueryModifier formatSort "$orderby" value s
     = FindCursor.sort formatSort value Undefined s)
  ∧ (forall n,
       FindCursor.addQueryModifier formatSort "$maxTimeMS" (Num n) s
       = FindCursor.maxTimeMS (Num n) s)
  ∧ ((forall n, value ≠ Num n) ->
     kInitialized (FindCursor.cursor s) = false ->
     FindCursor.addQueryModifier formatSort "$maxTimeMS" value s
     = inr (FindCursor.set_kBuiltOptions
              (<["maxTimeMS" := value]> (FindCursor.kBuiltOptions s)) s)
     ∧ FindCursor.maxTimeMS value s
       = inl (MongoInvalidArgumentError "Argument for maxTimeMS must be a number")).
Proof.
  split; [|split; [|split]].
  - repeat constructor;
      unfold FindCursor.addQueryModifier, FindCursor.comment, FindCursor.hint,
        FindCursor.max, FindCursor.min, FindCursor.returnKey, FindCursor.showRecordId,
        FindCursor.filter, FindCursor.setOption;
      by destruct (CursorApi.assertUninitialized (FindCursor.cursor s)).
  - intros Hopt. unfold FindCursor.addQueryModifier, FindCursor.sort.
    rewrite Hopt. by destruct (CursorApi.assertUninitialized (FindCursor.cursor s)).
  - intros n. unfold FindCursor.addQueryModifier, FindCursor.maxTimeMS, FindCursor.setNumber.
    by destruct (CursorApi.assertUninitialized (FindCursor.cursor s)).
  - intros Hnot Hin.
    unfold FindCursor.addQueryModifier, FindCursor.maxTimeMS, FindCursor.setNumber,
      CursorApi.assertUninitialized.
    rewrite Hin. destruct value as [| | |n| |]; try done. by destruct (Hnot n).
Qed.

End Find.

(** ** The properties at the sample inputs *)

Section AtSamples.

Import Cursor.

Lemma toArray_returns_all_batches_witness :
  exists c' env' effects,
    CursorApi.toArray 5 4 Scenario.threeBatches Scenario.mappedCursor
    = (Done None
         (Some (List.map Scenario.seen [Sample.doc 1; Sample.doc 2; Sample.doc 3])),
       c', env', effects)
    ∧ kClosed c' = true
    ∧ getMoreReplies env' = []
    ∧ length (List.filter is_getMore effects) = 3%nat.
Proof.
  apply (toArray_returns_all_batches Scenario.mappedCursor Scenario.threeBatches
           (Long.Alloc 42) Sample.server
           [(Long.Number 42, [Sample.doc 1; Sample.doc 2]); (Long.Number 43, [])]
           (Long.Number 0) [Sample.doc 3] [] 0 0); try reflexivity.
  by repeat constructor.
Defined.

Lemma tryNext_returns_on_empty_batch_witness :
  let c' := set_kId (Some (Long.Alloc 42)) (set_kDocuments [] Sample.liveCursor) in
  exists batchSize,
    tryNext 1 Scenario.emptyBatch Sample.liveCursor
    = (Done None None, c', popGetMore Scenario.emptyBatch,
       [GetMore "db.c" (Long.Alloc 42) batchSize])
    ∧ kClosed c' = false
    ∧ next 2 true Scenario.emptyBatch Sample.liveCursor
      = (let '(r, c2, env2, e2) := next 1 true (popGetMore Scenario.emptyBatch) c' in
         (r, c2, env2, GetMore "db.c" (Long.Alloc 42) batchSize :: e2)).
Proof.
  apply (tryNext_returns_on_empty_batch Sample.liveCursor Scenario.emptyBatch
           (Long.Alloc 42) Sample.server (Long.Number 42) [] 0); reflexivity.
Defined.

Lemma hasNext_puts_the_document_back_witness :
  exists batchSize c1,
    hasNext 2 Scenario.oneBatch Scenario.mappedCursor
    = (Done None (Some true), c1, popGetMore Scenario.oneBatch,
       [GetMore "db.c" (Long.Alloc 42) batchSize])
    ∧ kDocuments c1 = Scenario.seen (Sample.doc 1) :: [Sample.doc 2]
    ∧ next_method 1 (popGetMore Scenario.oneBatch) c1
      = (Done None (Some (Scenario.seen (Scenario.seen (Sample.doc 1)))),
         set_kDocuments [Sample.doc 2] c1, popGetMore Scenario.oneBatch, [])
    ∧ (kTransform Scenario.mappedCursor = None ->
       (next_method 1 (popGetMore Scenario.oneBatch) c1).1.1.1
       = Done None (Some (Sample.doc 1))).
Proof.
  apply (hasNext_puts_the_document_back Scenario.mappedCursor Scenario.oneBatch
           (Long.Alloc 42) Sample.server (Long.Number 42) (Sample.doc 1) [Sample.doc 2]
           [] 0); reflexivity.
Defined.

Lemma response_without_cursor_is_the_only_document_witness :
  let run := nexts 2 2 true Scenario.explainEnv Sample.freshCursor in
  run.1.1.1 = [Done None (Some (Sample.doc 7)); Done None None]
  ∧ kClosed run.1.1.2 = true
  ∧ initReplies run.1.2 = []
  ∧ List.filter is_getMore run.2 = []
  ∧ List.filter is_killCursors run.2 = [].
Proof.
  apply (response_without_cursor_is_the_only_document Sample.freshCursor
           Scenario.explainEnv Scenario.explained [] 0 true); reflexivity.
Defined.

Lemma initialize_error_closes_cursor_witness :
  let run := next 2 true Scenario.brokenInit Sample.freshCursor in
  run.1.1.1 = Done (Some Sample.networkError) None
  ∧ kInitialized run.1.1.2 = true
  ∧ initReplies run.1.2 = []
  ∧ List.filter is_emit_close run.2 = [Emit CLOSE]
  ∧ List.filter is_getMore run.2 = [] ∧ List.filter is_killCursors run.2 = []
  ∧ (kClosed run.1.1.2 = true ∧ kId run.1.1.2 = Some Long.ZERO).
Proof.
  apply (initialize_error_closes_cursor Sample.freshCursor Scenario.brokenInit
           Sample.networkError [] 0 true); reflexivity.
Defined.

Lemma getMore_error_leaves_cursor_open_witness :
  let c' := set_kKilled true Sample.liveCursor in
  exists batchSize,
    next 1 true Scenario.brokenGetMore Sample.liveCursor
    = (Done (Some Sample.networkError) None, c', popGetMore Scenario.brokenGetMore,
       [GetMore "db.c" (Long.Alloc 42) batchSize; KillCursors "db.c" (Long.Alloc 42);
        Emit CLOSE])
    ∧ kClosed c' = false ∧ kId c' = Some (Long.Alloc 42)
    ∧ exists batchSize' more,
        (next 1 true (popGetMore Scenario.brokenGetMore) c').2
        = GetMore "db.c" (Long.Alloc 42) batchSize' :: more.
Proof.
  apply (getMore_error_leaves_cursor_open Sample.liveCursor Scenario.brokenGetMore
           (Long.Alloc 42) Sample.server Sample.networkError [] 0 true); reflexivity.
Defined.

Lemma configuring_a_used_cursor_fails_witness :
  let c' := (next 2 true Scenario.findEnv Sample.freshCursor).1.1.2 in
  (forall transform, CursorApi.map transform c' = inl MongoCursorInUseError)
  ∧ (forall options flag value,
       CursorApi.addCursorFlag flag value (CursorApi.mk c' options)
       = inl MongoCursorInUseError)
  ∧ (forall options value,
       CursorApi.maxTimeMS value (CursorApi.mk c' options) = inl MongoCursorInUseError)
  ∧ (forall options value,
       CursorApi.batchSize value (CursorApi.mk c' options) = inl MongoCursorInUseError)
  ∧ (forall life transform,
       exists c2, CursorApi.map transform (CursorApi.rewind life c').1 = inr c2).
Proof.
  apply (configuring_a_used_cursor_fails Sample.freshCursor Scenario.findEnv
           None (Some Scenario.found) [] 0 true); reflexivity.
Defined.

Lemma rewind_replays_the_query_witness :
  let c' := (CursorApi.rewind Scenario.implicitSession Scenario.mappedCursor).1 in
  let run := next 2 true Scenario.findEnv c' in
  (CursorApi.rewind Scenario.implicitSession Scenario.mappedCursor).2 = []
  ∧ kSession c' = None ∧ kInitialized c' = false ∧ kKilled c' = false
  ∧ run.1.1.1 = Done None (Some (Scenario.seen (Sample.doc 1)))
  ∧ kDocuments run.1.1.2 = [Sample.doc 2]
  ∧ kId run.1.1.2 = Some (Long.Alloc 42)
  ∧ initReplies run.1.2 = [].
Proof.
  apply (rewind_replays_the_query Scenario.mappedCursor Scenario.implicitSession
           Scenario.findEnv Scenario.found Scenario.firstBatch (Sample.doc 1)
           [Sample.doc 2] [] 0 true); reflexivity.
Defined.

Lemma map_composes_witness :
  exists c1 c2,
    CursorApi.map Scenario.seen Sample.freshCursor = inr c1
    ∧ CursorApi.map Scenario.counted c1 = inr c2
    ∧ (forall doc,
         transformed c2 doc
         = Scenario.counted (Scenario.seen (transformed Sample.freshCursor doc)))
    ∧ CursorApi.set_kTransform (kTransform Sample.freshCursor) c2 = Sample.freshCursor.
Proof.
  apply (map_composes Sample.freshCursor Scenario.seen Scenario.counted); reflexivity.
Defined.

Lemma tailable_cursor_refuses_batchSize_witness :
  exists s',
    CursorApi.addCursorFlag "tailable" (Bool true) (CursorApi.mk Sample.freshCursor ∅)
    = inr s'
    ∧ CursorApi.batchSize (Num 10) s'
      = inl (MongoTailableCursorError "Tailable cursor does not support batchSize").
Proof.
  apply (tailable_cursor_refuses_batchSize (CursorApi.mk Sample.freshCursor ∅) true 10);
    reflexivity.
Defined.

Lemma forEach_visits_what_toArray_returns_witness :
  let run := CursorApi.toArray 4 2 Scenario.twoBatches Sample.liveCursor in
  CursorApi.forEach 4 2 (λ _, CursorApi.Continue) Scenario.twoBatches Sample.liveCursor
  = (Done None None, [Sample.doc 1; Sample.doc 2; Sample.doc 3],
     run.1.1.2, run.1.2, run.2).
Proof.
  apply (forEach_visits_what_toArray_returns (λ _, CursorApi.Continue) 4 2
           Scenario.twoBatches (CursorApi.toArray 4 2 Scenario.twoBatches Sample.liveCursor).1.2
           Sample.liveCursor
           (CursorApi.toArray 4 2 Scenario.twoBatches Sample.liveCursor).1.1.2
           [Sample.doc 1; Sample.doc 2; Sample.doc 3]
           (CursorApi.toArray 4 2 Scenario.twoBatches Sample.liveCursor).2);
    [reflexivity|by vm_compute].
Defined.

Lemma limit_reached_closes_cursor_witness :
  let run := Dispatch.next 2 true Scenario.oneBatch (Scenario.limited 5) in
  run.1.1.1 = Done None None
  ∧ kClosed (FindCursor.cursor run.1.1.2) = true
  ∧ run.1.2 = Scenario.oneBatch
  ∧ run.2 = [KillCursors "db.c" (Long.Alloc 42); Emit CLOSE].
Proof.
  apply (limit_reached_closes_cursor (Scenario.limited 5) Scenario.oneBatch
           (Long.Alloc 42) Sample.server 5 5 0 true); try reflexivity.
  lia.
Defined.

Lemma limit_clamps_getMore_witness :
  let run := Dispatch.next 2 true Scenario.oneBatch (Scenario.limited 3) in
  run.1.1.1 = Done None (Some (Sample.doc 1))
  ∧ run.2 = [GetMore "db.c" (Long.Alloc 42) 2]
  ∧ FindCursor.kNumReturned run.1.1.2 = Some 5
  ∧ kDocuments (FindCursor.cursor run.1.1.2) = [Sample.doc 2].
Proof.
  apply (limit_clamps_getMore (Scenario.limited 3) Scenario.oneBatch
           (Long.Alloc 42) Sample.server 3 5 (Long.Number 42) (Sample.doc 1)
           [Sample.doc 2] [] 0 true); try reflexivity.
  lia.
Defined.

Lemma tailable_flag_allows_limit_witness :
  exists s',
    FindCursor.addCursorFlag "tailable" (Bool true) Scenario.unusedFind = inr s'
    ∧ FindCursor.batchSize (Num 10) s'
      = inl (MongoTailableCursorError "Tailable cursor does not support batchSize")
    ∧ FindCursor.limit (Num 10) s'
      = inr (FindCursor.set_kBuiltOptions
               (<["limit" := Num 10]> (FindCursor.kBuiltOptions Scenario.unusedFind)) s')
    ∧ FindCursor.skip (Num 10) s'
      = inr (FindCursor.set_kBuiltOptions
               (<["skip" := Num 10]> (FindCursor.kBuiltOptions Scenario.unusedFind)) s').
Proof.
  apply (tailable_flag_allows_limit Scenario.unusedFind 10); reflexivity.
Defined.

Lemma tailable_option_allows_batchSize_witness :
  (forall value,
     FindCursor.limit value Scenario.tailableFind
     = inl (MongoTailableCursorError "Tailable cursor does not support limit"))
  ∧ (forall value,
       FindCursor.skip value Scenario.tailableFind
       = inl (MongoTailableCursorError "Tailable cursor does not support skip"))
  ∧ (forall spec direction,
       FindCursor.sort Scenario.sortAsGiven spec direction Scenario.tailableFind
       = inl (MongoTailableCursorError "Tailable cursor does not support sorting"))
  ∧ FindCursor.batchSize (Num 10) Scenario.tailableFind
    = inr (FindCursor.set_cursor
             (CursorApi.set_batchSize (Some 10) (FindCursor.cursor Scenario.tailableFind))
             Scenario.tailableFind).
Proof.
  apply (tailable_option_allows_batchSize Scenario.sortAsGiven Scenario.tailableFind 10);
    reflexivity.
Defined.

End AtSamples.

(** ** The engine and its consumer *)

Section Consumer.

Import ChangeStream.

Lemma told_forward effects : omap told (forward effects) = [].
Proof.
  induction effects as [|e effects IH]; [done|].
  unfold forward in *. cbn [flat_map].
  rewrite omap_app, IH, app_nil_r.
  destruct e as [ev| | | | | |]; try done. by destruct ev.
Qed.

Lemma told_endStream s : omap told (_endStream s).2 = [].
Proof. unfold _endStream. by destruct (kCursorStream s). Qed.

Lemma told_close s : omap told (close s).2 = [].
Proof.
  unfold close. cbn [cursor set_kClosed].
  destruct (cursor s) as [c|]; [|done].
  destruct (Cursor.close (ChangeStreamCursor.base c)) as [b e1].
  pose proof (told_endStream (set_kClosed true s)) as H.
  destruct (_endStream (set_kClosed true s)) as [s2 e2].
  cbn in *. by rewrite omap_app, told_forward, H.
Qed.

Lemma close_state s :
  kClosed (close s).1 = true ∧ cursor (close s).1 = None
  ∧ kResumeQueue (close s).1 = kResumeQueue s ∧ kMode (close s).1 = kMode s.
Proof.
  unfold close. cbn [cursor set_kClosed].
  destruct (cursor s) as [c|] eqn:Hc; [|by rewrite ?Hc].
  destruct (Cursor.close (ChangeStreamCursor.base c)) as [b e1].
  unfold _endStream. by cbn.
Qed.

Lemma delivered_forward effects : omap delivered (forward effects) = [].
Proof.
  induction effects as [|e effects IH]; [done|].
  unfold forward in *. cbn [flat_map].
  rewrite omap_app, IH, app_nil_r.
  destruct e as [ev| | | | | |]; try done. by destruct ev.
Qed.

Lemma delivered_close s : omap delivered (close s).2 = [].
Proof.
  unfold close. cbn [cursor set_kClosed].
  destruct (cursor s) as [c|]; [|done].
  destruct (Cursor.close (ChangeStreamCursor.base c)) as [b e1].
  unfold _endStream. cbn. rewrite omap_app, delivered_forward.
  by destruct (kCursorStream s).
Qed.

(** X22.  When [_processNewChange] is called with a callback, as the
    iterator operations call it, a change without a resume token ([_id]
    missing or falsy), or no change at all, closes an open change stream:
    the engine drops its cursor, hands out no change, and tells the
    consumer once, through the callback, which is called last, when the
    cursor is closed. *)
Theorem change_without_resume_token_closes_stream
    (s : t) (change : option Document) (cb : nat) :
  kClosed s = false ->
  match change with
  | Some change => truthy (get change "_id") = false
  | None => True
  end ->
  let out := _processNewChange change (Some cb) s in
  let error :=
    match change with
    | Some _ => MongoChangeStreamError NO_RESUME_TOKEN_ERROR
    | None => MongoRuntimeError CHANGESTREAM_CLOSED_ERROR
    end in
  kClosed out.1 = true ∧ cursor out.1 = None
  ∧ omap delivered out.2 = []
  ∧ omap told out.2 = [(Some cb, error)]
  ∧ last out.2 = Some (Call cb (Some error) None).
Proof.
  intros Hopen Hid. cbv zeta. unfold _processNewChange. rewrite Hopen.
  assert (Hclose : forall error,
    let out := _closeWithError error (Some cb) s in
    kClosed out.1 = true ∧ cursor out.1 = None
    ∧ omap delivered out.2 = [] ∧ omap told out.2 = [(Some cb, error)]
    ∧ last out.2 = Some (Call cb (Some error) None)).
  { intros error. cbv zeta. unfold _closeWithError.
    destruct (close_state s) as (H1 & H2 & _).
    pose proof (told_close s) as H3. pose proof (delivered_close s) as H4.
    destruct (close s) as [s1 e1]. cbn in *.
    rewrite !omap_app, H3, H4. by rewrite last_snoc. }
  destruct change as [change|]; [rewrite Hid|]; apply Hclose.
Qed.

Lemma told_runs err hasCursor (queue : list Request) :
  omap told (map (λ request, Run request err hasCursor) queue) = [].
Proof. induction queue as [|r q IH]; [done|]. exact IH. Qed.

Lemma ran_runs err hasCursor (queue : list Request) :
  omap ran (map (λ request, Run request err hasCursor) queue)
  = map (λ request, (request, err, hasCursor)) queue.
Proof. induction queue as [|r q IH]; [done|]. cbn. by rewrite <- IH. Qed.

Lemma processError_resumable error callback s c :
  kClosed s = false -> cursor s = Some c ->
  exists w,
    (_processError true error callback s).2 = Some w
    ∧ waitingCallback w = callback
    ∧ ChangeStreamCursor.set_base (ChangeStreamCursor.base c) (oldCursor w) = c
    ∧ omap told (_processError true error callback s).1.2 = []
    ∧ let s1 := (_processError true error callback s).1.1 in
      kClosed s1 = false ∧ cursor s1 = None
      ∧ kResumeQueue s1 = kResumeQueue s ∧ kMode s1 = kMode s
      ∧ changeListeners s1 = changeListeners s
      ∧ type s1 = type s ∧ pipeline s1 = pipeline s ∧ parent s1 = parent s.
Proof.
  intros Hopen Hc. unfold _processError. rewrite Hopen, Hc.
  destruct (Cursor.close (ChangeStreamCursor.base c)) as [b e2] eqn:Hb.
  unfold _endStream. cbn. eexists. split; [reflexivity|]. cbn.
  split; [done|]. split; [by destruct c|].
  split; [|done].
  rewrite omap_app, told_forward. by destruct (kCursorStream s).
Qed.

(** X23.  When the wait for the topology times out after a failed [next],
    the stream is closed and every queued continuation is run with the
    error of the timeout, but nobody is told that error directly: the
    retry of the failed [next] ignores it and answers its callback with
    "ChangeStream is closed", while a request that was queued during the
    wait answers its callback with the error of the timeout. *)
Theorem timeout_of_the_wait_is_reported_as_closed
    (s : t) (c : ChangeStreamCursor.t) (cb : nat) (error timeout : Error)
    (probe : ChangeStreamCursor.t -> option Error * ChangeStreamCursor.t) :
  kClosed s = false -> cursor s = Some c -> kMode s ≠ Emitter ->
  exists w s1 e1 s2 e2,
    nextReturned true cb (Some error) None s = (s1, e1, Some w)
    ∧ omap told e1 = []
    ∧ topologyWaited w (Some timeout) probe s1 = inr (s2, e2)
    ∧ kClosed s2 = true ∧ kResumeQueue s2 = []
    ∧ omap told e2 = []
    ∧ omap ran e2
      = map (λ request, (request, Some timeout, false)) (NextAgain cb :: kResumeQueue s)
    ∧ (Continuation.runRequest (NextAgain cb) (Some timeout) false s2).2
      = Continuation.Answered cb (Some closedError)
    ∧ (forall op cb',
         (Continuation.runRequest (WithCursor op cb') (Some timeout) false s2).2
         = Continuation.Answered cb' (Some timeout)).
Proof.
  intros Hopen Hc Hmode.
  set (s0 := set_kResumeQueue (NextAgain cb :: kResumeQueue s) s).
  destruct (processError_resumable error (Some cb) s0 c Hopen Hc)
    as (w & Hw & Hcb & _ & Htold & Hopen1 & Hc1 & Hq1 & Hmode1 & _).
  destruct (_processError true error (Some cb) s0) as [[s1 e1] w'] eqn:Hpe.
  cbn in Hw, Htold, Hopen1, Hc1, Hq1, Hmode1. subst w'.
  exists w, s1, e1.
  assert (Hun : unresumableError (Some cb) timeout s1
    = (set_kResumeQueue [] (set_kClosed true s1),
       map (λ request, Run request (Some timeout) false) (NextAgain cb :: kResumeQueue s))).
  { unfold unresumableError, close. cbn [cursor set_kClosed]. rewrite Hc1.
    unfold _processResumeQueue. cbn [kClosed cursor kResumeQueue set_kClosed].
    rewrite Hc1, Hq1, drain_error. reflexivity. }
  eexists _, _. split; [exact Hpe|]. split; [exact Htold|].
  split; [unfold topologyWaited; rewrite Hcb, Hun; reflexivity|].
  split; [done|]. split; [done|].
  split; [apply told_runs|]. split; [apply ran_runs|].
  split.
  - unfold Continuation.runRequest, next, iterate, _setIsIterator.
    cbn [kMode set_kResumeQueue set_kClosed]. rewrite Hmode1.
    cbn [kMode set_kResumeQueue]. destruct (kMode s) eqn:Hm; done.
  - intros op cb'. reflexivity.
Qed.






(** X26.  A ['change'] listener that was attached in iterator mode while
    the engine had no cursor makes the resume fail: when the topology is
    connected again, the creation of the new cursor throws the error of the
    mode guard, the engine keeps no cursor and the queued requests are
    neither run nor answered. *)
Theorem listener_added_while_waiting_breaks_the_resume
    (s : t) (w : Waiting)
    (probe : ChangeStreamCursor.t -> option Error * ChangeStreamCursor.t) :
  kClosed s = false -> cursor s = None -> kMode s = Iterator ->
  exists s1,
    on "change" s = inr (s1, [])
    ∧ kResumeQueue s1 = kResumeQueue s
    ∧ topologyWaited w None probe s1 = inl emitterAfterIterator
    ∧ step s1 (OpTopologyWaited w None probe) = s1.
Proof.
  intros Hopen Hc Hmode. eexists. split.
  { unfold on. rewrite Hc. cbn. reflexivity. }
  split; [done|].
  assert (Hw : topologyWaited w None probe
                 (set_changeListeners (S (changeListeners s)) s)
               = inl emitterAfterIterator).
  { unfold topologyWaited, _createChangeStreamCursor.
    destruct (ChangeStreamCursor.new _ _ _ _) as [c e1].
    cbn [changeListeners set_changeListeners Nat.ltb Nat.leb].
    unfold _streamEvents, _setIsEmitter. cbn. by rewrite Hmode. }
  split; [exact Hw|]. cbn [step]. by rewrite Hw.
Qed.

End Consumer.

(** ** The wait for the topology *)

Section Wait.

(** X27.  The wait for the topology ends at the first run of the timer
    that finds the topology connected or the time over, whatever comes
    later: a connected topology ends it without an error even when the time
    is over, and a timeout of 0 stands for 30 seconds. *)
Theorem wait_ends_at_the_first_decisive_tick
    (timeout : option Z) (before later : list (bool * Z)) (duration : Z) :
  let limit :=
    match timeout with
    | Some t => if t =? 0 then SELECTION_TIMEOUT else t
    | None => SELECTION_TIMEOUT
    end in
  Forall (λ tick, tick.1 = false ∧ tick.2 <= limit) before ->
  _waitForTopologyConnected timeout before = None
  ∧ _waitForTopologyConnected timeout (before ++ (true, duration) :: later) = Some None
  ∧ (limit < duration ->
     _waitForTopologyConnected timeout (before ++ (false, duration) :: later)
     = Some (Some (MongoRuntimeError "Timed out waiting for connection"))).
Proof.
  intros limit Hbefore.
  induction Hbefore as [|[connected d] before [Hc Hd] _ IH]; cbn in *.
  - split; [done|]. split; [done|]. intros Hover.
    fold limit. by replace (limit <? duration) with true by lia.
  - subst connected. fold limit.
    replace (limit <? d) with false by lia. exact IH.
Qed.

End Wait.

(** ** The cursor of a resume *)

Section Resume.

Import ChangeStream.

Lemma createChangeStreamCursor_ok options s :
  changeListeners s = 0%nat ∨ kMode s ≠ Iterator ->
  exists s1 e1,
    _createChangeStreamCursor options s
    = inr ((ChangeStreamCursor.new (parentLoadBalanced (parent s))
              (parentNamespace (parent s))
              (ChangeStreamStage
                 (match type s with
                  | CLUSTER =>
                      <["allChangesForCluster" := Bool true]>
                        (filterOptions options CHANGE_STREAM_OPTIONS)
                  | _ => filterOptions options CHANGE_STREAM_OPTIONS
                  end) :: map UserStage (pipeline s))
              (filterOptions options CURSOR_OPTIONS)).1, s1, e1)
    ∧ kClosed s1 = kClosed s ∧ cursor s1 = cursor s
    ∧ kResumeQueue s1 = kResumeQueue s.
Proof.
  intros Hok. unfold _createChangeStreamCursor.
  destruct (ChangeStreamCursor.new _ _ _ _) as [c e1] eqn:Hnew.
  destruct (0 <? changeListeners s)%nat eqn:Hl.
  - destruct Hok as [Hz|Hm]; [rewrite Hz in Hl; done|].
    unfold _streamEvents, _setIsEmitter.
    destruct (kMode s); try done; by eexists _, _.
  - by eexists _, _.
Qed.

Lemma new_with_resumeAfter loadBalanced namespace pipeline (options : gmap string value)
    token :
  options !! "resumeAfter" = Some token -> options !! "startAfter" = None ->
  truthy token = true ->
  let c := (ChangeStreamCursor.new loadBalanced namespace pipeline options).1 in
  ChangeStreamCursor.resumeToken c = token ∧ ChangeStreamCursor.pipeline c = pipeline.
Proof.
  intros Hr Hs Ht. cbv zeta. unfold ChangeStreamCursor.new, get.
  rewrite Hs, Hr. cbn [default from_option id].
  change (truthy Undefined) with false. cbv iota. by rewrite Ht.
Qed.

(** X28.  After a change has been handed out, a resumable error leads to a
    new cursor that continues after that change: the cursor is created
    with the cached resume token, and its [$changeStream] stage carries the
    token as [resumeAfter], with neither [startAfter] nor
    [startAtOperationTime], whatever options the stream was opened with. *)
Theorem resumed_cursor_continues_after_the_last_change
    (s : t) (c : ChangeStreamCursor.t) (change : Document)
    (callback : option nat) (error : Error) :
  kClosed s = false -> cursor s = Some c ->
  truthy (get change "_id") = true ->
  changeListeners s = 0%nat ∨ kMode s ≠ Iterator ->
  let s1 := (_processNewChange (Some change) callback s).1 in
  let token := resumeToken s1 in
  truthy token = true
  ∧ omap delivered (_processNewChange (Some change) callback s).2 = [change]
  ∧ exists w s2 e2 newCursor s3 e3 stage,
      _processError true error callback s1 = (s2, e2, Some w)
      ∧ _createChangeStreamCursor (ChangeStreamCursor.resumeOptions (oldCursor w)) s2
        = inr (newCursor, s3, e3)
      ∧ ChangeStreamCursor.resumeToken newCursor = token
      ∧ ChangeStreamCursor.pipeline newCursor
        = ChangeStreamStage stage :: map UserStage (pipeline s)
      ∧ stage !! "resumeAfter" = Some token
      ∧ stage !! "startAfter" = None
      ∧ stage !! "startAtOperationTime" = None.
Proof.
  intros Hopen Hc Hid Hok s1 token.
  pose proof (cacheResumeToken_spec (get change "_id") c)
    as (Htok & Hrecv & Hev & Hopts & _).
  cbv zeta in Htok, Hev.
  assert (Hs1 : _processNewChange (Some change) callback s
    = (set_options (<["startAtOperationTime" := Undefined]> (options s))
         (set_cursor (Some (ChangeStreamCursor.cacheResumeToken (get change "_id") c).1) s),
       forward (ChangeStreamCursor.cacheResumeToken (get change "_id") c).2
       ++ [match callback with
           | None => CsEmit (CHANGE change)
           | Some cb => Call cb None (Some change)
           end])).
  { unfold _processNewChange. rewrite Hopen, Hid, Hc. cbn [negb].
    by destruct (ChangeStreamCursor.cacheResumeToken (get change "_id") c). }
  set (c1 := (ChangeStreamCursor.cacheResumeToken (get change "_id") c).1) in *.
  assert (Htoken : token = ChangeStreamCursor.resumeToken c1).
  { subst token s1. by rewrite Hs1. }
  assert (Htruthy : truthy token = true).
  { rewrite Htoken, Htok.
    destruct ((Cursor.bufferedCount (ChangeStreamCursor.base c) =? 0)
              && truthy (ChangeStreamCursor.postBatchResumeToken c)) eqn:Hb; [|done].
    by apply andb_true_iff in Hb as [_ Hb]. }
  split; [done|]. split.
  { rewrite Hs1. cbn [snd]. rewrite omap_app, delivered_forward. by destruct callback. }
  assert (Hopen1 : kClosed s1 = false) by (subst s1; by rewrite Hs1).
  assert (Hc1 : cursor s1 = Some c1) by (subst s1; by rewrite Hs1).
  destruct (processError_resumable error callback s1 c1 Hopen1 Hc1)
    as (w & Hw & _ & Hold & _ & Hopen2 & Hc2 & _ & Hmode2 & Hl2 & Hty2 & Hpipe2 & _).
  destruct (_processError true error callback s1) as [[s2 e2] w'] eqn:Hpe.
  cbn in Hw, Hopen2, Hc2, Hmode2, Hl2, Hty2, Hpipe2. subst w'.
  set (old := oldCursor w) in *.
  assert (Hold_token : ChangeStreamCursor.resumeToken old = token).
  { rewrite Htoken, <- Hold. reflexivity. }
  assert (Hold_recv : ChangeStreamCursor.hasReceived old = Some true).
  { rewrite <- Hrecv. fold c1. rewrite <- Hold. reflexivity. }
  pose proof (resumeOptions_token old) as Hro.
  rewrite Hold_token in Hro. specialize (Hro Htruthy). cbv zeta in Hro.
  rewrite Hold_recv in Hro. cbn [default negb] in Hro. rewrite andb_false_r in Hro.
  destruct Hro as (Hra & Hsa & Hot).
  destruct (createChangeStreamCursor_ok (ChangeStreamCursor.resumeOptions old) s2)
    as (s3 & e3 & Hcreate & _).
  { subst s1. rewrite Hs1 in Hl2, Hmode2. cbn in Hl2, Hmode2.
    rewrite Hl2, Hmode2. exact Hok. }
  assert (Hin : forall k, k ∈ START_OPTIONS ->
    k ∈ CHANGE_STREAM_OPTIONS ∧ k ∈ CURSOR_OPTIONS).
  { intros k Hk. apply START_OPTIONS_cases in Hk as [->|[->| ->]];
      split; cbn; repeat constructor. }
  assert (Hstart : forall k, k ∈ START_OPTIONS ->
    filterOptions (ChangeStreamCursor.resumeOptions old) CHANGE_STREAM_OPTIONS !! k
    = ChangeStreamCursor.resumeOptions old !! k
    ∧ filterOptions (ChangeStreamCursor.resumeOptions old) CURSOR_OPTIONS !! k
      = ChangeStreamCursor.resumeOptions old !! k).
  { intros k Hk. destruct (Hin k Hk) as [H1 H2]. rewrite !lookup_filterOptions.
    by rewrite !decide_True. }
  assert (HinS : forall k, k = "resumeAfter" ∨ k = "startAfter"
                           ∨ k = "startAtOperationTime" -> k ∈ START_OPTIONS).
  { intros k [->|[->| ->]]; cbn; repeat constructor. }
  eexists w, s2, e2, _, s3, e3, _. split; [reflexivity|].
  split; [exact Hcreate|].
  match goal with
  | |- context [ChangeStreamCursor.new ?lb ?ns ?p ?o] =>
      destruct (new_with_resumeAfter lb ns p o token) as [Hn1 Hn2]
  end.
  { destruct (Hstart "resumeAfter") as [_ ->]; [apply HinS; auto|]. exact Hra. }
  { destruct (Hstart "startAfter") as [_ ->]; [apply HinS; auto|]. exact Hsa. }
  { exact Htruthy. }
  split; [exact Hn1|].
  split.
  { rewrite Hn2, Hpipe2. subst s1. by rewrite Hs1. }
  assert (Hstage : forall k, k ∈ START_OPTIONS ->
    match type s2 with
    | CLUSTER =>
        <["allChangesForCluster" := Bool true]>
          (filterOptions (ChangeStreamCursor.resumeOptions old) CHANGE_STREAM_OPTIONS)
    | _ => filterOptions (ChangeStreamCursor.resumeOptions old) CHANGE_STREAM_OPTIONS
    end !! k = ChangeStreamCursor.resumeOptions old !! k).
  { intros k Hk. destruct (Hstart k Hk) as [H1 _].
    destruct (type s2); try done.
    rewrite lookup_insert_ne; [done|].
    apply START_OPTIONS_cases in Hk as [->|[->| ->]]; done. }
  rewrite !Hstage by (apply HinS; auto). done.
Qed.

(** X29.  The constructor accepts a collection, a database or a client
    as parent.  The engine it builds owns a cursor whose pipeline is the
    [$changeStream] stage followed by the stages of the consumer in their
    order; the stage holds the change-stream options among the options
    given and nothing else, but [allChangesForCluster] for a client.  No
    mode is chosen and no stream is created. *)
Theorem constructor_builds_the_pipeline
    (parent : Parent) (pipeline : list Document) (options : gmap string value) :
  parentKind parent ≠ IsOther ->
  exists s c stage effects,
    new parent pipeline options = inr (s, effects)
    ∧ cursor s = Some c ∧ kMode s = Unset ∧ kClosed s = false
    ∧ kResumeQueue s = [] ∧ kCursorStream s = false
    ∧ ChangeStreamCursor.pipeline c = ChangeStreamStage stage :: map UserStage pipeline
    ∧ (forall k, k ∈ CHANGE_STREAM_OPTIONS -> stage !! k = options !! k)
    ∧ stage !! "allChangesForCluster"
      = (match parentKind parent with IsMongoClient => Some (Bool true) | _ => None end)
    ∧ (forall k, k ∉ CHANGE_STREAM_OPTIONS -> k ≠ "allChangesForCluster" ->
         stage !! k = None)
    ∧ Forall (λ e, e ≠ CreateStream) effects.
Proof.
  intros Hkind. unfold new.
  set (options' :=
    if negb (truthy (get options "readPreference")) && truthy (parentReadPreference parent)
    then <["readPreference" := parentReadPreference parent]> options else options).
  assert (Hopts : forall k, k ∈ CHANGE_STREAM_OPTIONS -> options' !! k = options !! k).
  { intros k Hk. subst options'. destruct (_ && _); [|done].
    rewrite lookup_insert_ne; [done|].
    intros <-. cbn in Hk. repeat (apply elem_of_cons in Hk as [Hk|Hk]; [done|]).
    by apply elem_of_nil in Hk. }
  assert (Hnot : "allChangesForCluster" ∉ CHANGE_STREAM_OPTIONS).
  { intros Hk. cbn in Hk. repeat (apply elem_of_cons in Hk as [Hk|Hk]; [done|]).
    by apply elem_of_nil in Hk. }
  assert (Hbuild : forall type,
    exists s c stage effects,
      match _createChangeStreamCursor options'
              (mk pipeline options' type parent None [] false false Unset 0) with
      | inl e => inl e
      | inr (c, s1, e1) =>
          inr (set_kMode Unset (set_kClosed false (set_cursor (Some c) s1)), e1)
      end = inr (s, effects)
      ∧ cursor s = Some c ∧ kMode s = Unset ∧ kClosed s = false
      ∧ kResumeQueue s = [] ∧ kCursorStream s = false
      ∧ ChangeStreamCursor.pipeline c = ChangeStreamStage stage :: map UserStage pipeline
      ∧ (forall k, k ∈ CHANGE_STREAM_OPTIONS -> stage !! k = options !! k)
      ∧ stage !! "allChangesForCluster"
        = (match type with CLUSTER => Some (Bool true) | _ => None end)
      ∧ (forall k, k ∉ CHANGE_STREAM_OPTIONS -> k ≠ "allChangesForCluster" ->
           stage !! k = None)
      ∧ Forall (λ e, e ≠ CreateStream) effects).
  { intros type. unfold _createChangeStreamCursor.
    cbn [ChangeStream.type ChangeStream.pipeline ChangeStream.parent changeListeners].
    match goal with
    | |- context [ChangeStreamCursor.new ?lb ?ns (ChangeStreamStage ?st :: ?p) ?o] =>
        set (stage := st);
        assert (Hp : ChangeStreamCursor.pipeline
                       (ChangeStreamCursor.new lb ns (ChangeStreamStage stage :: p) o).1
                     = ChangeStreamStage stage :: p);
        [|destruct (ChangeStreamCursor.new lb ns (ChangeStreamStage stage :: p) o)
            as [c e1]]
    end.
    { unfold ChangeStreamCursor.new.
      destruct (truthy (get _ "startAfter")); [reflexivity|].
      destruct (truthy (get _ "resumeAfter")); reflexivity. }
    cbn [Nat.ltb Nat.leb]. eexists _, c, stage, _. split; [reflexivity|].
    cbn in Hp. repeat split; try done.
    - intros k Hk. subst stage.
      assert (filterOptions options' CHANGE_STREAM_OPTIONS !! k = options !! k) as Hf.
      { rewrite lookup_filterOptions, decide_True by done. by apply Hopts. }
      destruct type; try done.
      rewrite lookup_insert_ne; [done|]. by intros <-.
    - subst stage. destruct type.
      + by rewrite lookup_filterOptions, decide_False.
      + by rewrite lookup_filterOptions, decide_False.
      + by rewrite lookup_insert.
    - intros k Hk Hne. subst stage.
      assert (filterOptions options' CHANGE_STREAM_OPTIONS !! k = None) as Hf.
      { by rewrite lookup_filterOptions, decide_False. }
      destruct type; try done. by rewrite lookup_insert_ne.
    - clear Hp. induction e1 as [|x l IH]; constructor; [done|exact IH]. }
  destruct (parentKind parent); try done; apply Hbuild.
Qed.

End Resume.

(** ** The properties of the engine at the sample inputs *)

Section EngineAtSamples.

Import ChangeStream.

Lemma change_without_resume_token_closes_stream_witness :
  let out := _processNewChange (Some (Sample.doc 1)) (Some 1%nat) Sample.engine in
  let error := MongoChangeStreamError NO_RESUME_TOKEN_ERROR in
  kClosed out.1 = true ∧ cursor out.1 = None
  ∧ omap delivered out.2 = []
  ∧ omap told out.2 = [(Some 1%nat, error)]
  ∧ last out.2 = Some (Call 1 (Some error) None).
Proof.
  apply (change_without_resume_token_closes_stream Sample.engine (Some (Sample.doc 1))
           1%nat); reflexivity.
Defined.

Lemma timeout_of_the_wait_is_reported_as_closed_witness :
  exists w s1 e1 s2 e2,
    nextReturned true 1 (Some Sample.networkError) None Sample.iterating
    = (s1, e1, Some w)
    ∧ omap told e1 = []
    ∧ topologyWaited w (Some Scenario.timedOut) Sample.probeOk s1 = inr (s2, e2)
    ∧ kClosed s2 = true ∧ kResumeQueue s2 = []
    ∧ omap told e2 = []
    ∧ omap ran e2
      = map (λ request, (request, Some Scenario.timedOut, false))
            (NextAgain 1 :: kResumeQueue Sample.iterating)
    ∧ (Continuation.runRequest (NextAgain 1) (Some Scenario.timedOut) false s2).2
      = Continuation.Answered 1 (Some closedError)
    ∧ (forall op cb',
         (Continuation.runRequest (WithCursor op cb') (Some Scenario.timedOut) false s2).2
         = Continuation.Answered cb' (Some Scenario.timedOut)).
Proof.
  apply (timeout_of_the_wait_is_reported_as_closed Sample.iterating Sample.cursor 1
           Sample.networkError Scenario.timedOut Sample.probeOk);
    [reflexivity|reflexivity|discriminate].
Defined.


Lemma resumed_cursor_continues_after_the_last_change_witness :
  let s1 := (_processNewChange (Some Sample.change) None Sample.engine).1 in
  let token := resumeToken s1 in
  truthy token = true
  ∧ omap delivered (_processNewChange (Some Sample.change) None Sample.engine).2
    = [Sample.change]
  ∧ exists w s2 e2 newCursor s3 e3 stage,
      _processError true Sample.networkError None s1 = (s2, e2, Some w)
      ∧ _createChangeStreamCursor (ChangeStreamCursor.resumeOptions (oldCursor w)) s2
        = inr (newCursor, s3, e3)
      ∧ ChangeStreamCursor.resumeToken newCursor = token
      ∧ ChangeStreamCursor.pipeline newCursor
        = ChangeStreamStage stage :: map UserStage (pipeline Sample.engine)
      ∧ stage !! "resumeAfter" = Some token
      ∧ stage !! "startAfter" = None
      ∧ stage !! "startAtOperationTime" = None.
Proof.
  apply (resumed_cursor_continues_after_the_last_change Sample.engine Sample.cursor
           Sample.change None Sample.networkError);
    [reflexivity|reflexivity|reflexivity|left; reflexivity].
Defined.

Lemma constructor_builds_the_pipeline_witness :
  exists s c stage effects,
    new Sample.parent [] ∅ = inr (s, effects)
    ∧ cursor s = Some c ∧ kMode s = Unset ∧ kClosed s = false
    ∧ kResumeQueue s = [] ∧ kCursorStream s = false
    ∧ ChangeStreamCursor.pipeline c = ChangeStreamStage stage :: map UserStage []
    ∧ (forall k, k ∈ CHANGE_STREAM_OPTIONS -> stage !! k = (∅ : gmap string value) !! k)
    ∧ stage !! "allChangesForCluster" = None
    ∧ (forall k, k ∉ CHANGE_STREAM_OPTIONS -> k ≠ "allChangesForCluster" ->
         stage !! k = None)
    ∧ Forall (λ e, e ≠ CreateStream) effects.
Proof.
  apply (constructor_builds_the_pipeline Sample.parent [] ∅). discriminate.
Defined.

Lemma listener_added_while_waiting_breaks_the_resume_witness :
  exists s1,
    on "change" Sample.resuming = inr (s1, [])
    ∧ kResumeQueue s1 = kResumeQueue Sample.resuming
    ∧ topologyWaited Sample.waiting None Sample.probeOk s1 = inl emitterAfterIterator
    ∧ step s1 (OpTopologyWaited Sample.waiting None Sample.probeOk) = s1.
Proof.
  apply (listener_added_while_waiting_breaks_the_resume Sample.resuming Sample.waiting
           Sample.probeOk); reflexivity.
Defined.

Lemma wait_ends_at_the_first_decisive_tick_witness :
  _waitForTopologyConnected None [(false, 500); (false, 30000)] = None
  ∧ _waitForTopologyConnected None ([(false, 500); (false, 30000)] ++ [(true, 30500)])
    = Some None
  ∧ (SELECTION_TIMEOUT < 30500 ->
     _waitForTopologyConnected None ([(false, 500); (false, 30000)] ++ [(false, 30500)])
     = Some (Some (MongoRuntimeError "Timed out waiting for connection"))).
Proof.
  apply (wait_ends_at_the_first_decisive_tick None [(false, 500); (false, 30000)] []
           30500).
  repeat constructor; cbn; unfold SELECTION_TIMEOUT; lia.
Defined.

End EngineAtSamples.
